(** * Dashboard components of ppfl: a shallow embedding

    The client of the surveillance / federated-learning dashboard is a set of
    React components.  This development embeds the state logic of four of
    them,

    - [RealtimeMetrics]  (client/src/components/RealtimeMetrics.tsx),
    - [PrivacyControls], [AnomalyList] and [AnomalyAnalysis],

    as pure functions on explicit state, and proves the properties the
    specification states about them.

    Conventions.
    - A React state cell is a value threaded through the handlers; a setter
      called with an updater [prev => e] is the function [fun prev => e].
    - A JavaScript number is modelled by the rational it denotes ([Q]); NaN,
      the infinities and the sign of zero are outside the model.  Where a
      component prints a number rounded to an integer or to a number of
      decimals ([Math.round], [toFixed], [toExponential]), the number is the
      binary64 number the runtime has there: a number of the data is taken
      to the binary64 number it is parsed to ([Js.round64]), and a product
      or quotient is that of binary64 ([Js.fmul], [Js.fdiv]).  The geometry
      of the overlay and of the canvas is computed exactly: its rounding
      error is outside the model.
    - Values whose TypeScript type is [any] (the push payload, the
      /api/status snapshot) are modelled by the untyped [Js.value].
    - Timers and pending network requests of the upload poll loop are
      explicit data in [AnomalyAnalysis.Loop]; time is counted in
      milliseconds since the interval was registered.  Which of the two
      timers runs first when both are due at the same instant is left to
      the environment ([AnomalyAnalysis.stopFirst]).
    - The cards of the anomaly feed are children keyed by the id of their
      anomaly; which cards are on the page after a render is decided by the
      reconciliation of keyed children, modelled in [React]. *)

From Stdlib Require Import ZArith NArith QArith Qround Qabs.
From Stdlib Require Import String Ascii List Bool Lia DecimalString.
From Stdlib Require Import Field Qfield Lqa.
From Stdlib Require PrimFloat FloatOps SpecFloat Uint63.
Import ListNotations.

Local Open Scope list_scope.
Local Open Scope string_scope.

(* ===================================================================== *)
(** * The fragment of the JavaScript runtime the components rely on       *)
(* ===================================================================== *)

Module Js.

(** Decimal digits of a non-negative integer. *)
Definition digits (n : Z) : string :=
  NilZero.string_of_uint (N.to_uint (Z.to_N n)).

(** [String(n)] for an integral number [n]. *)
Definition intToString (n : Z) : string :=
  if (n <? 0)%Z then "-" ++ digits (- n) else digits n.

Fixpoint zeros (k : nat) : string :=
  match k with
  | O => ""
  | S k' => "0" ++ zeros k'
  end.

(** [Math.round]: the nearest integer, ties towards +infinity. *)
Definition Math_round (x : Q) : Z := Qfloor (x + (1 # 2)).

(** The integer [n] for which [n / 10^f - x] is closest to zero, the larger
    one on a tie ([x] non-negative). *)
Definition scaledRound (f : nat) (x : Q) : Z :=
  Qfloor (x * inject_Z (10 ^ Z.of_nat f) + (1 # 2)).

(** Puts the decimal point before the last [f] digits of [m]. *)
Definition pointBeforeLast (f : nat) (m : string) : string :=
  match f with
  | O => m
  | S _ =>
      let k := String.length m in
      let m' := if (k <=? f)%nat then zeros (f + 1 - k) ++ m else m in
      let k' := String.length m' in
      substring 0 (k' - f) m' ++ "." ++ substring (k' - f) f m'
  end.

(** [Number.prototype.toFixed(f)], for |x| below 10^21 (above, the runtime
    switches to exponent notation, which is not modelled). *)
Definition toFixed (f : nat) (x : Q) : string :=
  let s := if Qle_bool 0 x then "" else "-" in
  s ++ pointBeforeLast f (digits (scaledRound f (Qabs x))).

(** Number of decimal digits of a positive integer. *)
Definition ndigits (n : Z) : Z := Z.of_nat (String.length (digits n)).

(** The decimal exponent [e] of a positive rational: 10^e <= x < 10^(e+1). *)
Definition exponent10 (x : Q) : Z :=
  let e := (ndigits (Qnum x) - ndigits (Zpos (Qden x)))%Z in
  if Qle_bool (Qpower 10 e) x then e else (e - 1)%Z.

(** [Number.prototype.toExponential(f)]. *)
Definition toExponential (f : nat) (x : Q) : string :=
  let s := if Qle_bool 0 x then "" else "-" in
  let ax := Qabs x in
  let '(m, e) :=
    if Qeq_bool ax 0 then (zeros (f + 1), 0%Z)
    else
      let e0 := exponent10 ax in
      let n := Qfloor (ax / Qpower 10 (e0 - Z.of_nat f) + (1 # 2)) in
      if (n =? 10 ^ Z.of_nat (f + 1))%Z
      then (digits (10 ^ Z.of_nat f), (e0 + 1)%Z)
      else (digits n, e0) in
  let m := match f with
           | O => m
           | S _ => substring 0 1 m ++ "." ++ substring 1 f m
           end in
  let c := if (e <? 0)%Z then "-" else "+" in
  s ++ m ++ "e" ++ c ++ digits (Z.abs e).

(** ** Binary64 *)

(** The integer nearest to a non-negative rational, the even one on a
    tie. *)
Definition roundHalfEven (x : Q) : Z :=
  let f := Qfloor x in
  match Qcompare (x - inject_Z f) (1 # 2) with
  | Lt => f
  | Gt => (f + 1)%Z
  | Eq => if Z.even f then f else (f + 1)%Z
  end.

(** The binary exponent [e] of a positive rational: 2^e <= x < 2^(e+1). *)
Definition exponent2 (x : Q) : Z :=
  let e := (Z.log2 (Qnum x) - Z.log2 (Zpos (Qden x)))%Z in
  if Qle_bool (Qpower 2 e) x then e else (e - 1)%Z.

(** The binary64 number nearest to [x], the one with the even significand on
    a tie: 53 significant bits down to the exponent -1022, multiples of
    2^-1074 below.  This is the number a decimal literal denotes
    ([JSON.parse] included) and the result of an arithmetic operation whose
    exact result is [x]; it leaves a binary64 number as it is.  Beyond the
    largest binary64 number the runtime yields an infinity, which is not
    modelled. *)
Definition round64 (x : Q) : Q :=
  if Qeq_bool x 0 then 0
  else
    let ax := Qabs x in
    let e := Z.max (exponent2 ax) (-1022) in
    let ulp := Qpower 2 (e - 52) in
    let y := Qred (inject_Z (roundHalfEven (ax / ulp)) * ulp) in
    if Qle_bool 0 x then y else - y.

(** [a * b] and [a / b] (for [b] other than 0) on binary64 numbers. *)
Definition fmul (a b : Q) : Q := round64 (a * b).
Definition fdiv (a b : Q) : Q := round64 (a / b).

(** The rational that a binary64 number of the machine denotes, and the
    binary64 number of a small integer: the operations above can be compared
    with the machine's. *)
Definition exact64 (f : PrimFloat.float) : option Q :=
  match FloatOps.Prim2SF f with
  | SpecFloat.S754_zero _ => Some 0
  | SpecFloat.S754_finite s m e =>
      Some (Qred ((if s then -1 else 1) * inject_Z (Zpos m) * Qpower 2 e))
  | _ => None
  end.

Definition ofInt (n : Z) : PrimFloat.float :=
  PrimFloat.of_uint63 (Uint63.of_Z n).

Definition sameNumber (x : Q) (f : PrimFloat.float) : bool :=
  match exact64 f with
  | Some y => Qeq_bool x y
  | None => false
  end.

(** [a || b] on strings: the empty string is falsy. *)
Definition strOr (a b : string) : string :=
  if String.eqb a "" then b else a.

(** Untyped values: what [JSON.parse] produces, plus [undefined]. *)
#[warnings="-register-all"]
Inductive value : Type :=
| Undefined
| Null
| Bool (b : bool)
| Num (q : Q)
| Str (s : string)
| Arr (xs : list value)
| Obj (fields : list (string * value)).

(** [String(v)], where it is modelled: not for a number that is not an
    integer below 10^21 in magnitude (whose text is the shortest decimal
    that reads back as the number), nor for an array. *)
Definition toString (v : value) : option string :=
  match v with
  | Undefined => Some "undefined"
  | Null => Some "null"
  | Bool true => Some "true"
  | Bool false => Some "false"
  | Num q =>
      if Qeq_bool q (inject_Z (Qfloor q))
         && (Z.abs (Qfloor q) <? 10 ^ 21)%Z
      then Some (intToString (Qfloor q))
      else None
  | Str s => Some s
  | Arr _ => None
  | Obj _ => Some "[object Object]"
  end.

(** ToBoolean. *)
Definition truthy (v : value) : bool :=
  match v with
  | Undefined | Null => false
  | Bool b => b
  | Num q => negb (Qeq_bool q 0)
  | Str s => negb (String.eqb s "")
  | Arr _ | Obj _ => true
  end.

(** [a || b]. *)
Definition or (a b : value) : value := if truthy a then a else b.

Fixpoint lookup (k : string) (fields : list (string * value)) : value :=
  match fields with
  | [] => Undefined
  | (k', v) :: rest => if String.eqb k k' then v else lookup k rest
  end.

(** [v.k] for a [v] that is neither [null] nor [undefined].  Only own
    properties of objects are modelled: no component reads an inherited
    property or an index or [length] of an array or string through it. *)
Definition get (v : value) (k : string) : value :=
  match v with
  | Obj fields => lookup k fields
  | _ => Undefined
  end.

(** [v?.k]. *)
Definition optGet (v : value) (k : string) : value :=
  match v with
  | Undefined | Null => Undefined
  | _ => get v k
  end.

(** [o[k] = v] on the property list of an object: an existing key keeps its
    place, a new one goes last. *)
Fixpoint set (k : string) (v : value) (fields : list (string * value))
  : list (string * value) :=
  match fields with
  | [] => [(k, v)]
  | (k', v') :: rest =>
      if String.eqb k k' then (k, v) :: rest else (k', v') :: set k v rest
  end.

Fixpoint indexed {A : Type} (f : A -> value) (i : nat) (xs : list A)
  : list (string * value) :=
  match xs with
  | [] => []
  | x :: rest => (digits (Z.of_nat i), f x) :: indexed f (S i) rest
  end.

(** The own enumerable properties copied by [{...v}]. *)
Definition spread (v : value) : list (string * value) :=
  match v with
  | Obj fields => fields
  | Arr xs => indexed (fun x => x) 0 xs
  | Str s => indexed (fun c => Str (String c "")) 0 (list_ascii_of_string s)
  | _ => []
  end.

(** [{...v, k1: v1, ..., kn: vn}]. *)
Definition objectWith (v : value) (props : list (string * value)) : value :=
  Obj (fold_left (fun fields kv => set (fst kv) (snd kv) fields)
                 props (spread v)).

(** ** Strings *)

(** Case mapping of the ASCII letters.  [toLowerCase] and [toUpperCase]
    below are exact on ASCII strings; the case mappings of other scripts
    are not modelled. *)
Definition lowerChar (c : ascii) : ascii :=
  let n := nat_of_ascii c in
  if (65 <=? n)%nat && (n <=? 90)%nat then ascii_of_nat (n + 32) else c.

Definition upperChar (c : ascii) : ascii :=
  let n := nat_of_ascii c in
  if (97 <=? n)%nat && (n <=? 122)%nat then ascii_of_nat (n - 32) else c.

Fixpoint mapChars (f : ascii -> ascii) (s : string) : string :=
  match s with
  | EmptyString => EmptyString
  | String c rest => String (f c) (mapChars f rest)
  end.

Definition toLowerCase (s : string) : string := mapChars lowerChar s.
Definition toUpperCase (s : string) : string := mapChars upperChar s.

Fixpoint isAscii (s : string) : bool :=
  match s with
  | EmptyString => true
  | String c rest => (nat_of_ascii c <? 128)%nat && isAscii rest
  end.

(** [s.split(sep)] for a separator of one character. *)
Fixpoint split (sep : ascii) (s : string) : list string :=
  match s with
  | EmptyString => [EmptyString]
  | String c rest =>
      if Ascii.eqb c sep then EmptyString :: split sep rest
      else match split sep rest with
           | word :: words => String c word :: words
           | [] => [String c EmptyString]
           end
  end.

(** [words.join(sep)]. *)
Fixpoint join (sep : string) (words : list string) : string :=
  match words with
  | [] => EmptyString
  | [word] => word
  | word :: rest => word ++ sep ++ join sep rest
  end.

(** [s.replace(c, by)] for a pattern of one character: only the first
    occurrence is replaced. *)
Fixpoint replaceFirst (c : ascii) (by_ : string) (s : string) : string :=
  match s with
  | EmptyString => EmptyString
  | String c' rest =>
      if Ascii.eqb c' c then by_ ++ rest
      else String c' (replaceFirst c by_ rest)
  end.

(** Number of occurrences of a character. *)
Fixpoint count (c : ascii) (s : string) : nat :=
  match s with
  | EmptyString => O
  | String c' rest => (if Ascii.eqb c' c then 1 else 0) + count c rest
  end.

End Js.

(* ===================================================================== *)
(** * The push channel                                                    *)
(* ===================================================================== *)

Module WebSocket.

(** Modelled from the spec: the envelope [{type: string, data: any}] that the
    [useWebSocket] hook (hooks/useWebSocket, not among the sources) hands to
    the components as [lastMessage]; [None] is the [null] before the first
    message. *)
Record Message : Type := { type : string; data : Js.value }.

End WebSocket.

(* ===================================================================== *)
(** * RealtimeMetrics.tsx                                                 *)
(* ===================================================================== *)

Module RealtimeMetrics.
Import WebSocket.

(** The argument of [useState<Metrics>]. *)
Definition initialState : Js.value :=
  Js.Obj [ ("activeAnomalies", Js.Num 0);
           ("flProgress", Js.Num 0);
           ("privacyBudget", Js.Num 6.0);
           ("modelAccuracy", Js.Num 0);
           ("totalClients", Js.Num 0);
           ("onlineClients", Js.Num 0) ].

(** First effect: the /api/status snapshot [initialMetrics] has (re)solved.
    [Undefined] is the query's [data] while the fetch is pending. *)
Definition onInitialMetrics (initialMetrics : Js.value) (prev : Js.value)
  : Js.value :=
  if Js.truthy initialMetrics then
    Js.objectWith prev
      [ ("totalClients",
          Js.or (Js.optGet (Js.get initialMetrics "devices") "total")
                (Js.Num 0));
        ("onlineClients",
          Js.or (Js.optGet (Js.get initialMetrics "devices") "online")
                (Js.Num 0));
        ("modelAccuracy",
          Js.or (Js.optGet (Js.get initialMetrics "performance") "accuracy")
                (Js.Num 0.947));
        ("activeAnomalies",
          Js.or (Js.optGet (Js.get initialMetrics "security") "recentAnomalies")
                (Js.Num 0));
        ("privacyBudget",
          Js.or (Js.optGet (Js.get initialMetrics "security")
                           "privacyBudgetRemaining")
                (Js.Num 6.0));
        ("flProgress",
          if Js.truthy (Js.optGet (Js.get initialMetrics "fl") "currentRound")
          then Js.Num 85 else Js.Num 0) ]
  else prev.

(** Second effect: [lastMessage] changed. *)
Definition onLastMessage (lastMessage : option Message) (prev : Js.value)
  : Js.value :=
  match lastMessage with
  | Some m => if String.eqb (type m) "metrics_update" then data m else prev
  | None => prev
  end.

(** The text of the Model Accuracy card,
    [(metrics.modelAccuracy * 100).toFixed(1)] followed by the percent sign.
    [None] when the field is not a number (the product is then that of the
    field's conversion to a number, which is not modelled). *)
Definition modelAccuracyText (metrics : Js.value) : option string :=
  match Js.get metrics "modelAccuracy" with
  | Js.Num q => Some (Js.toFixed 1 (Js.fmul (Js.round64 q) 100) ++ "%")
  | _ => None
  end.

(** The text of the Privacy Budget card, [metrics.privacyBudget.toFixed(1)];
    [None] when the field is not a number (the runtime then throws). *)
Definition privacyBudgetText (metrics : Js.value) : option string :=
  match Js.get metrics "privacyBudget" with
  | Js.Num q => Some (Js.toFixed 1 (Js.round64 q))
  | _ => None
  end.

(** The six fields the first effect writes. *)
Definition snapshotFields : list string :=
  [ "totalClients"; "onlineClients"; "modelAccuracy"; "activeAnomalies";
    "privacyBudget"; "flProgress" ].

End RealtimeMetrics.

(* ===================================================================== *)
(** * PrivacyControls                                                     *)
(* ===================================================================== *)

Module PrivacyControls.

(** An entry of the response of /api/privacy/budgets.  The fields are the
    numbers as the response spells them; the component sees the binary64
    numbers they are parsed to, [Js.round64] of them. *)
Record PrivacyMetrics : Type :=
  { epsilon : Q; delta : Q; remainingBudget : Q }.

(** [privacyMetrics?.[0]]; the query's [data] is [None] until the fetch of
    /api/privacy/budgets has resolved. *)
Definition latestMetrics (privacyMetrics : option (list PrivacyMetrics))
  : option PrivacyMetrics :=
  match privacyMetrics with
  | Some l => hd_error l
  | None => None
  end.

(** [latestMetrics ? Math.round((latestMetrics.remainingBudget / 6.0) * 100)
    : 70], the division and the multiplication being those of binary64. *)
Definition budgetPercentage (privacyMetrics : option (list PrivacyMetrics))
  : Z :=
  match latestMetrics privacyMetrics with
  | Some m =>
      Js.Math_round
        (Js.fmul (Js.fdiv (Js.round64 (remainingBudget m)) 6.0) 100)
  | None => 70%Z
  end.

(** The interpolated texts of the Privacy Budget block (the percentage is
    printed by its digits, as the runtime does below 10^21). *)
Record View : Type :=
  { budgetText : string;      (* the yellow "x / 6.0" *)
    barWidth : string;        (* style.width of the bar *)
    deltaText : string;       (* what follows the delta sign *)
    remainingText : string }. (* "... remaining" *)

Definition render (privacyMetrics : option (list PrivacyMetrics)) : View :=
  let latest := latestMetrics privacyMetrics in
  let pct := Js.intToString (budgetPercentage privacyMetrics) in
  {| budgetText :=
       match latest with
       | Some m => Js.toFixed 1 (Js.round64 (remainingBudget m)) ++ " / 6.0"
       | None => "4.2 / 6.0"
       end;
     barWidth := pct ++ "%";
     deltaText :=
       match latest with
       | Some m =>
           Js.strOr (Js.toExponential 0 (Js.round64 (delta m))) "1e-5"
       | None => "1e-5"
       end;
     remainingText := pct ++ "% remaining" |}.

End PrivacyControls.

(* ===================================================================== *)
(** * The fragment of React the components rely on                        *)
(* ===================================================================== *)

Module React.

(** The library is not among the sources; what follows is modelled on its
    reconciler (react-reconciler, ReactChildFiber: [reconcileChildrenArray]
    with [updateSlot], [mapRemainingChildren] and [updateFromMap]) and on
    the element factory, which turns a [key] attribute into a string. *)

(** What evaluating a render, or a part of one, comes to. *)
Inductive Outcome (A : Type) : Type :=
| Returns (a : A)
| Throws
| NotModelled.

Arguments Returns {A} a.
Arguments Throws {A}.
Arguments NotModelled {A}.

(** A child of an array of elements of one type: its key (the string of its
    [key] attribute, or none when the attribute is [undefined]) and what it
    shows. *)
Record Child (A : Type) : Type := { key : option string; content : A }.

Arguments key {A} c.
Arguments content {A} c.

(** [key={v}]. *)
Definition keyOf (v : Js.value) : Outcome (option string) :=
  match v with
  | Js.Undefined => Returns None
  | _ => match Js.toString v with
         | Some s => Returns (Some s)
         | None => NotModelled
         end
  end.

(** Whether a value can be rendered as a child: a plain object cannot (the
    render throws), an array can if its elements can. *)
Fixpoint validChild (v : Js.value) : bool :=
  match v with
  | Js.Obj _ => false
  | Js.Arr xs => forallb validChild xs
  | _ => true
  end.

(** The reconciliation of the children of an array, old against new
    ([reconcileChildrenArray]), as far as it decides which old children stay
    on the page.

    First the two lists are walked in parallel for as long as the keys
    agree ([updateSlot]; two children without key agree): these old children
    are updated in place. *)
Definition agree (a b : option string) : bool :=
  match a, b with
  | Some x, Some y => String.eqb x y
  | None, None => true
  | _, _ => false
  end.

Fixpoint dropAgreeing {A : Type} (old new : list (Child A))
  : list (Child A) * list (Child A) :=
  match old, new with
  | o :: old', n :: new' =>
      if agree (key o) (key n) then dropAgreeing old' new' else (old, new)
  | _, _ => (old, new)
  end.

(** If both lists have children left, the old ones are filed in a map under
    their key, or under their index if they have none
    ([mapRemainingChildren]); each new child takes the old child filed under
    its key out of the map, and what is left in the map at the end is
    removed from the page.  A map holds one child per key: an old child is
    replaced in it by a later one with the same key, and is then neither
    taken nor removed.  (Indices differ from each other and from all
    keys.) *)
Definition filedAlike {A : Type} (o o' : Child A) : bool :=
  match key o, key o' with
  | Some k, Some k' => String.eqb k k'
  | _, _ => false
  end.

Fixpoint overwritten {A : Type} (old : list (Child A)) : list (Child A) :=
  match old with
  | [] => []
  | o :: rest =>
      if existsb (filedAlike o) rest then o :: overwritten rest
      else overwritten rest
  end.

(** The old children that stay on the page although they are children no
    more.  When one of the lists is used up after the walk, the old
    children left are all removed, or the new ones left all created. *)
Definition orphans {A : Type} (old new : list (Child A)) : list (Child A) :=
  match dropAgreeing old new with
  | ([], _) | (_, []) => []
  | (old', _ :: _) => overwritten old'
  end.

(** The keys of the children that have one. *)
Definition keys {A : Type} (cs : list (Child A)) : list string :=
  flat_map (fun c => match key c with Some k => [k] | None => [] end) cs.

End React.

(* ===================================================================== *)
(** * AnomalyList                                                         *)
(* ===================================================================== *)

Module AnomalyList.
Import WebSocket.

(** First effect: [initialAnomalies && Array.isArray(initialAnomalies)]. *)
Definition onInitialAnomalies (initialAnomalies : Js.value)
  (prev : list Js.value) : list Js.value :=
  match initialAnomalies with
  | Js.Arr xs => xs
  | _ => prev
  end.

(** Second effect: [prev => [lastMessage.data, ...prev.slice(0, 9)]]. *)
Definition onLastMessage (lastMessage : option Message)
  (prev : list Js.value) : list Js.value :=
  match lastMessage with
  | Some m =>
      if String.eqb (type m) "anomaly_detected"
      then data m :: firstn 9 prev
      else prev
  | None => prev
  end.

(** One card of the feed.  [clock] stands for
    [formatDistanceToNow(new Date(v), { addSuffix: true })] of date-fns at
    the time of the render: the text for the value [v] of [detectedAt], or
    [None] where it throws (a RangeError for a value that is no date).  The
    card is keyed by [anomaly.id]; what it shows is a function of the entry
    and of the clock, and the entry stands for it.  Evaluating the card
    throws for an entry that is [null] or [undefined] (the read of [id]),
    for a [severity] or a [type] that is not a string ([toLowerCase],
    [split]), for a description that is a plain object, and where the clock
    throws. *)
Definition Card : Type := React.Child Js.value.

Definition card (clock : Js.value -> option string) (anomaly : Js.value)
  : React.Outcome Card :=
  match anomaly with
  | Js.Undefined | Js.Null => React.Throws
  | _ =>
      match Js.get anomaly "severity", Js.get anomaly "type" with
      | Js.Str _, Js.Str _ =>
          if negb (React.validChild
                     (Js.or (Js.get anomaly "description")
                            (Js.Str "Anomaly detected")))
          then React.Throws
          else
            match clock (Js.get anomaly "detectedAt") with
            | None => React.Throws
            | Some _ =>
                match React.keyOf (Js.get anomaly "id") with
                | React.Returns k =>
                    React.Returns {| React.key := k;
                                     React.content := anomaly |}
                | React.Throws => React.Throws
                | React.NotModelled => React.NotModelled
                end
            end
      | _, _ => React.Throws
      end
  end.

(** [xs.map(card)]: it throws as soon as one of the cards does. *)
Fixpoint cardsOf (clock : Js.value -> option string) (xs : list Js.value)
  : React.Outcome (list Card) :=
  match xs with
  | [] => React.Returns []
  | x :: rest =>
      match card clock x, cardsOf clock rest with
      | React.Throws, _ | _, React.Throws => React.Throws
      | React.NotModelled, _ | _, React.NotModelled => React.NotModelled
      | React.Returns c, React.Returns cs => React.Returns (c :: cs)
      end
  end.

(** The body of the card: the placeholder line, or one card per element of
    [anomalies.slice(0, 5)]. *)
Inductive Feed : Type :=
| NoAnomalies
| Cards (shown : list Card).

Definition render (clock : Js.value -> option string)
  (anomalies : list Js.value) : React.Outcome Feed :=
  match anomalies with
  | [] => React.Returns NoAnomalies
  | _ :: _ =>
      match cardsOf clock (firstn 5 anomalies) with
      | React.Returns cs => React.Returns (Cards cs)
      | React.Throws => React.Throws
      | React.NotModelled => React.NotModelled
      end
  end.

(** The cards on the page: those of the last render, and those that earlier
    renders left behind (where among the others these stand is not
    modelled). *)
Record Shown : Type := { cards : list Card; stale : list Card }.

Definition displayed (s : Shown) : list Card := (cards s ++ stale s)%list.

(** The page after the first render, in which [anomalies] is []. *)
Definition mounted : Shown := {| cards := []; stale := [] |}.

(** The page after the commit of a render.  The placeholder and the array
    of cards are different children of the card body: when one replaces
    the other, the children of the old one are removed and those of the new
    one created. *)
Definition commit (prev : Shown) (next : Feed) : Shown :=
  match next with
  | NoAnomalies => {| cards := []; stale := stale prev |}
  | Cards cs =>
      {| cards := cs;
         stale := (stale prev ++ React.orphans (cards prev) cs)%list |}
  end.

(** The page after the render for a new value of [anomalies]; a render that
    throws takes the page down (the component has no error boundary). *)
Definition show (clock : Js.value -> option string)
  (prev : React.Outcome Shown) (anomalies : list Js.value)
  : React.Outcome Shown :=
  match prev with
  | React.Returns s =>
      match render clock anomalies with
      | React.Returns f => React.Returns (commit s f)
      | React.Throws => React.Throws
      | React.NotModelled => React.NotModelled
      end
  | _ => prev
  end.

(** The page after the renders for the successive values [states] of
    [anomalies]. *)
Definition display (clock : Js.value -> option string)
  (states : list (list Js.value)) : React.Outcome Shown :=
  fold_left (show clock) states (React.Returns mounted).

(** The class names of the severity badge. *)
Definition getSeverityColor (severity : string) : string :=
  let s := Js.toLowerCase severity in
  if String.eqb s "critical" || String.eqb s "high"
  then "border-red-500 text-red-400 bg-red-500/20"
  else if String.eqb s "medium"
  then "border-yellow-500 text-yellow-400 bg-yellow-500/20"
  else if String.eqb s "low"
  then "border-green-500 text-green-400 bg-green-500/20"
  else "border-slate-500 text-slate-400 bg-slate-500/20".

(** The class name of the left border of a card. *)
Definition getSeverityBorderColor (severity : string) : string :=
  let s := Js.toLowerCase severity in
  if String.eqb s "critical" || String.eqb s "high"
  then "border-l-red-500"
  else if String.eqb s "medium"
  then "border-l-yellow-500"
  else if String.eqb s "low"
  then "border-l-green-500"
  else "border-l-slate-500".

(** [word.charAt(0).toUpperCase() + word.slice(1)]. *)
Definition capitalize (word : string) : string :=
  match word with
  | EmptyString => EmptyString
  | String c rest => String (Js.upperChar c) rest
  end.

Definition formatAnomalyType (type : string) : string :=
  Js.join " " (map capitalize (Js.split "_" type)).

(** [formatAnomalyType] in one pass over the characters: an underscore
    becomes a space, and the character at the start or after an underscore
    is upper-cased ([start] tells whether the next character is one). *)
Fixpoint formatFrom (start : bool) (s : string) : string :=
  match s with
  | EmptyString => EmptyString
  | String c rest =>
      if Ascii.eqb c "_" then String " " (formatFrom true rest)
      else String (if start then Js.upperChar c else c) (formatFrom false rest)
  end.

(** The state after the effect of the second [useEffect] has run for each of
    the messages [ms] in turn, oldest first. *)
Definition afterMessages (ms : list Message) (prev : list Js.value)
  : list Js.value :=
  fold_left (fun anomalies m => onLastMessage (Some m) anomalies) ms prev.

(** The successive values of [anomalies]: after the fetched history has
    been stored, and after each of the messages [ms] in turn. *)
Fixpoint pushed (ms : list Message) (anomalies : list Js.value)
  : list (list Js.value) :=
  match ms with
  | [] => []
  | m :: rest =>
      onLastMessage (Some m) anomalies
      :: pushed rest (onLastMessage (Some m) anomalies)
  end.

Definition history (initialAnomalies : Js.value) (ms : list Message)
  : list (list Js.value) :=
  onInitialAnomalies initialAnomalies []
  :: pushed ms (onInitialAnomalies initialAnomalies []).

(** As the specification words it: whatever is fetched and pushed, the feed
    displays at most the first five retained anomalies. *)
Definition atMostFiveDisplayed (clock : Js.value -> option string)
  (initialAnomalies : Js.value) (ms : list Message) : Prop :=
  forall shown,
    display clock (history initialAnomalies ms) = React.Returns shown ->
    (List.length (displayed shown) <= 5)%nat.

End AnomalyList.

(* ===================================================================== *)
(** * AnomalyAnalysis: upload, poll, overlay                              *)
(* ===================================================================== *)

Module AnomalyAnalysis.

(** ** The interfaces of the component *)

Module BoundingBox.
Record t : Type :=
  { class_name : string;
    confidence : Q;
    bbox : Q * Q * Q * Q;
    is_anomaly : bool;
    priority : string }.
End BoundingBox.

Module PrivacyImpact.
Record t : Type := { epsilon : Q; delta : Q }.
End PrivacyImpact.

Module Metadata.
Record t : Type :=
  { fileType : string;
    analysisMethod : string;
    source : string;
    timestamp : string;
    confidenceThreshold : option Q;
    privacy_impact : PrivacyImpact.t }.
End Metadata.

Module AnomalyResult.
Record t : Type :=
  { anomalyDetected : bool;
    anomalyType : string;
    severity : string;
    confidence : Q;
    description : string;
    modelUsed : string;
    processingTime : Q;
    recommendedAction : option string;
    bounding_boxes : option (list BoundingBox.t);
    metadata : Metadata.t }.
End AnomalyResult.

Module UploadedFile.
Record t : Type :=
  { id : string;
    filename : string;
    originalName : string;
    mimeType : string;
    size : Q;
    status : string;
    analysisResults : option AnomalyResult.t;
    uploadedAt : string;
    imageUrl : option string }.
End UploadedFile.

(** The DOM [File] handed over by the dropzone. *)
Module File.
Record t : Type := { name : string; size : N; type : string }.
End File.

Module Toast.
Record t : Type :=
  { title : string; description : string; variant : option string }.
End Toast.

(** ** onDrop *)

Inductive Action : Type :=
| ShowToast (t : Toast.t)
| UploadFile (file : File.t).

Definition allowedTypes : list string :=
  [ "image/jpeg"; "image/jpg"; "image/png"; "image/gif";
    "video/mp4"; "video/avi"; "video/mov"; "video/mkv" ].

(** [Array.prototype.includes] on strings. *)
Definition includes (l : list string) (s : string) : bool :=
  existsb (String.eqb s) l.

(** The callback of [acceptedFiles.forEach]. *)
Definition onDropFile (file : File.t) : Action :=
  if (50 * 1024 * 1024 <? File.size file)%N then
    ShowToast {| Toast.title := "File Too Large";
                 Toast.description := "Please upload files smaller than 50MB";
                 Toast.variant := Some "destructive" |}
  else if negb (includes allowedTypes (File.type file)) then
    ShowToast {| Toast.title := "Invalid File Type";
                 Toast.description :=
                   "Please upload images (JPEG, PNG, GIF) or videos (MP4, AVI, MOV, MKV)";
                 Toast.variant := Some "destructive" |}
  else UploadFile file.

(** [onDrop]: what it does, in order, for the files it is given. *)
Definition onDrop (acceptedFiles : list File.t) : list Action :=
  map onDropFile acceptedFiles.

(** ** Component state *)

(** The four [useState] cells. *)
Record Page : Type :=
  { uploadedFiles : list UploadedFile.t;
    selectedResult : option AnomalyResult.t;
    selectedFileId : option string;
    isUploading : bool }.

(** What a poll's [await fetch('/api/uploads')] followed by [await json()]
    comes back with: an exception, or the parsed list. *)
Inductive FetchOutcome : Type :=
| Rejected (error : string)
| Resolved (files : list UploadedFile.t).

(** A poll callback suspended at its [await]: the number of the poll, the
    time its fetch settles, and what it settles with. *)
Record Pending : Type :=
  { poll : nat; due : N; outcome : FetchOutcome }.

(** The network as seen by poll number [k] (counted from 0). *)
Record Reply : Type := { latency : N; result : FetchOutcome }.

(** What the loop does not decide: the reply to each poll, and which of the
    two timers the browser runs first at an instant at which both are due.
    The 30th tick of the interval and the stop timer are both due 60000 ms
    after [uploadFile] registered them, and nothing in the component orders
    them: when the stop timer is first ([stopFirst] is [true], as when the
    tick runs late), the 30th poll never starts. *)
Record Network : Type :=
  { reply :> nat -> Reply;
    stopFirst : bool }.

(** One uploaded file's poll loop inside the page: the page state, the
    side effects so far, the two timers registered by [uploadFile] and the
    suspended poll callbacks.  [startedAt] and [updatedAt] are ghost logs:
    the instants at which a poll was started, and at which a poll called
    [setUploadedFiles].  Each upload has timers and callbacks of its own;
    what other uploads or the user do to the page in the meantime is not
    part of a run of this loop. *)
Record Loop : Type :=
  { page : Page;
    toasts : list Toast.t;
    errors : list string;
    fileId : string;             (* uploadedFile.id of the closure *)
    now : N;
    intervalDue : option N;      (* pollInterval: next firing; None = cleared *)
    timeoutDue : option N;       (* the 60 s timer; None = fired *)
    inflight : list Pending;
    startedAt : list N;
    updatedAt : list N }.

Definition setPage (p : Page) (l : Loop) : Loop :=
  {| page := p; toasts := toasts l; errors := errors l; fileId := fileId l;
     now := now l; intervalDue := intervalDue l; timeoutDue := timeoutDue l;
     inflight := inflight l; startedAt := startedAt l;
     updatedAt := updatedAt l |}.

Definition setUploadedFiles
  (f : list UploadedFile.t -> list UploadedFile.t) (l : Loop) : Loop :=
  setPage {| uploadedFiles := f (uploadedFiles (page l));
             selectedResult := selectedResult (page l);
             selectedFileId := selectedFileId (page l);
             isUploading := isUploading (page l) |} l.

Definition setSelectedResult (r : option AnomalyResult.t) (l : Loop) : Loop :=
  setPage {| uploadedFiles := uploadedFiles (page l);
             selectedResult := r;
             selectedFileId := selectedFileId (page l);
             isUploading := isUploading (page l) |} l.

Definition setIsUploading (b : bool) (l : Loop) : Loop :=
  setPage {| uploadedFiles := uploadedFiles (page l);
             selectedResult := selectedResult (page l);
             selectedFileId := selectedFileId (page l);
             isUploading := b |} l.

Definition toast (t : Toast.t) (l : Loop) : Loop :=
  {| page := page l; toasts := (toasts l ++ [t])%list; errors := errors l;
     fileId := fileId l; now := now l; intervalDue := intervalDue l;
     timeoutDue := timeoutDue l; inflight := inflight l;
     startedAt := startedAt l; updatedAt := updatedAt l |}.

Definition consoleError (msg : string) (l : Loop) : Loop :=
  {| page := page l; toasts := toasts l; errors := (errors l ++ [msg])%list;
     fileId := fileId l; now := now l; intervalDue := intervalDue l;
     timeoutDue := timeoutDue l; inflight := inflight l;
     startedAt := startedAt l; updatedAt := updatedAt l |}.

(** [clearInterval(pollInterval)]. *)
Definition clearInterval (l : Loop) : Loop :=
  {| page := page l; toasts := toasts l; errors := errors l;
     fileId := fileId l; now := now l; intervalDue := None;
     timeoutDue := timeoutDue l; inflight := inflight l;
     startedAt := startedAt l; updatedAt := updatedAt l |}.

(** Ghost: a poll is about to call [setUploadedFiles]. *)
Definition noteUpdate (l : Loop) : Loop :=
  {| page := page l; toasts := toasts l; errors := errors l;
     fileId := fileId l; now := now l; intervalDue := intervalDue l;
     timeoutDue := timeoutDue l; inflight := inflight l;
     startedAt := startedAt l; updatedAt := (updatedAt l ++ [now l])%list |}.

(** ** uploadFile *)

(** The interval of the poll timer and the delay of the stop timer, in ms. *)
Definition pollEvery : N := 2000.
Definition pollFor : N := 60000.

(** How the POST to /api/upload ends: an exception (with the message of the
    [Error], if it is one), a response that is not [ok], or the record. *)
Inductive UploadOutcome : Type :=
| PostThrew (message : option string)
| PostNotOk
| PostOk (uploadedFile : UploadedFile.t).

(** [uploadFile] up to its first [await]. *)
Definition uploadFile_begin (p : Page) : Page :=
  {| uploadedFiles := uploadedFiles p;
     selectedResult := selectedResult p;
     selectedFileId := selectedFileId p;
     isUploading := true |}.

(** [setInterval(..., 2000)] followed by [setTimeout(..., 60000)], at
    time 0. *)
Definition registerTimers (l : Loop) : Loop :=
  {| page := page l; toasts := toasts l; errors := errors l;
     fileId := fileId l; now := now l;
     intervalDue := Some pollEvery; timeoutDue := Some pollFor;
     inflight := inflight l; startedAt := startedAt l;
     updatedAt := updatedAt l |}.

(** [uploadFile] from the moment the POST has settled; [p], [shown] and
    [errs] are the page, the toasts and the console at that moment. *)
Definition uploadFile_settle (file : File.t) (o : UploadOutcome)
  (p : Page) (shown : list Toast.t) (errs : list string) : Loop :=
  let l :=
    {| page := p; toasts := shown; errors := errs;
       fileId := match o with
                 | PostOk uploadedFile => UploadedFile.id uploadedFile
                 | _ => ""
                 end;
       now := 0; intervalDue := None; timeoutDue := None;
       inflight := []; startedAt := []; updatedAt := [] |} in
  let failed (message : string) :=
    toast {| Toast.title := "Upload Failed";
             Toast.description := message;
             Toast.variant := Some "destructive" |} l in
  let l :=
    match o with
    | PostOk uploadedFile =>
        let l := setUploadedFiles (fun prev => (prev ++ [uploadedFile])%list) l in
        let l := registerTimers l in
        toast {| Toast.title := "File Uploaded";
                 Toast.description :=
                   File.name file ++ " uploaded successfully. Analysis in progress...";
                 Toast.variant := None |} l
    | PostNotOk => failed "Upload failed"
    | PostThrew (Some message) => failed message
    | PostThrew None => failed "Failed to upload file"
    end in
  setIsUploading false l.

(** ** The poll callback *)

Definition isSome {A : Type} (o : option A) : bool :=
  match o with Some _ => true | None => false end.

(** [currentFile.analysisResults?.anomalyDetected]. *)
Definition anomalyDetectedIn (f : UploadedFile.t) : bool :=
  match UploadedFile.analysisResults f with
  | Some r => AnomalyResult.anomalyDetected r
  | None => false
  end.

Definition analysisComplete (currentFile : UploadedFile.t) : Toast.t :=
  {| Toast.title := "Analysis Complete";
     Toast.description :=
       match UploadedFile.analysisResults currentFile with
       | Some r =>
           if AnomalyResult.anomalyDetected r
           then AnomalyResult.anomalyType r ++ " detected with "
                ++ Js.toFixed 1 (Js.fmul
                                   (Js.round64 (AnomalyResult.confidence r))
                                   100)
                ++ "% confidence"
           else "No anomalies detected"
       | None => "No anomalies detected"
       end;
     Toast.variant :=
       if anomalyDetectedIn currentFile
       then Some "destructive" else Some "default" |}.

(** [currentFile.status !== 'uploaded' && currentFile.status !== 'processing']. *)
Definition settled (f : UploadedFile.t) : bool :=
  negb (String.eqb (UploadedFile.status f) "uploaded")
  && negb (String.eqb (UploadedFile.status f) "processing").

(** [prev.map(f => f.id === uploadedFile.id ? currentFile : f)]. *)
Definition replaceById (id : string) (currentFile : UploadedFile.t)
  (prev : list UploadedFile.t) : list UploadedFile.t :=
  map (fun f => if String.eqb (UploadedFile.id f) id then currentFile else f)
      prev.

(** The interval callback from its [await]s on: the fetch of /api/uploads has
    settled with [o]. *)
Definition pollResume (o : FetchOutcome) (l : Loop) : Loop :=
  match o with
  | Rejected error =>
      clearInterval
        (consoleError ("Failed to fetch analysis results: " ++ error) l)
  | Resolved files =>
      match find (fun f => String.eqb (UploadedFile.id f) (fileId l)) files with
      | Some currentFile =>
          if settled currentFile then
            let l := setUploadedFiles (replaceById (fileId l) currentFile)
                                      (noteUpdate l) in
            let l :=
              if String.eqb (UploadedFile.status currentFile) "analyzed"
                 && isSome (UploadedFile.analysisResults currentFile)
              then setSelectedResult (UploadedFile.analysisResults currentFile) l
              else l in
            let l := clearInterval l in
            if String.eqb (UploadedFile.status currentFile) "analyzed"
            then toast (analysisComplete currentFile) l
            else l
          else l
      | None => l
      end
  end.

(** ** Timers and pending fetches: the event loop, for one upload *)

Inductive Event : Type :=
| IntervalFires
| TimeoutFires
| FetchSettles (p : Pending).

(** What can happen next, each with the instant it is due: the two timers,
    then the suspended callbacks in the order their polls were started. *)
Definition candidates (l : Loop) : list (N * Event) :=
  ((match intervalDue l with
    | Some d => [(d, IntervalFires)]
    | None => []
    end)
   ++ (match timeoutDue l with
       | Some d => [(d, TimeoutFires)]
       | None => []
       end)
   ++ map (fun p => (due p, FetchSettles p)) (inflight l))%list.

(** The candidates in the order in which the browser takes those that are
    due at the same instant: the two timers in the order [net] decides, then
    the callbacks. *)
Definition arrange (net : Network) (l : Loop) : list (N * Event) :=
  if stopFirst net then
    ((match timeoutDue l with
      | Some d => [(d, TimeoutFires)]
      | None => []
      end)
     ++ (match intervalDue l with
         | Some d => [(d, IntervalFires)]
         | None => []
         end)
     ++ map (fun p => (due p, FetchSettles p)) (inflight l))%list
  else candidates l.

(** The candidate that is due first; among those due at the same instant,
    the one listed first. *)
Fixpoint earliest (cs : list (N * Event)) : option (N * Event) :=
  match cs with
  | [] => None
  | c :: rest =>
      match earliest rest with
      | Some c' => if (fst c' <? fst c)%N then Some c' else Some c
      | None => Some c
      end
  end.

Definition advance (t : N) (l : Loop) : Loop :=
  {| page := page l; toasts := toasts l; errors := errors l;
     fileId := fileId l; now := t; intervalDue := intervalDue l;
     timeoutDue := timeoutDue l; inflight := inflight l;
     startedAt := startedAt l; updatedAt := updatedAt l |}.

(** The interval fires: poll number [k] starts, suspends at its fetch, and
    the timer is armed again. *)
Definition pollStart (net : Network) (l : Loop) : Loop :=
  let k := List.length (startedAt l) in
  {| page := page l; toasts := toasts l; errors := errors l;
     fileId := fileId l; now := now l;
     intervalDue := Some (now l + pollEvery)%N;
     timeoutDue := timeoutDue l;
     inflight := (inflight l
                  ++ [ {| poll := k;
                          due := (now l + latency (net k))%N;
                          outcome := result (net k) |} ])%list;
     startedAt := (startedAt l ++ [now l])%list;
     updatedAt := updatedAt l |}.

(** The 60 s timer fires: [() => clearInterval(pollInterval)]. *)
Definition stopPolling (l : Loop) : Loop :=
  clearInterval
    {| page := page l; toasts := toasts l; errors := errors l;
       fileId := fileId l; now := now l; intervalDue := intervalDue l;
       timeoutDue := None; inflight := inflight l;
       startedAt := startedAt l; updatedAt := updatedAt l |}.

Definition forget (p : Pending) (l : Loop) : Loop :=
  {| page := page l; toasts := toasts l; errors := errors l;
     fileId := fileId l; now := now l; intervalDue := intervalDue l;
     timeoutDue := timeoutDue l;
     inflight := filter (fun q => negb (Nat.eqb (poll q) (poll p))) (inflight l);
     startedAt := startedAt l; updatedAt := updatedAt l |}.

Definition handle (net : Network) (t : N) (e : Event) (l : Loop) : Loop :=
  match e with
  | IntervalFires => pollStart net (advance t l)
  | TimeoutFires => stopPolling (advance t l)
  | FetchSettles p => pollResume (outcome p) (forget p (advance t l))
  end.

(** Runs the events that are due up to [limit], at most [fuel] of them. *)
Fixpoint run (net : Network) (fuel : nat) (limit : N) (l : Loop) : Loop :=
  match fuel with
  | O => l
  | S fuel' =>
      match earliest (arrange net l) with
      | Some (t, e) =>
          if (t <=? limit)%N then run net fuel' limit (handle net t e l) else l
      | None => l
      end
  end.

(** No loop needs more events than this: 30 polls, their 30 responses, the
    timeout (and some slack). *)
Definition enough : nat := 63.

Definition runUntil (net : Network) (limit : N) (l : Loop) : Loop :=
  run net enough limit l.

(** ** The bounding-box overlay *)

Record Style : Type := { left : Q; top : Q; width : Q; height : Q }.

Definition overlayStyle (box : BoundingBox.t) : Style :=
  let '(x1, y1, x2, y2) := BoundingBox.bbox box in
  let boxWidth := x2 - x1 in
  let boxHeight := y2 - y1 in
  let containerWidth := 512 in
  let containerHeight := 256 in
  let scaleX := containerWidth / 640 in
  let scaleY := containerHeight / 480 in
  {| left := x1 * scaleX;
     top := y1 * scaleY;
     width := boxWidth * scaleX;
     height := boxHeight * scaleY |}.

(** [uploadedFiles.find((f) => f.id === selectedFileId)?.imageUrl], as a
    condition: present and not the empty string. *)
Definition selectedImageShown (p : Page) : bool :=
  match selectedFileId p with
  | Some sel =>
      match find (fun f => String.eqb (UploadedFile.id f) sel)
                 (uploadedFiles p) with
      | Some f =>
          match UploadedFile.imageUrl f with
          | Some url => negb (String.eqb url "")
          | None => false
          end
      | None => false
      end
  | None => false
  end.

(** The styles of the overlay rectangles in the result panel, in order. *)
Definition overlays (p : Page) : list Style :=
  match selectedResult p with
  | Some r =>
      match AnomalyResult.bounding_boxes r with
      | Some boxes =>
          if (0 <? List.length boxes)%nat
          then if selectedImageShown p then map overlayStyle boxes else []
          else []
      | None => []
      end
  | None => []
  end.

(** ** Vocabulary for the properties of the poll loop *)

(** The instant at which poll number [k] (from 0) starts, and the instant
    at which its fetch settles. *)
Definition tickTime (k : nat) : N := (pollEvery * N.of_nat (S k))%N.

Definition replyTime (net : Network) (k : nat) : N :=
  (tickTime k + latency (net k))%N.

(** The timers and the suspended callbacks agree with the polls started so
    far. *)
Record Scheduled (net : Network) (l : Loop) : Prop :=
  { sch_started :
      startedAt l = map tickTime (seq 0 (List.length (startedAt l)));
    sch_cap : (List.length (startedAt l) <= 30)%nat;
    sch_interval :
      forall d, intervalDue l = Some d ->
                d = tickTime (List.length (startedAt l))
                /\ timeoutDue l = Some pollFor;
    sch_timeout : forall d, timeoutDue l = Some d -> d = pollFor;
    sch_inflight :
      Forall (fun p => (poll p < List.length (startedAt l))%nat
                       /\ due p = replyTime net (poll p)
                       /\ outcome p = result (net (poll p)))
             (inflight l);
    sch_updated :
      Forall (fun t => exists k, (k < List.length (startedAt l))%nat
                                 /\ t = replyTime net k)
             (updatedAt l) }.

(** An upper bound on the number of events still to come. *)
Definition remaining (l : Loop) : nat :=
  (match intervalDue l with
   | Some _ => 2 * (31 - List.length (startedAt l))
   | None => 0
   end
   + match timeoutDue l with Some _ => 1 | None => 0 end
   + List.length (inflight l))%nat.

(** Nothing is due up to [limit]. *)
Definition quiet (limit : N) (l : Loop) : Prop :=
  forall t e, In (t, e) (candidates l) -> (limit < t)%N.

(** Every response arrives before the next poll starts. *)
Definition prompt (net : Network) : Prop :=
  forall k, (latency (net k) < pollEvery)%N.

(** With a prompt network at most one poll is in flight, and after the
    update nothing is left to run but the stop timer. *)
Record Sequential (l : Loop) : Prop :=
  { seq_one : (List.length (inflight l) <= 1)%nat;
    seq_before :
      forall p d, In p (inflight l) -> intervalDue l = Some d ->
                  (due p < d)%N;
    seq_once :
      updatedAt l = []
      \/ (List.length (updatedAt l) = 1%nat
          /\ intervalDue l = None /\ inflight l = []) }.

(** The page is [page0] until the first update, every record is either one
    of [page0] or one that a poll found settled, and the first update
    clears the interval. *)
Record Faithful (page0 : Page) (l : Loop) : Prop :=
  { fth_before : updatedAt l = [] -> page l = page0;
    fth_entries :
      Forall (fun f => In f (uploadedFiles page0) \/ settled f = true)
             (uploadedFiles (page l));
    fth_cleared : updatedAt l <> [] -> intervalDue l = None }.

(** As the specification words it: after the 60 s no poll changes the page
    any more. *)
Definition noUpdateAfterStop (net : Network) (l0 : Loop) : Prop :=
  forall limit, (pollFor <= limit)%N ->
                page (runUntil net limit l0) = page (runUntil net pollFor l0).

(** As the specification words it: the polls write uploadedFiles once. *)
Definition writtenOnce (net : Network) (l0 : Loop) : Prop :=
  forall limit, (List.length (updatedAt (runUntil net limit l0)) <= 1)%nat.

(** The interval is cleared for good: no poll has started since [l0]. *)
Definition stopped (l0 l : Loop) : Prop :=
  intervalDue l = None /\ startedAt l = startedAt l0.

(** ** The other helpers of the component *)

(** The icons of lucide-react the file list uses. *)
Inductive Icon : Type := Clock | CheckCircle | AlertTriangle | Upload.

(** The icon of a file row, with its class name. *)
Definition getStatusIcon (status : string) : Icon * string :=
  if String.eqb status "uploaded" || String.eqb status "processing"
  then (Clock, "w-4 h-4 text-blue-400")
  else if String.eqb status "analyzed"
  then (CheckCircle, "w-4 h-4 text-green-400")
  else if String.eqb status "error"
  then (AlertTriangle, "w-4 h-4 text-red-400")
  else (Upload, "w-4 h-4 text-slate-400").

(** The [onClick] of a row of the file list. *)
Definition onClickFile (file : UploadedFile.t) (p : Page) : Page :=
  match UploadedFile.analysisResults file with
  | Some r =>
      {| uploadedFiles := uploadedFiles p;
         selectedResult := Some r;
         selectedFileId := Some (UploadedFile.id file);
         isUploading := isUploading p |}
  | None => p
  end.

(** The text of the badge of a row whose result reports an anomaly:
    [anomalyType.replace('_', ' ')], a space, and the qualifier. *)
Definition badgeText (r : AnomalyResult.t) : string :=
  Js.replaceFirst "_" " " (AnomalyResult.anomalyType r) ++ " "
  ++ (if String.eqb (AnomalyResult.severity r) "uncertain"
      then "(uncertain)" else "detected").

(** ** downloadProcessedImage *)

(** What is drawn on the 2d context, with the style in force. *)
Inductive DrawOp : Type :=
| DrawImage (x y : Q)
| StrokeRect (strokeStyle : string) (lineWidth : Q) (x y w h : Q)
| FillRect (fillStyle : string) (x y w h : Q)
| FillText (fillStyle font text : string) (x y : Q).

(** The label of a box, [class_name (NN%)]. *)
Definition boxLabel (box : BoundingBox.t) : string :=
  BoundingBox.class_name box ++ " ("
  ++ Js.toFixed 0 (Js.fmul (Js.round64 (BoundingBox.confidence box)) 100)
  ++ "%)".

(** The body of [bounding_boxes.forEach]; [measureText] is the width the
    context reports for a text in the 16px font. *)
Definition drawBox (measureText : string -> Q) (box : BoundingBox.t)
  : list DrawOp :=
  let '(x1, y1, x2, y2) := BoundingBox.bbox box in
  let width := x2 - x1 in
  let height := y2 - y1 in
  let color := if BoundingBox.is_anomaly box then "#ef4444" else "#22c55e" in
  let label := boxLabel box in
  let labelWidth := measureText label in
  [ StrokeRect color 3 x1 y1 width height;
    FillRect color x1 (y1 - 25) (labelWidth + 10) 25;
    FillText "white" "16px Arial" label (x1 + 5) (y1 - 5) ].

(** The browser's side of a download: whether the canvas gives a 2d context,
    the size of the image if it loads, and whether [toBlob] yields a blob. *)
Record Browser : Type :=
  { hasContext : bool;
    loadedImage : string -> option (Q * Q);
    measure : string -> Q;
    hasBlob : bool }.

(** The canvas as left by the function and the file handed to the user. *)
Record Download : Type :=
  { canvasWidth : Q;
    canvasHeight : Q;
    drawn : list DrawOp;
    savedAs : option string }.

Inductive DownloadResult : Type :=
| NothingDone
| DownloadFailed (t : Toast.t)
| Downloaded (d : Download).

(** [file.imageUrl || `/uploads/${file.filename}`]. *)
Definition imageSource (file : UploadedFile.t) : string :=
  match UploadedFile.imageUrl file with
  | Some url => if String.eqb url "" then "/uploads/" ++ UploadedFile.filename file
                else url
  | None => "/uploads/" ++ UploadedFile.filename file
  end.

Definition downloadProcessedImage (env : Browser) (file : UploadedFile.t)
  (analysisResults : AnomalyResult.t) : DownloadResult :=
  if negb (hasContext env) then NothingDone
  else
    match loadedImage env (imageSource file) with
    | None =>
        DownloadFailed
          {| Toast.title := "Download Failed";
             Toast.description := "Could not process image for download";
             Toast.variant := Some "destructive" |}
    | Some (imgWidth, imgHeight) =>
        Downloaded
          {| canvasWidth := imgWidth;
             canvasHeight := imgHeight;
             drawn :=
               (DrawImage 0 0
                :: match AnomalyResult.bounding_boxes analysisResults with
                   | Some boxes => flat_map (drawBox (measure env)) boxes
                   | None => []
                   end)%list;
             savedAs :=
               if hasBlob env
               then Some ("anomaly_" ++ AnomalyResult.anomalyType analysisResults
                          ++ "_" ++ UploadedFile.originalName file)
               else None |}
    end.

(** ** More vocabulary for the poll loop *)

(** The reply lists the file [id] as pending, or not at all. *)
Definition pendingReply (id : string) (r : Reply) : Prop :=
  exists files,
    result r = Resolved files
    /\ match find (fun f => String.eqb (UploadedFile.id f) id) files with
       | Some currentFile => settled currentFile = false
       | None => True
       end.

(** Every response lists the file [id] as pending, or not at all. *)
Definition stuck (id : string) (net : Network) : Prop :=
  forall k, pendingReply id (net k).

(** The number of polls a loop starts when only the stop timer ends it: the
    ticks due at 2000, 4000, ..., 58000 ms, and the one due at 60000 ms if
    the browser runs it before the stop timer. *)
Definition pollCap (net : Network) : nat :=
  if stopFirst net then 29%nat else 30%nat.

(** As long as neither an update nor a failed fetch has ended the loop (the
    only things that clear the interval before the stop timer does), the
    interval stays armed for the next tick until the stop timer has fired,
    and by then all the polls of [pollCap] have been started.  [limit] is
    the instant up to which the loop has been run. *)
Record Armed (net : Network) (limit : N) (l0 l : Loop) : Prop :=
  { arm_cap : (List.length (startedAt l) <= pollCap net)%nat;
    arm_errors : (List.length (errors l0) <= List.length (errors l))%nat;
    arm_past : Forall (fun t => (t <= limit)%N) (startedAt l);
    arm_timeout : timeoutDue l = None -> (pollFor <= limit)%N;
    arm_live :
      updatedAt l = [] -> errors l = errors l0 ->
      match timeoutDue l with
      | Some _ =>
          intervalDue l = Some (tickTime (List.length (startedAt l)))
      | None => List.length (startedAt l) = pollCap net
      end }.

(** While the file is stuck the loop leaves no trace but its polls. *)
Record Silent (net : Network) (l0 l : Loop) : Prop :=
  { sil_page : page l = page l0;
    sil_toasts : toasts l = toasts l0;
    sil_errors : errors l = errors l0;
    sil_file : fileId l = fileId l0;
    sil_updated : updatedAt l = [];
    sil_outcomes :
      Forall (fun p => outcome p = result (net (poll p))) (inflight l) }.

(** The course of a loop of which poll number [K] is the first to find the
    file settled, when every response arrives before the next tick: polls
    0 to [K - 1] come and go without a trace, poll [K] is started, and its
    response is the one update. *)
Inductive Course (net : Network) (K : nat) (l0 l : Loop) : Prop :=
| Polling :
    updatedAt l = [] -> page l = page l0 -> toasts l = toasts l0 ->
    errors l = errors l0 -> fileId l = fileId l0 ->
    (List.length (startedAt l) <= K)%nat ->
    timeoutDue l = Some pollFor ->
    intervalDue l = Some (tickTime (List.length (startedAt l))) ->
    Course net K l0 l
| Asking (p : Pending) :
    updatedAt l = [] -> page l = page l0 -> toasts l = toasts l0 ->
    errors l = errors l0 -> fileId l = fileId l0 ->
    List.length (startedAt l) = S K ->
    inflight l = [p] -> poll p = K ->
    Course net K l0 l
| Answered :
    updatedAt l = [replyTime net K] ->
    page l = page (pollResume (result (net K)) l0) ->
    toasts l = toasts (pollResume (result (net K)) l0) ->
    errors l = errors l0 ->
    List.length (startedAt l) = S K ->
    inflight l = [] -> intervalDue l = None ->
    Course net K l0 l.

(** What no run of the loop touches. *)
Record Framed (l0 l : Loop) : Prop :=
  { frm_file : fileId l = fileId l0;
    frm_selected : selectedFileId (page l) = selectedFileId (page l0);
    frm_uploading : isUploading (page l) = isUploading (page l0);
    frm_ids :
      map UploadedFile.id (uploadedFiles (page l))
      = map UploadedFile.id (uploadedFiles (page l0));
    frm_others :
      forall i f, nth_error (uploadedFiles (page l0)) i = Some f ->
                  UploadedFile.id f <> fileId l0 ->
                  nth_error (uploadedFiles (page l)) i = Some f }.

End AnomalyAnalysis.

(* ===================================================================== *)
(** * Concrete data                                                       *)
(* ===================================================================== *)

Module Sample.
Import AnomalyAnalysis.

Definition metricsUpdate : WebSocket.Message :=
  {| WebSocket.type := "metrics_update";
     WebSocket.data := Js.Obj [("activeAnomalies", Js.Str "n/a")] |}.

Definition anomalyDetected : WebSocket.Message :=
  {| WebSocket.type := "anomaly_detected";
     WebSocket.data := Js.Obj [("id", Js.Str "a-17"); ("severity", Js.Str "high")] |}.

(** A well-formed anomaly, and the message that pushes it. *)
Definition anomaly (id : string) : Js.value :=
  Js.Obj [ ("id", Js.Str id);
           ("type", Js.Str "intrusion_attempt");
           ("confidence", Js.Num 0.91);
           ("severity", Js.Str "high");
           ("detectedAt", Js.Str "2025-01-01T00:00:00Z") ].

Definition push (id : string) : WebSocket.Message :=
  {| WebSocket.type := "anomaly_detected"; WebSocket.data := anomaly id |}.

(** The history /api/anomalies answers with. *)
Definition fetched : Js.value :=
  Js.Arr [anomaly "a-1"; anomaly "a-2"; anomaly "a-3"; anomaly "a-4";
          anomaly "a-5"].

(** A clock for which every string is a date. *)
Definition clock (detectedAt : Js.value) : option string :=
  match detectedAt with
  | Js.Str _ => Some "2 minutes ago"
  | _ => None
  end.

Definition heartbeat : WebSocket.Message :=
  {| WebSocket.type := "heartbeat"; WebSocket.data := Js.Null |}.

(** A snapshot that reports an accuracy of exactly 0. *)
Definition zeroAccuracy : Js.value :=
  Js.Obj [ ("devices", Js.Obj [("total", Js.Num 4); ("online", Js.Num 3)]);
           ("performance", Js.Obj [("accuracy", Js.Num 0)]) ].

Definition budgets : list PrivacyControls.PrivacyMetrics :=
  [ {| PrivacyControls.epsilon := 1.8;
       PrivacyControls.delta := 1e-5;
       PrivacyControls.remainingBudget := 3.3 |};
    {| PrivacyControls.epsilon := 0.6;
       PrivacyControls.delta := 1e-5;
       PrivacyControls.remainingBudget := 5.4 |} ].

(** A response whose first entry has 0.57 left: 0.57 / 6.0 * 100 is
    9.499999999999998 in binary64 (and 9.5 in exact arithmetic). *)
Definition lowBudgets : list PrivacyControls.PrivacyMetrics :=
  [ {| PrivacyControls.epsilon := 5.43;
       PrivacyControls.delta := 0.00095;
       PrivacyControls.remainingBudget := 0.57 |} ].

Definition png : File.t :=
  {| File.name := "gate.png"; File.size := 1048576; File.type := "image/png" |}.

Definition hugeVideo : File.t :=
  {| File.name := "night.mp4"; File.size := 52428801; File.type := "video/mp4" |}.

Definition pdf : File.t :=
  {| File.name := "report.pdf"; File.size := 2048;
     File.type := "application/pdf" |}.

Definition person : BoundingBox.t :=
  {| BoundingBox.class_name := "person";
     BoundingBox.confidence := 0.91;
     BoundingBox.bbox := (64, 48, 320, 240);
     BoundingBox.is_anomaly := true;
     BoundingBox.priority := "high" |}.

Definition intrusion : AnomalyResult.t :=
  {| AnomalyResult.anomalyDetected := true;
     AnomalyResult.anomalyType := "intrusion";
     AnomalyResult.severity := "high";
     AnomalyResult.confidence := 0.913;
     AnomalyResult.description := "Person inside the fence";
     AnomalyResult.modelUsed := "fusion";
     AnomalyResult.processingTime := 412;
     AnomalyResult.recommendedAction := Some "alert";
     AnomalyResult.bounding_boxes := Some [person];
     AnomalyResult.metadata :=
       {| Metadata.fileType := "image";
          Metadata.analysisMethod := "yolo";
          Metadata.source := "upload";
          Metadata.timestamp := "2025-01-01T00:00:00Z";
          Metadata.confidenceThreshold := None;
          Metadata.privacy_impact :=
            {| PrivacyImpact.epsilon := 0.1;
               PrivacyImpact.delta := 1e-5 |} |} |}.

(** A result whose type has two underscores. *)
Definition tailgating : AnomalyResult.t :=
  {| AnomalyResult.anomalyDetected := true;
     AnomalyResult.anomalyType := "restricted_area_entry";
     AnomalyResult.severity := "uncertain";
     AnomalyResult.confidence := 0.62;
     AnomalyResult.description := "Second person behind a badge holder";
     AnomalyResult.modelUsed := "fusion";
     AnomalyResult.processingTime := 388;
     AnomalyResult.recommendedAction := None;
     AnomalyResult.bounding_boxes := None;
     AnomalyResult.metadata := AnomalyResult.metadata intrusion |}.

(** The record of gate.png on the server, in a given status. *)
Definition record (status : string) (results : option AnomalyResult.t)
  : UploadedFile.t :=
  {| UploadedFile.id := "f1";
     UploadedFile.filename := "1700000000-gate.png";
     UploadedFile.originalName := "gate.png";
     UploadedFile.mimeType := "image/png";
     UploadedFile.size := 1048576;
     UploadedFile.status := status;
     UploadedFile.analysisResults := results;
     UploadedFile.uploadedAt := "2025-01-01T00:00:00Z";
     UploadedFile.imageUrl := Some "/uploads/1700000000-gate.png" |}.

Definition emptyPage : Page :=
  {| uploadedFiles := []; selectedResult := None;
     selectedFileId := None; isUploading := false |}.

(** The page right after gate.png has been uploaded. *)
Definition loop0 : Loop :=
  uploadFile_settle png (PostOk (record "uploaded" None))
                    (uploadFile_begin emptyPage) [] [].

Definition processing : Reply :=
  {| latency := 300; result := Resolved [record "processing" None] |}.

Definition analyzed (ms : N) : Reply :=
  {| latency := ms; result := Resolved [record "analyzed" (Some intrusion)] |}.

(** The analysis is done shortly before the 58 s are over, and the response
    to the poll started at 58000 ms takes 2.3 s to come back. *)
Definition lateNetwork : Network :=
  {| reply := fun k => if Nat.eqb k 28 then analyzed 2300 else processing;
     stopFirst := true |}.

(** The first response takes 2.5 s and reports a failed analysis; the
    second poll, started meanwhile, is answered within a second and reports
    the result of a second attempt. *)
Definition slowNetwork : Network :=
  {| reply :=
       fun k => match k with
                | O => {| latency := 2500;
                          result := Resolved [record "error" None] |}
                | _ => analyzed 1000
                end;
     stopFirst := false |}.

(** The analysis is done when the third poll asks. *)
Definition promptNetwork : Network :=
  {| reply := fun k => if Nat.ltb k 2 then processing else analyzed 300;
     stopFirst := false |}.

(** The second fetch fails. *)
Definition flakyNetwork : Network :=
  {| reply :=
       fun k => match k with
                | 1%nat => {| latency := 120;
                              result := Rejected "Failed to fetch" |}
                | _ => processing
                end;
     stopFirst := false |}.

(** The page after the user has clicked the analysed gate.png. *)
Definition clickedPage : Page :=
  {| uploadedFiles := [record "analyzed" (Some intrusion)];
     selectedResult := Some intrusion;
     selectedFileId := Some "f1";
     isUploading := false |}.

(** A snapshot taken when the privacy budget is used up, in round 7. *)
Definition exhausted : Js.value :=
  Js.Obj [ ("security", Js.Obj [("privacyBudgetRemaining", Js.Num 0);
                                ("recentAnomalies", Js.Num 3)]);
           ("fl", Js.Obj [("currentRound", Js.Num 7)]) ].

(** A state as a pushed update with an extra field leaves it. *)
Definition pushedState : Js.value :=
  Js.Obj [ ("privacyBudget", Js.Num 1.5); ("region", Js.Str "eu") ].

(** Every poll is answered after 300 ms with the record still processing. *)
Definition processingNetwork : Network :=
  {| reply := fun _ => processing; stopFirst := false |}.

(** The same replies, in a browser that runs the stop timer before the tick
    due at the same instant. *)
Definition driftingNetwork : Network :=
  {| reply := fun _ => processing; stopFirst := true |}.

(** A browser in which the image of gate.png is 1280 by 720. *)
Definition browser : Browser :=
  {| hasContext := true;
     loadedImage := fun _ => Some (1280, 720);
     measure := fun text => 8 * inject_Z (Z.of_nat (String.length text));
     hasBlob := true |}.

Definition download : Download :=
  {| canvasWidth := 1280;
     canvasHeight := 720;
     drawn := DrawImage 0 0 :: drawBox (measure browser) person;
     savedAs := Some "anomaly_intrusion_gate.png" |}.

End Sample.

(* ===================================================================== *)
(** * Properties                                                          *)
(* ===================================================================== *)

(** ** Runtime lemmas *)

Lemma lookup_set_same (k : string) (v : Js.value) fields :
  Js.lookup k (Js.set k v fields) = v.
Proof.
  induction fields as [| [k' v'] rest IH]; simpl.
  - now rewrite String.eqb_refl.
  - destruct (String.eqb k k') eqn:E; simpl.
    + now rewrite String.eqb_refl.
    + now rewrite E.
Qed.

Lemma lookup_set_other (k k' : string) (v : Js.value) fields :
  String.eqb k k' = false ->
  Js.lookup k (Js.set k' v fields) = Js.lookup k fields.
Proof.
  intro H.
  induction fields as [| [k2 v2] rest IH]; simpl.
  - now rewrite H.
  - destruct (String.eqb k' k2) eqn:E; simpl.
    + apply String.eqb_eq in E. subst k2. now rewrite H.
    + now destruct (String.eqb k k2).
Qed.

Lemma includes_In (l : list string) (s : string) :
  AnomalyAnalysis.includes l s = true <-> In s l.
Proof.
  unfold AnomalyAnalysis.includes. rewrite existsb_exists. split.
  - intros [x [Hx E]]. apply String.eqb_eq in E. now subst.
  - intro H. exists s. split; [assumption | apply String.eqb_refl].
Qed.

Lemma or_truthy (a b : Js.value) :
  Js.truthy b = true -> Js.truthy (Js.or a b) = true.
Proof. unfold Js.or. intro H. now destruct (Js.truthy a) eqn:E. Qed.

(** The runtime functions on a few inputs. *)

Example toFixed_examples :
  Js.toFixed 1 4.2 = "4.2"
  /\ Js.toFixed 1 (0.947 * 100) = "94.7"
  /\ Js.toFixed 1 (-0.04) = "-0.0"
  /\ Js.toFixed 0 2.5 = "3"
  /\ Js.toFixed 2 0.005 = "0.01"
  /\ Js.toFixed 1 123.456 = "123.5".
Proof. vm_compute. repeat split. Qed.

Example toExponential_examples :
  Js.toExponential 0 1e-5 = "1e-5"
  /\ Js.toExponential 0 0.00095 = "1e-3"
  /\ Js.toExponential 0 0 = "0e+0"
  /\ Js.toExponential 2 12345 = "1.23e+4"
  /\ Js.toExponential 0 (-0.5) = "-5e-1".
Proof. vm_compute. repeat split. Qed.

(** The binary64 operations agree with those of the machine: 0.57, 0.57 / 6,
    0.57 / 6 * 100 (which is 9.499999999999998), 0.03 / 6 * 100 (which is
    0.5), 1e-5, and the smallest positive number, 2^-1074. *)
Example binary64_examples :
  let f57 := PrimFloat.div (Js.ofInt 57) (Js.ofInt 100) in
  let f3 := PrimFloat.div (Js.ofInt 3) (Js.ofInt 100) in
  Js.sameNumber (Js.round64 0.57) f57 = true
  /\ Js.sameNumber (Js.fdiv (Js.round64 0.57) 6.0)
                   (PrimFloat.div f57 (Js.ofInt 6)) = true
  /\ Js.sameNumber (Js.fmul (Js.fdiv (Js.round64 0.57) 6.0) 100)
                   (PrimFloat.mul (PrimFloat.div f57 (Js.ofInt 6))
                                  (Js.ofInt 100)) = true
  /\ Js.fmul (Js.fdiv (Js.round64 0.57) 6.0) 100
     == 5348024557502463 # 562949953421312
  /\ Js.fmul (Js.fdiv (Js.round64 0.03) 6.0) 100 == 1 # 2
  /\ Js.sameNumber (Js.fmul (Js.fdiv (Js.round64 0.03) 6.0) 100)
                   (PrimFloat.mul (PrimFloat.div f3 (Js.ofInt 6))
                                  (Js.ofInt 100)) = true
  /\ Js.sameNumber (Js.round64 1e-5)
                   (PrimFloat.div (Js.ofInt 1) (Js.ofInt 100000)) = true
  /\ Js.sameNumber (Js.round64 (Qpower 2 (-1074) * 1.2))
                   (PrimFloat.ldshiftexp (Js.ofInt 1)
                                         (Uint63.of_Z (-1074 + 2101)))
     = true
  /\ Js.round64 (Js.round64 0.57) == Js.round64 0.57
  /\ Js.toExponential 0 (Js.round64 0.00095) = "9e-4"
  /\ Js.toFixed 1 (Js.round64 0.25) = "0.3"
  /\ Js.toFixed 1 (Js.round64 0.35) = "0.3".
Proof. vm_compute. repeat split. Qed.

Example Math_round_examples :
  Js.Math_round 2.5 = 3%Z
  /\ Js.Math_round (-2.5) = (-2)%Z
  /\ Js.Math_round (4.2 / 6.0 * 100) = 70%Z.
Proof. vm_compute. repeat split. Qed.

Example objectWith_examples :
  Js.objectWith (Js.Obj [("a", Js.Num 1); ("b", Js.Num 2)])
                [("b", Js.Null); ("c", Js.Bool true)]
  = Js.Obj [("a", Js.Num 1); ("b", Js.Null); ("c", Js.Bool true)]
  /\ Js.objectWith Js.Null [("a", Js.Num 1)] = Js.Obj [("a", Js.Num 1)]
  /\ Js.objectWith (Js.Arr [Js.Null]) [("a", Js.Num 1)]
     = Js.Obj [("0", Js.Null); ("a", Js.Num 1)].
Proof. vm_compute. repeat split. Qed.

Lemma append_assoc (a b c : string) : (a ++ b) ++ c = a ++ b ++ c.
Proof.
  induction a as [| x a IH]; cbn [append]; [reflexivity | now rewrite IH].
Qed.

(** ** AnomalyList and RealtimeMetrics: the push handlers *)

Section Push.
Import WebSocket.

(** *** What stays on the page *)

Lemma keys_In {A : Type} (c : React.Child A) (cs : list (React.Child A))
  (k : string) :
  In c cs -> React.key c = Some k -> In k (React.keys cs).
Proof.
  intros Hin Hk. unfold React.keys. apply in_flat_map.
  exists c. split; [assumption |]. rewrite Hk. now left.
Qed.

(** Among children with pairwise distinct keys none is replaced in the
    map. *)
Lemma overwritten_distinct {A : Type} (old : list (React.Child A)) :
  NoDup (React.keys old) -> React.overwritten old = [].
Proof.
  induction old as [| o rest IH]; [reflexivity |].
  intro Hnd. cbn [React.overwritten].
  destruct (existsb (React.filedAlike o) rest) eqn:E.
  - exfalso. apply existsb_exists in E. destruct E as [o' [Hin Halike]].
    unfold React.filedAlike in Halike.
    destruct (React.key o) as [k |] eqn:Hk; [| discriminate].
    destruct (React.key o') as [k' |] eqn:Hk'; [| discriminate].
    apply String.eqb_eq in Halike. subst k'.
    unfold React.keys in Hnd. cbn [flat_map] in Hnd. rewrite Hk in Hnd.
    cbn [app] in Hnd. apply NoDup_cons_iff in Hnd.
    apply (proj1 Hnd). now apply keys_In with (c := o').
  - apply IH. unfold React.keys in *. cbn [flat_map] in Hnd.
    now apply NoDup_app_remove_l in Hnd.
Qed.

Lemma dropAgreeing_suffix {A : Type} (old new : list (React.Child A)) :
  exists before, old = (before ++ fst (React.dropAgreeing old new))%list.
Proof.
  revert new. induction old as [| o old IH]; intro new.
  - exists []. reflexivity.
  - destruct new as [| n new]; [exists []; reflexivity |].
    cbn [React.dropAgreeing].
    destruct (React.agree (React.key o) (React.key n)).
    + destruct (IH new) as [before H]. exists (o :: before).
      cbn [app]. now rewrite <- H.
    + exists []. reflexivity.
Qed.

(** Children with pairwise distinct keys leave nothing behind. *)
Lemma orphans_distinct {A : Type} (old new : list (React.Child A)) :
  NoDup (React.keys old) -> React.orphans old new = [].
Proof.
  intro Hnd. unfold React.orphans.
  destruct (dropAgreeing_suffix old new) as [before Hold].
  destruct (React.dropAgreeing old new) as [old' new'].
  cbn [fst] in Hold.
  destruct old' as [| o old']; [reflexivity |].
  destruct new' as [| n new']; [reflexivity |].
  apply overwritten_distinct.
  rewrite Hold in Hnd. unfold React.keys in Hnd.
  rewrite flat_map_app in Hnd. now apply NoDup_app_remove_l in Hnd.
Qed.

Lemma cardsOf_content (clock : Js.value -> option string)
  (xs : list Js.value) (cs : list AnomalyList.Card) :
  AnomalyList.cardsOf clock xs = React.Returns cs ->
  map React.content cs = xs
  /\ Forall (fun c => React.keyOf (Js.get (React.content c) "id")
                      = React.Returns (React.key c)) cs.
Proof.
  revert cs. induction xs as [| x xs IH]; intros cs H.
  - injection H as <-. split; constructor.
  - cbn [AnomalyList.cardsOf] in H.
    destruct (AnomalyList.card clock x) as [c | |] eqn:Hc;
      destruct (AnomalyList.cardsOf clock xs) as [cs' | |];
      try discriminate.
    injection H as <-.
    destruct (IH cs' eq_refl) as [IH1 IH2].
    assert (Hx : React.content c = x
                 /\ React.keyOf (Js.get x "id") = React.Returns (React.key c)).
    { unfold AnomalyList.card in Hc.
      destruct x; try discriminate;
        (destruct (Js.get _ "severity"); try discriminate;
         destruct (Js.get _ "type"); try discriminate;
         destruct (negb _); try discriminate;
         destruct (clock _); try discriminate;
         destruct (React.keyOf _) as [k | |]; try discriminate;
         injection Hc as <-; split; reflexivity). }
    destruct Hx as [Hx1 Hx2]. split.
    + cbn [map]. now rewrite Hx1, IH1.
    + constructor; [now rewrite Hx1 | assumption].
Qed.

Lemma render_cards (clock : Js.value -> option string)
  (anomalies : list Js.value) (f : AnomalyList.Feed) :
  AnomalyList.render clock anomalies = React.Returns f ->
  map React.content
      (match f with
       | AnomalyList.NoAnomalies => []
       | AnomalyList.Cards cs => cs
       end)
  = firstn 5 anomalies.
Proof.
  unfold AnomalyList.render. destruct anomalies as [| a rest].
  - intro H. injection H as <-. reflexivity.
  - destruct (AnomalyList.cardsOf clock (firstn 5 (a :: rest)))
      as [cs | |] eqn:E; try discriminate.
    intro H. injection H as <-. now apply cardsOf_content in E.
Qed.

Lemma show_down (clock : Js.value -> option string)
  (states : list (list Js.value)) (prev : React.Outcome AnomalyList.Shown) :
  (forall s, prev <> React.Returns s) ->
  fold_left (AnomalyList.show clock) states prev = prev.
Proof.
  intro H. induction states as [| x rest IH]; [reflexivity |].
  cbn [fold_left]. destruct prev as [s | |]; [now destruct (H s) | |];
    exact IH.
Qed.

Lemma last_cons {A : Type} (x d : A) (l : list A) :
  last (x :: l) d = last l x.
Proof.
  revert x d. induction l as [| y l IH]; intros x d; [reflexivity |].
  change (last (x :: y :: l) d) with (last (y :: l) d).
  now rewrite !IH.
Qed.

(** As long as the cards of each render have pairwise distinct keys, the
    page shows the cards of the last render and no other. *)
Lemma display_distinct (clock : Js.value -> option string)
  (states : list (list Js.value)) (s0 shown : AnomalyList.Shown)
  (d0 : list Js.value) :
  AnomalyList.stale s0 = [] ->
  NoDup (React.keys (AnomalyList.cards s0)) ->
  map React.content (AnomalyList.cards s0) = firstn 5 d0 ->
  (forall anomalies cs,
      In anomalies states ->
      AnomalyList.render clock anomalies
      = React.Returns (AnomalyList.Cards cs) ->
      NoDup (React.keys cs)) ->
  fold_left (AnomalyList.show clock) states (React.Returns s0)
  = React.Returns shown ->
  AnomalyList.stale shown = []
  /\ map React.content (AnomalyList.cards shown)
     = firstn 5 (last states d0).
Proof.
  revert s0 d0. induction states as [| x rest IH];
    intros s0 d0 Hstale Hnd Hcontent Hkeys Hshown.
  - injection Hshown as <-. auto.
  - cbn [fold_left AnomalyList.show] in Hshown.
    destruct (AnomalyList.render clock x) as [f | |] eqn:Hr.
    + rewrite last_cons.
      apply (IH (AnomalyList.commit s0 f) x); try assumption.
      * destruct f as [| cs]; cbn [AnomalyList.commit AnomalyList.stale];
          [assumption |].
        now rewrite Hstale, orphans_distinct.
      * destruct f as [| cs]; cbn [AnomalyList.commit AnomalyList.cards];
          [constructor |].
        apply (Hkeys x cs); [now left | assumption].
      * destruct f as [| cs]; cbn [AnomalyList.commit AnomalyList.cards];
          exact (render_cards clock x _ Hr).
      * intros anomalies cs Hin. apply Hkeys. now right.
    + rewrite show_down in Hshown; [discriminate | discriminate].
    + rewrite show_down in Hshown; [discriminate | discriminate].
Qed.


(** C3.  On a push message of type metrics_update the metrics state becomes
    the payload itself, whatever the payload is (any value at all: nothing
    is checked) and whatever the state was (nothing is kept). *)
Theorem metrics_update_replaces_state (m : Message) :
  type m = "metrics_update" ->
  (forall prev : Js.value,
      RealtimeMetrics.onLastMessage (Some m) prev = data m)
  /\ (forall prev prev' : Js.value,
        RealtimeMetrics.onLastMessage (Some m) prev
        = RealtimeMetrics.onLastMessage (Some m) prev').
Proof.
  intro Ht. unfold RealtimeMetrics.onLastMessage. rewrite Ht.
  split; reflexivity.
Qed.

(** C8.  A push message whose type is neither metrics_update nor
    anomaly_detected changes neither the metrics state nor the anomalies
    state. *)
Theorem unhandled_message_ignored (m : Message)
  (metrics : Js.value) (anomalies : list Js.value) :
  type m <> "metrics_update" ->
  type m <> "anomaly_detected" ->
  RealtimeMetrics.onLastMessage (Some m) metrics = metrics
  /\ AnomalyList.onLastMessage (Some m) anomalies = anomalies.
Proof.
  intros Hm Ha.
  apply String.eqb_neq in Hm. apply String.eqb_neq in Ha.
  unfold RealtimeMetrics.onLastMessage, AnomalyList.onLastMessage.
  rewrite Hm, Ha. split; reflexivity.
Qed.

End Push.

(** ** RealtimeMetrics: the snapshot *)

Lemma onInitialMetrics_modelAccuracy (initialMetrics prev : Js.value) :
  Js.truthy initialMetrics = true ->
  Js.get (RealtimeMetrics.onInitialMetrics initialMetrics prev) "modelAccuracy"
  = Js.or (Js.optGet (Js.get initialMetrics "performance") "accuracy")
          (Js.Num 0.947).
Proof.
  intro Ht. unfold RealtimeMetrics.onInitialMetrics. rewrite Ht.
  unfold Js.objectWith. cbn [fold_left fst snd Js.get].
  rewrite !lookup_set_other by reflexivity.
  apply lookup_set_same.
Qed.

(** C9.  When the /api/status snapshot has no performance.accuracy, or has
    the number 0 there, modelAccuracy is set to 0.947 and the card reads
    94.7%; and whatever the snapshot holds, the modelAccuracy it yields is
    never 0. *)
Theorem snapshot_accuracy_zero_is_defaulted (initialMetrics prev : Js.value) :
  Js.truthy initialMetrics = true ->
  let accuracy := Js.optGet (Js.get initialMetrics "performance") "accuracy" in
  let metrics := RealtimeMetrics.onInitialMetrics initialMetrics prev in
  (accuracy = Js.Undefined \/ (exists q, accuracy = Js.Num q /\ q == 0) ->
   Js.get metrics "modelAccuracy" = Js.Num 0.947
   /\ RealtimeMetrics.modelAccuracyText metrics = Some "94.7%")
  /\ (forall q, Js.get metrics "modelAccuracy" = Js.Num q -> ~ q == 0).
Proof.
  intros Ht accuracy metrics.
  assert (Hget : Js.get metrics "modelAccuracy"
                 = Js.or accuracy (Js.Num 0.947))
    by (apply onInitialMetrics_modelAccuracy; exact Ht).
  split.
  - intro Hacc.
    assert (Hdef : Js.get metrics "modelAccuracy" = Js.Num 0.947).
    { rewrite Hget. destruct Hacc as [-> | [q [-> Hq]]]; unfold Js.or.
      - reflexivity.
      - cbn [Js.truthy]. apply Qeq_bool_iff in Hq. now rewrite Hq. }
    split; [exact Hdef |].
    unfold RealtimeMetrics.modelAccuracyText. rewrite Hdef.
    vm_compute. reflexivity.
  - intros q Hq Hzero.
    assert (Htruthy : Js.truthy (Js.get metrics "modelAccuracy") = true).
    { rewrite Hget. apply or_truthy. reflexivity. }
    rewrite Hq in Htruthy. cbn [Js.truthy] in Htruthy.
    apply Qeq_bool_iff in Hzero. rewrite Hzero in Htruthy. discriminate.
Qed.

(** ** PrivacyControls *)

Section Privacy.
Import PrivacyControls.

(** [Math.round] yields the integer nearest to its argument, the upper one
    on a tie. *)
Lemma Math_round_nearest (x : Q) :
  inject_Z (Js.Math_round x) - (1 # 2) <= x
  /\ x < inject_Z (Js.Math_round x) + (1 # 2).
Proof.
  unfold Js.Math_round.
  pose proof (Qfloor_le (x + (1 # 2))) as Hle.
  pose proof (Qlt_floor (x + (1 # 2))) as Hlt.
  rewrite inject_Z_plus in Hlt. change (inject_Z 1) with 1 in Hlt.
  split; lra.
Qed.

(** The digits of [toFixed(1)] are those of the number of tenths nearest to
    the magnitude. *)
Lemma scaledRound_nearest (x : Q) :
  inject_Z (Js.scaledRound 1 x) - (1 # 2) <= x * 10
  /\ x * 10 < inject_Z (Js.scaledRound 1 x) + (1 # 2).
Proof.
  unfold Js.scaledRound.
  change (inject_Z (10 ^ Z.of_nat 1)) with 10.
  pose proof (Qfloor_le (x * 10 + (1 # 2))) as Hle.
  pose proof (Qlt_floor (x * 10 + (1 # 2))) as Hlt.
  rewrite inject_Z_plus in Hlt. change (inject_Z 1) with 1 in Hlt.
  split; lra.
Qed.


End Privacy.

(** ** AnomalyAnalysis: onDrop *)

Section Drop.
Import AnomalyAnalysis.

Lemma onDropFile_upload (g file : File.t) :
  onDropFile g = UploadFile file ->
  g = file
  /\ (File.size file <= 50 * 1024 * 1024)%N
  /\ In (File.type file) allowedTypes.
Proof.
  unfold onDropFile.
  destruct (50 * 1024 * 1024 <? File.size g)%N eqn:Es; [discriminate |].
  destruct (includes allowedTypes (File.type g)) eqn:Et; [| discriminate].
  cbn [negb]. intro H. injection H as ->.
  apply N.ltb_ge in Es. apply includes_In in Et. auto.
Qed.

(** C5.  A file handed to onDrop that is larger than 50 * 1024 * 1024 bytes
    or whose MIME type is not one of the eight allowed ones (four image
    types, four video types) is never passed to uploadFile and gets a
    destructive toast; a file within both limits is passed to uploadFile. *)
Theorem onDrop_rejects_or_uploads
  (acceptedFiles : list File.t) (i : nat) (file : File.t) :
  nth_error acceptedFiles i = Some file ->
  ((50 * 1024 * 1024 < File.size file)%N
   \/ ~ In (File.type file) allowedTypes ->
   ~ In (UploadFile file) (onDrop acceptedFiles)
   /\ exists t, nth_error (onDrop acceptedFiles) i = Some (ShowToast t)
                /\ Toast.variant t = Some "destructive")
  /\ ((File.size file <= 50 * 1024 * 1024)%N ->
      In (File.type file) allowedTypes ->
      nth_error (onDrop acceptedFiles) i = Some (UploadFile file))
  /\ filter (String.prefix "image/") allowedTypes
     = ["image/jpeg"; "image/jpg"; "image/png"; "image/gif"]
  /\ filter (String.prefix "video/") allowedTypes
     = ["video/mp4"; "video/avi"; "video/mov"; "video/mkv"]
  /\ List.length allowedTypes = 8%nat.
Proof.
  intro Hnth.
  assert (Hact : nth_error (onDrop acceptedFiles) i = Some (onDropFile file)).
  { unfold onDrop. rewrite nth_error_map, Hnth. reflexivity. }
  split; [| split; [| repeat split]].
  - intro Hrej. split.
    + intro Hin. unfold onDrop in Hin. apply in_map_iff in Hin.
      destruct Hin as [g [Hg _]].
      apply onDropFile_upload in Hg. destruct Hg as [_ [Hs Ht]].
      destruct Hrej as [Hbig | Hbad]; [lia | contradiction].
    + rewrite Hact. unfold onDropFile.
      destruct (50 * 1024 * 1024 <? File.size file)%N eqn:Es.
      * eexists. split; reflexivity.
      * destruct (includes allowedTypes (File.type file)) eqn:Et; cbn [negb].
        -- exfalso. apply N.ltb_ge in Es. apply includes_In in Et.
           destruct Hrej as [Hbig | Hbad]; [lia | contradiction].
        -- eexists. split; reflexivity.
  - intros Hs Ht. rewrite Hact. unfold onDropFile.
    apply N.ltb_ge in Hs. rewrite Hs.
    apply includes_In in Ht. rewrite Ht. reflexivity.
Qed.

End Drop.

(** ** AnomalyAnalysis: the overlay *)

Section Overlay.
Import AnomalyAnalysis.

(** C7.  For every bounding box [x1, y1, x2, y2] of the selected result,
    the overlay rectangle drawn for it (there is one as soon as the image of
    the selected file is shown, none otherwise) sits at
    left = x1 * (512/640), top = y1 * (256/480), with width
    (x2 - x1) * (512/640) and height (y2 - y1) * (256/480): the scale is the
    constant 640 x 480 frame, nothing of the uploaded image enters it. *)
Theorem overlay_scaled_to_fixed_frame
  (p : Page) (r : AnomalyResult.t) (boxes : list BoundingBox.t)
  (i : nat) (box : BoundingBox.t) (x1 y1 x2 y2 : Q) :
  selectedResult p = Some r ->
  AnomalyResult.bounding_boxes r = Some boxes ->
  nth_error boxes i = Some box ->
  BoundingBox.bbox box = (x1, y1, x2, y2) ->
  (selectedImageShown p = true ->
   nth_error (overlays p) i
   = Some {| left := x1 * (512 / 640);
             top := y1 * (256 / 480);
             width := (x2 - x1) * (512 / 640);
             height := (y2 - y1) * (256 / 480) |})
  /\ (selectedImageShown p = false -> overlays p = [])
  /\ (forall o : Style,
        nth_error (overlays p) i = Some o ->
        left o = x1 * (512 / 640)
        /\ top o = y1 * (256 / 480)
        /\ width o = (x2 - x1) * (512 / 640)
        /\ height o = (y2 - y1) * (256 / 480))
  /\ (forall p' : Page,
        selectedResult p' = selectedResult p ->
        selectedImageShown p' = selectedImageShown p ->
        overlays p' = overlays p).
Proof.
  intros Hr Hb Hi Hbox.
  assert (Hpos : (0 <? List.length boxes)%nat = true).
  { apply Nat.ltb_lt. destruct boxes; [destruct i; discriminate | cbn; lia]. }
  assert (Hstyle : overlayStyle box
                   = {| left := x1 * (512 / 640);
                        top := y1 * (256 / 480);
                        width := (x2 - x1) * (512 / 640);
                        height := (y2 - y1) * (256 / 480) |}).
  { unfold overlayStyle. now rewrite Hbox. }
  split; [| split; [| split]].
  - intro Hs. unfold overlays. rewrite Hr, Hb, Hpos, Hs.
    rewrite nth_error_map, Hi. cbn [option_map]. now rewrite Hstyle.
  - intro Hs. unfold overlays. now rewrite Hr, Hb, Hpos, Hs.
  - intro o. unfold overlays. rewrite Hr, Hb, Hpos.
    destruct (selectedImageShown p).
    + rewrite nth_error_map, Hi. cbn [option_map]. rewrite Hstyle.
      intro H. injection H as <-. repeat split.
    + destruct i; discriminate.
  - intros p' H1 H2. unfold overlays. now rewrite H1, H2.
Qed.

End Overlay.

(** ** AnomalyAnalysis: the poll loop *)

Section PollLoop.
Import AnomalyAnalysis.

(** *** Choosing the next event *)

Lemma earliest_None (cs : list (N * Event)) :
  earliest cs = None -> cs = [].
Proof.
  destruct cs as [| c rest]; [reflexivity |]. cbn [earliest].
  destruct (earliest rest) as [c' |]; [| discriminate].
  destruct (fst c' <? fst c)%N; discriminate.
Qed.

Lemma earliest_In (cs : list (N * Event)) (c : N * Event) :
  earliest cs = Some c -> In c cs.
Proof.
  revert c. induction cs as [| c0 rest IH]; intros c; cbn [earliest].
  - discriminate.
  - destruct (earliest rest) as [c' |].
    + destruct (fst c' <? fst c0)%N; intro H; injection H as <-.
      * right. now apply IH.
      * now left.
    + intro H. injection H as <-. now left.
Qed.

Lemma earliest_le (cs : list (N * Event)) (c : N * Event) :
  earliest cs = Some c -> forall c', In c' cs -> (fst c <= fst c')%N.
Proof.
  revert c. induction cs as [| c0 rest IH]; intros c; cbn [earliest].
  - discriminate.
  - destruct (earliest rest) as [c1 |] eqn:E.
    + destruct (fst c1 <? fst c0)%N eqn:L; intro H; injection H as <-;
        intros c' [<- | Hin].
      * apply N.ltb_lt in L. lia.
      * now apply IH.
      * lia.
      * apply N.ltb_ge in L. specialize (IH c1 eq_refl c' Hin). lia.
    + intro H. injection H as <-. intros c' [<- | Hin]; [lia |].
      apply earliest_None in E. subst rest. destruct Hin.
Qed.

Lemma candidates_In (l : Loop) (t : N) (e : Event) :
  In (t, e) (candidates l) <->
  (e = IntervalFires /\ intervalDue l = Some t)
  \/ (e = TimeoutFires /\ timeoutDue l = Some t)
  \/ (exists p, e = FetchSettles p /\ In p (inflight l) /\ t = due p).
Proof.
  unfold candidates. rewrite !in_app_iff, in_map_iff. split.
  - intros [H | [H | [p [H Hin]]]].
    + destruct (intervalDue l); [| destruct H].
      destruct H as [H | []]. injection H as -> <-. auto.
    + destruct (timeoutDue l); [| destruct H].
      destruct H as [H | []]. injection H as -> <-. auto.
    + injection H as <- <-. right. right. now exists p.
  - intros [[-> H] | [[-> H] | [p [-> [Hin ->]]]]].
    + rewrite H. left. now left.
    + rewrite H. right. left. now left.
    + right. right. now exists p.
Qed.

(** Whatever the order of the timers, the same events can happen next. *)
Lemma arrange_In (net : Network) (l : Loop) (c : N * Event) :
  In c (arrange net l) <-> In c (candidates l).
Proof.
  unfold arrange, candidates. destruct (stopFirst net); [| tauto].
  rewrite !in_app_iff. tauto.
Qed.

Lemma arrange_nil (net : Network) (l : Loop) :
  candidates l = [] -> arrange net l = [].
Proof.
  intro H. destruct (arrange net l) as [| c cs] eqn:E; [reflexivity |].
  assert (Hin : In c (candidates l)) by (apply (arrange_In net); rewrite E; now left).
  rewrite H in Hin. destruct Hin.
Qed.

(** The event that is run is a candidate, and no candidate is due sooner. *)
Lemma next_event (net : Network) (l : Loop) (t : N) (e : Event) :
  earliest (arrange net l) = Some (t, e) ->
  In (t, e) (candidates l)
  /\ forall t' e', In (t', e') (candidates l) -> (t <= t')%N.
Proof.
  intro H. split.
  - apply (arrange_In net). now apply earliest_In.
  - intros t' e' Hin. apply (arrange_In net) in Hin.
    apply (earliest_le _ _ H (t', e') Hin).
Qed.

(** Case analysis on the event that is run: the interval, the stop timer, or
    the fetch of a suspended callback [p]. *)
Ltac event_cases Hnext :=
  apply next_event in Hnext; destruct Hnext as [Hin Hmin];
  apply candidates_In in Hin;
  destruct Hin as [[-> Hd] | [[-> Hd] | [p [-> [Hp ->]]]]].

(** *** One resumed callback *)

Lemma settled_false (f : UploadedFile.t) :
  settled f = false <->
  UploadedFile.status f = "uploaded" \/ UploadedFile.status f = "processing".
Proof.
  unfold settled. split.
  - intro H. apply andb_false_iff in H.
    destruct H as [H | H]; apply negb_false_iff, String.eqb_eq in H; auto.
  - intros [H | H]; rewrite H; reflexivity.
Qed.

(** A response in which the file is missing or still pending changes
    nothing at all. *)
Lemma pollResume_pending (files : list UploadedFile.t) (l : Loop) :
  match find (fun f => String.eqb (UploadedFile.id f) (fileId l)) files with
  | Some currentFile => settled currentFile = false
  | None => True
  end ->
  pollResume (Resolved files) l = l.
Proof.
  unfold pollResume.
  destruct (find _ files) as [currentFile |]; [| reflexivity].
  intros ->. reflexivity.
Qed.

(** A response in which the file has left the pending states. *)
Lemma pollResume_settled (files : list UploadedFile.t)
  (currentFile : UploadedFile.t) (l : Loop) :
  find (fun f => String.eqb (UploadedFile.id f) (fileId l)) files
  = Some currentFile ->
  settled currentFile = true ->
  uploadedFiles (page (pollResume (Resolved files) l))
  = replaceById (fileId l) currentFile (uploadedFiles (page l))
  /\ selectedResult (page (pollResume (Resolved files) l))
     = (if String.eqb (UploadedFile.status currentFile) "analyzed"
           && isSome (UploadedFile.analysisResults currentFile)
        then UploadedFile.analysisResults currentFile
        else selectedResult (page l))
  /\ intervalDue (pollResume (Resolved files) l) = None
  /\ updatedAt (pollResume (Resolved files) l) = (updatedAt l ++ [now l])%list.
Proof.
  intros Hfind Hset. unfold pollResume. rewrite Hfind, Hset.
  destruct (String.eqb (UploadedFile.status currentFile) "analyzed");
    destruct (isSome (UploadedFile.analysisResults currentFile));
    repeat split.
Qed.

(** A failed fetch. *)
Lemma pollResume_rejected (error : string) (l : Loop) :
  page (pollResume (Rejected error) l) = page l
  /\ intervalDue (pollResume (Rejected error) l) = None
  /\ updatedAt (pollResume (Rejected error) l) = updatedAt l.
Proof. repeat split. Qed.

(** What no resumed callback touches. *)
Lemma pollResume_frame (o : FetchOutcome) (l : Loop) :
  startedAt (pollResume o l) = startedAt l
  /\ timeoutDue (pollResume o l) = timeoutDue l
  /\ inflight (pollResume o l) = inflight l
  /\ fileId (pollResume o l) = fileId l
  /\ now (pollResume o l) = now l
  /\ (intervalDue (pollResume o l) = intervalDue l
      \/ intervalDue (pollResume o l) = None).
Proof.
  unfold pollResume. destruct o as [error | files].
  - repeat split. now right.
  - destruct (find _ files) as [currentFile |]; [| repeat split; now left].
    destruct (settled currentFile); [| repeat split; now left].
    destruct (String.eqb (UploadedFile.status currentFile) "analyzed");
      destruct (isSome (UploadedFile.analysisResults currentFile));
      repeat split; now right.
Qed.

(** A resumed callback either leaves the page alone or is an update. *)
Lemma pollResume_cases (o : FetchOutcome) (l : Loop) :
  (page (pollResume o l) = page l
   /\ updatedAt (pollResume o l) = updatedAt l)
  \/ (exists currentFile,
         settled currentFile = true
         /\ uploadedFiles (page (pollResume o l))
            = replaceById (fileId l) currentFile (uploadedFiles (page l))
         /\ updatedAt (pollResume o l) = (updatedAt l ++ [now l])%list
         /\ intervalDue (pollResume o l) = None).
Proof.
  destruct o as [error | files].
  - left. split; reflexivity.
  - destruct (find (fun f => String.eqb (UploadedFile.id f) (fileId l)) files)
      as [currentFile |] eqn:Hfind.
    + destruct (settled currentFile) eqn:Hset.
      * right. exists currentFile.
        destruct (pollResume_settled files currentFile l Hfind Hset)
          as [H1 [_ [H3 H4]]].
        auto.
      * left. rewrite pollResume_pending; [auto |]. now rewrite Hfind.
    + left. rewrite pollResume_pending; [auto |]. now rewrite Hfind.
Qed.

(** *** Running the loop *)

Variable net : Network.

Lemma run_invariant (P : Loop -> Prop) :
  (forall l t e,
      P l -> earliest (arrange net l) = Some (t, e) -> P (handle net t e l)) ->
  forall fuel limit l, P l -> P (run net fuel limit l).
Proof.
  intros Hstep fuel limit.
  induction fuel as [| fuel IH]; intros l Hl; cbn [run]; [assumption |].
  destruct (earliest (arrange net l)) as [[t e] |] eqn:E; [| assumption].
  destruct (t <=? limit)%N; [| assumption].
  apply IH. now apply Hstep with (1 := Hl).
Qed.

Lemma forget_shorter (p : Pending) (l : Loop) :
  In p (inflight l) ->
  (List.length (inflight (forget p l)) < List.length (inflight l))%nat.
Proof.
  cbn [forget inflight]. induction (inflight l) as [| q rest IH].
  - intros [].
  - intros [-> | Hin]; cbn [filter].
    + rewrite Nat.eqb_refl. cbn [negb Datatypes.length].
      pose proof (filter_length_le
                    (fun q => negb (Nat.eqb (poll q) (poll p))) rest).
      lia.
    + specialize (IH Hin).
      destruct (negb (Nat.eqb (poll q) (poll p)));
        cbn [Datatypes.length]; lia.
Qed.

Lemma forget_subset (p q : Pending) (l : Loop) :
  In q (inflight (forget p l)) -> In q (inflight l).
Proof. cbn [forget inflight]. intro H. now apply filter_In in H. Qed.

(** *** The schedule *)

Lemma tickTime_next (k : nat) :
  (tickTime k + pollEvery)%N = tickTime (S k).
Proof. unfold tickTime, pollEvery. lia. Qed.

Lemma Scheduled_start (file : File.t) (uploadedFile : UploadedFile.t)
  (p : Page) (shown : list Toast.t) (errs : list string) :
  Scheduled net (uploadFile_settle file (PostOk uploadedFile) p shown errs)
  /\ remaining (uploadFile_settle file (PostOk uploadedFile) p shown errs)
     = enough.
Proof.
  split; [constructor |]; cbn.
  - reflexivity.
  - lia.
  - intros d H. injection H as <-. split; reflexivity.
  - intros d H. now injection H as <-.
  - constructor.
  - constructor.
  - reflexivity.
Qed.

Lemma Scheduled_step (l : Loop) (t : N) (e : Event) :
  Scheduled net l ->
  earliest (arrange net l) = Some (t, e) ->
  Scheduled net (handle net t e l)
  /\ (remaining (handle net t e l) < remaining l)%nat.
Proof.
  intros [Hst Hcap Hint Htmo Hfl Hupd] Hnext.
  event_cases Hnext.
  - (* the interval fires: a poll starts *)
    destruct (Hint t Hd) as [Ht Hto].
    assert (Hle : (t <= pollFor)%N).
    { apply (Hmin pollFor TimeoutFires). apply candidates_In. auto. }
    assert (Hn : (List.length (startedAt l) < 30)%nat).
    { subst t. unfold tickTime, pollEvery, pollFor in Hle. lia. }
    split; [constructor |]; cbn [handle pollStart advance startedAt intervalDue
                                  timeoutDue inflight updatedAt now].
    + rewrite length_app. cbn [Datatypes.length].
      rewrite Nat.add_1_r, seq_S, map_app. cbn [map Nat.add].
      now rewrite <- Hst, Ht.
    + rewrite length_app. cbn [Datatypes.length]. lia.
    + intros d H. injection H as <-. rewrite length_app.
      cbn [Datatypes.length]. rewrite Nat.add_1_r, Ht.
      split; [apply tickTime_next | assumption].
    + assumption.
    + rewrite length_app. cbn [Datatypes.length].
      apply Forall_app. split.
      * eapply Forall_impl; [| exact Hfl].
        cbn beta. intros q [H1 H2]. split; [lia | assumption].
      * constructor; [| constructor]. cbn [poll due outcome].
        unfold replyTime. rewrite Ht. repeat split. lia.
    + rewrite length_app. cbn [Datatypes.length].
      eapply Forall_impl; [| exact Hupd].
      cbn beta. intros u [k [H1 H2]]. exists k. split; [lia | assumption].
    + unfold remaining.
      cbn [pollStart advance intervalDue timeoutDue inflight startedAt now].
      rewrite Hd, Hto, !length_app. cbn [Datatypes.length]. lia.
  - (* the stop timer fires *)
    split; [constructor |];
      cbn [handle stopPolling clearInterval advance startedAt intervalDue
           timeoutDue inflight updatedAt now]; try assumption; try discriminate.
    unfold remaining.
    cbn [stopPolling clearInterval advance intervalDue timeoutDue inflight
         startedAt].
    rewrite Hd. destruct (intervalDue l); lia.
  - (* a fetch settles: its callback resumes *)
    cbn [handle].
    set (l1 := forget p (advance (due p) l)).
    destruct (pollResume_frame (outcome p) l1)
      as [Fst [Fto [Ffl [_ [Fnow Fint]]]]].
    assert (Hp' : (poll p < List.length (startedAt l))%nat
                  /\ due p = replyTime net (poll p)).
    { rewrite Forall_forall in Hfl. destruct (Hfl p Hp) as [H1 [H2 _]]. auto. }
    split; [constructor |].
    + now rewrite Fst.
    + now rewrite Fst.
    + rewrite Fst, Fto. intros d H.
      destruct Fint as [F | F]; rewrite F in H; [| discriminate].
      now apply Hint.
    + now rewrite Fto.
    + rewrite Fst, Ffl. apply Forall_forall. intros q Hq.
      rewrite Forall_forall in Hfl. apply Hfl.
      now apply (forget_subset p q (advance (due p) l)).
    + rewrite Fst.
      destruct (pollResume_cases (outcome p) l1) as [[_ U] | [_ [_ [_ [U _]]]]];
        rewrite U; [assumption |].
      apply Forall_app. split; [assumption |].
      constructor; [| constructor].
      exists (poll p). destruct Hp' as [H1 H2]. split; assumption.
    + unfold remaining. rewrite Fst, Fto, Ffl.
      pose proof (forget_shorter p (advance (due p) l) Hp) as Hshort.
      change (inflight (advance (due p) l)) with (inflight l) in Hshort.
      change (startedAt l1) with (startedAt l).
      change (timeoutDue l1) with (timeoutDue l).
      fold l1 in Hshort.
      destruct Fint as [F | F]; rewrite F.
      * change (intervalDue l1) with (intervalDue l). lia.
      * destruct (intervalDue l); lia.
Qed.

Lemma run_Scheduled (fuel : nat) (limit : N) (l : Loop) :
  Scheduled net l -> Scheduled net (run net fuel limit l).
Proof.
  apply run_invariant. intros l' t e H E.
  now apply Scheduled_step.
Qed.

(** With enough fuel the run goes on until nothing is due up to [limit]. *)
Lemma run_quiet (fuel : nat) (limit : N) (l : Loop) :
  Scheduled net l ->
  (remaining l <= fuel)%nat ->
  quiet limit (run net fuel limit l).
Proof.
  revert l. induction fuel as [| fuel IH]; intros l Hs Hr; cbn [run].
  - intros t e Hin. exfalso. apply candidates_In in Hin.
    unfold remaining in Hr.
    destruct Hin as [[_ H] | [[_ H] | [p [_ [H _]]]]].
    + rewrite H in Hr. destruct (sch_interval net l Hs t H) as [_ H'].
      rewrite H' in Hr. lia.
    + rewrite H in Hr. lia.
    + destruct (inflight l); [destruct H | cbn [Datatypes.length] in Hr; lia].
  - destruct (earliest (arrange net l)) as [[t e] |] eqn:E.
    + destruct (t <=? limit)%N eqn:L.
      * destruct (Scheduled_step l t e Hs E) as [Hs' Hr'].
        apply IH; [assumption | lia].
      * apply N.leb_gt in L. intros t' e' Hin.
        apply next_event in E. destruct E as [_ Hmin].
        specialize (Hmin t' e' Hin). lia.
    + apply earliest_None in E. intros t' e' Hin.
      apply (proj2 (arrange_In net l _)) in Hin. rewrite E in Hin.
      destruct Hin.
Qed.

(** *** Once cleared, the interval stays cleared *)

Lemma stopped_step (l0 l : Loop) (t : N) (e : Event) :
  stopped l0 l ->
  earliest (arrange net l) = Some (t, e) ->
  stopped l0 (handle net t e l).
Proof.
  intros [Hint Hst] Hnext.
  event_cases Hnext.
  - rewrite Hint in Hd. discriminate.
  - split; [reflexivity | exact Hst].
  - cbn [handle].
    destruct (pollResume_frame (outcome p) (forget p (advance (due p) l)))
      as [Fst [_ [_ [_ [_ Fint]]]]].
    split.
    + destruct Fint as [F | F]; rewrite F; [exact Hint | reflexivity].
    + rewrite Fst. exact Hst.
Qed.

Lemma run_stopped (fuel : nat) (limit : N) (l : Loop) :
  intervalDue l = None -> stopped l (run net fuel limit l).
Proof.
  intro H. apply run_invariant.
  - intros l' t e. apply stopped_step.
  - now split.
Qed.

(** *** The page between updates *)

Lemma Faithful_step (page0 : Page) (l : Loop) (t : N) (e : Event) :
  Faithful page0 l ->
  earliest (arrange net l) = Some (t, e) ->
  Faithful page0 (handle net t e l).
Proof.
  intros [Hbefore Hentries Hcleared] Hnext.
  event_cases Hnext.
  - constructor; cbn; try assumption.
    intro H. apply Hcleared in H. rewrite H in Hd. discriminate.
  - constructor; cbn; try assumption. reflexivity.
  - cbn [handle].
    set (l1 := forget p (advance (due p) l)).
    destruct (pollResume_frame (outcome p) l1) as [_ [_ [_ [_ [_ Fint]]]]].
    destruct (pollResume_cases (outcome p) l1)
      as [[P U] | [currentFile [Hset [P [U I]]]]].
    + constructor; rewrite ?P, ?U; try assumption.
      intro H. destruct Fint as [F | F]; rewrite F; [| reflexivity].
      now apply Hcleared.
    + constructor.
      * rewrite U. intro H. now apply app_eq_nil in H as [_ H].
      * rewrite P. unfold replaceById. apply Forall_map.
        eapply Forall_impl; [| exact Hentries]. cbn beta.
        intros f Hf.
        destruct (String.eqb (UploadedFile.id f) (fileId l1)); auto.
      * intros _. exact I.
Qed.

Lemma Faithful_start (l : Loop) :
  updatedAt l = [] -> Faithful (page l) l.
Proof.
  intro H. constructor.
  - reflexivity.
  - apply Forall_forall. auto.
  - intro H'. now rewrite H in H'.
Qed.

(** *** Which of the two timers goes first *)

(** The candidate that is run is the one listed first, or is due strictly
    before it. *)
Lemma earliest_head (c c' : N * Event) (rest : list (N * Event)) :
  earliest (c :: rest) = Some c' -> c' = c \/ (fst c' < fst c)%N.
Proof.
  cbn [earliest]. destruct (earliest rest) as [c1 |].
  - destruct (fst c1 <? fst c)%N eqn:E; intro H; injection H as <-.
    + right. now apply N.ltb_lt.
    + now left.
  - intro H. injection H as <-. now left.
Qed.

Lemma interval_before_stop (l : Loop) (t : N) :
  earliest (arrange net l) = Some (t, IntervalFires) ->
  timeoutDue l = Some pollFor ->
  if stopFirst net then (t < pollFor)%N else (t <= pollFor)%N.
Proof.
  intros Hnext Hto. destruct (stopFirst net) eqn:Hsf.
  - unfold arrange in Hnext. rewrite Hsf, Hto in Hnext. cbn [app] in Hnext.
    apply earliest_head in Hnext.
    destruct Hnext as [H | H]; [discriminate | exact H].
  - apply next_event in Hnext. destruct Hnext as [_ Hmin].
    apply (Hmin pollFor TimeoutFires), candidates_In. auto.
Qed.

Lemma stop_before_interval (l : Loop) (t d : N) :
  earliest (arrange net l) = Some (t, TimeoutFires) ->
  intervalDue l = Some d ->
  if stopFirst net then (t <= d)%N else (t < d)%N.
Proof.
  intros Hnext Hint. destruct (stopFirst net) eqn:Hsf.
  - apply next_event in Hnext. destruct Hnext as [_ Hmin].
    apply (Hmin d IntervalFires), candidates_In. auto.
  - unfold arrange, candidates in Hnext. rewrite Hsf, Hint in Hnext.
    cbn [app] in Hnext. apply earliest_head in Hnext.
    destruct Hnext as [H | H]; [discriminate | exact H].
Qed.

(** *** While nothing ends the loop, it keeps polling *)

Lemma run_invariant_upto (P : Loop -> Prop) (limit : N) :
  (forall l t e,
      P l -> earliest (arrange net l) = Some (t, e) -> (t <= limit)%N ->
      P (handle net t e l)) ->
  forall fuel l, P l -> P (run net fuel limit l).
Proof.
  intros Hstep fuel.
  induction fuel as [| fuel IH]; intros l Hl; cbn [run]; [assumption |].
  destruct (earliest (arrange net l)) as [[t e] |] eqn:E; [| assumption].
  destruct (t <=? limit)%N eqn:L; [| assumption].
  apply IH. apply N.leb_le in L. now apply Hstep with (1 := Hl).
Qed.

(** A resumed callback does nothing, or logs an error, or is an update. *)
Lemma pollResume_effect (o : FetchOutcome) (l : Loop) :
  pollResume o l = l
  \/ (exists msg, errors (pollResume o l) = (errors l ++ [msg])%list)
  \/ (updatedAt (pollResume o l) = (updatedAt l ++ [now l])%list
      /\ errors (pollResume o l) = errors l).
Proof.
  unfold pollResume. destruct o as [error | files].
  - right. left. eexists. reflexivity.
  - destruct (find _ files) as [currentFile |]; [| now left].
    destruct (settled currentFile); [| now left].
    right. right.
    destruct (String.eqb (UploadedFile.status currentFile) "analyzed");
      destruct (isSome (UploadedFile.analysisResults currentFile));
      split; reflexivity.
Qed.

Lemma Armed_start (file : File.t) (uploadedFile : UploadedFile.t)
  (p : Page) (shown : list Toast.t) (errs : list string) (limit : N) :
  Armed net limit
        (uploadFile_settle file (PostOk uploadedFile) p shown errs)
        (uploadFile_settle file (PostOk uploadedFile) p shown errs).
Proof.
  constructor; cbn.
  - lia.
  - lia.
  - constructor.
  - discriminate.
  - reflexivity.
Qed.

Lemma Armed_step (limit : N) (l0 l : Loop) (t : N) (e : Event) :
  Scheduled net l ->
  Armed net limit l0 l ->
  earliest (arrange net l) = Some (t, e) ->
  (t <= limit)%N ->
  Armed net limit l0 (handle net t e l).
Proof.
  intros Hs [Hcap Herr Hpast Hto Hlive] Hnext Hle.
  pose proof Hnext as Hfirst.
  event_cases Hnext.
  - (* the interval fires *)
    destruct (sch_interval net l Hs t Hd) as [Ht Htmo].
    pose proof (interval_before_stop l t Hfirst Htmo) as Hord.
    constructor; cbn [handle pollStart advance startedAt intervalDue
                      timeoutDue inflight updatedAt now errors].
    + rewrite length_app. cbn [Datatypes.length]. unfold pollCap.
      subst t. unfold tickTime, pollEvery, pollFor in Hord.
      destruct (stopFirst net); lia.
    + assumption.
    + apply Forall_app. split; [assumption |]. now repeat constructor.
    + rewrite Htmo. discriminate.
    + intros _ _. rewrite Htmo, length_app. cbn [Datatypes.length].
      rewrite Nat.add_1_r, Ht. f_equal. apply tickTime_next.
  - (* the stop timer fires *)
    pose proof (sch_timeout net l Hs t Hd) as Ht.
    constructor; cbn [handle stopPolling clearInterval advance startedAt
                      intervalDue timeoutDue inflight updatedAt now errors];
      try assumption.
    + intros _. now rewrite <- Ht.
    + intros Hu He. specialize (Hlive Hu He). rewrite Hd in Hlive.
      pose proof (stop_before_interval l t _ Hfirst Hlive) as Hord.
      subst t. unfold pollCap in *.
      unfold tickTime, pollEvery, pollFor in Hord.
      destruct (stopFirst net); lia.
  - (* a fetch settles *)
    cbn [handle]. set (l1 := forget p (advance (due p) l)).
    destruct (pollResume_frame (outcome p) l1) as [Fst [Fto _]].
    destruct (pollResume_effect (outcome p) l1) as [E | [[msg E] | [E1 E2]]].
    + rewrite E. constructor; assumption.
    + constructor.
      * now rewrite Fst.
      * rewrite E, length_app. change (errors l1) with (errors l).
        cbn [Datatypes.length]. lia.
      * now rewrite Fst.
      * now rewrite Fto.
      * intros _ He. exfalso. rewrite E in He.
        apply (f_equal (@List.length string)) in He.
        rewrite length_app in He. change (errors l1) with (errors l) in He.
        cbn [Datatypes.length] in He. lia.
    + constructor.
      * now rewrite Fst.
      * now rewrite E2.
      * now rewrite Fst.
      * now rewrite Fto.
      * intro Hu. rewrite E1 in Hu. now apply app_eq_nil in Hu as [_ Hu].
Qed.

(** *** Prompt responses: one poll at a time *)

Hypothesis net_prompt : prompt net.

Lemma Sequential_step (l : Loop) (t : N) (e : Event) :
  Sequential l ->
  earliest (arrange net l) = Some (t, e) ->
  Sequential (handle net t e l).
Proof.
  intros [Hone Hbefore Honce] Hnext.
  event_cases Hnext.
  - (* a poll starts: none is in flight *)
    assert (Hnil : inflight l = []).
    { destruct (inflight l) as [| q rest] eqn:E; [reflexivity | exfalso].
      assert (Hq : In q (inflight l)) by (rewrite E; now left).
      specialize (Hbefore q t (or_introl eq_refl) Hd).
      assert (t <= due q)%N; [| lia].
      apply (Hmin (due q) (FetchSettles q)), candidates_In.
      right. right. now exists q. }
    constructor; cbn [handle pollStart advance inflight intervalDue updatedAt now].
    + rewrite Hnil. cbn. lia.
    + rewrite Hnil. intros q d [<- | []] H. injection H as <-.
      cbn [due startedAt advance].
      pose proof (net_prompt (List.length (startedAt l))). lia.
    + destruct Honce as [H | [_ [H _]]]; [now left |].
      rewrite H in Hd. discriminate.
  - constructor; cbn [handle stopPolling clearInterval advance inflight
                      intervalDue updatedAt now]; try assumption.
    + discriminate.
    + destruct Honce as [H | [H1 [_ H3]]]; [now left | right; auto].
  - (* the one poll in flight resumes *)
    cbn [handle].
    set (l1 := forget p (advance (due p) l)).
    assert (Hnil : inflight l1 = []).
    { subst l1. cbn [forget advance inflight].
      destruct (inflight l) as [| q [| q' rest]];
        [destruct Hp | | cbn [Datatypes.length] in Hone; lia].
      destruct Hp as [-> | []]. cbn [filter].
      now rewrite Nat.eqb_refl. }
    assert (Hnone : updatedAt l = []).
    { destruct Honce as [H | [_ [_ H]]]; [assumption |].
      rewrite H in Hp. destruct Hp. }
    destruct (pollResume_frame (outcome p) l1)
      as [_ [_ [Ffl [_ [_ Fint]]]]].
    constructor.
    + rewrite Ffl, Hnil. cbn. lia.
    + rewrite Ffl, Hnil. intros q d [].
    + destruct (pollResume_cases (outcome p) l1)
        as [[_ U] | [_ [_ [_ [U I]]]]]; rewrite U;
        change (updatedAt l1) with (updatedAt l); rewrite Hnone.
      * now left.
      * right. rewrite Ffl. auto.
Qed.

Lemma Sequential_start (l : Loop) :
  inflight l = [] -> updatedAt l = [] -> Sequential l.
Proof.
  intros H1 H2. constructor.
  - rewrite H1. cbn. lia.
  - rewrite H1. intros p d [].
  - now left.
Qed.

(** The interval fires only when no callback is suspended. *)
Lemma interval_fires_alone (l : Loop) (t : N) :
  Sequential l ->
  earliest (arrange net l) = Some (t, IntervalFires) ->
  inflight l = [].
Proof.
  intros [_ Hbefore _] Hnext.
  apply next_event in Hnext. destruct Hnext as [Hin Hmin].
  apply candidates_In in Hin.
  destruct Hin as [[_ Hd] | [[H _] | [p [H _]]]]; try discriminate.
  destruct (inflight l) as [| q rest] eqn:E; [reflexivity | exfalso].
  specialize (Hbefore q t (or_introl eq_refl) Hd).
  assert (t <= due q)%N; [| lia].
  apply (Hmin (due q) (FetchSettles q)), candidates_In.
  right. right. exists q. rewrite E. split; [| split]; auto. now left.
Qed.

(** What a resumed callback does to the page, the toasts and the console
    depends on these and on the file of the loop only. *)
Lemma pollResume_congruence (o : FetchOutcome) (l l' : Loop) :
  page l = page l' -> toasts l = toasts l' -> errors l = errors l' ->
  fileId l = fileId l' ->
  page (pollResume o l) = page (pollResume o l')
  /\ toasts (pollResume o l) = toasts (pollResume o l')
  /\ errors (pollResume o l) = errors (pollResume o l').
Proof.
  intros Hp Ht He Hf. unfold pollResume.
  destruct o as [error | files].
  - cbn. rewrite Hp, Ht, He. repeat split.
  - rewrite Hf.
    destruct (find _ files) as [currentFile |]; [| auto].
    destruct (settled currentFile); [| auto].
    destruct (String.eqb (UploadedFile.status currentFile) "analyzed");
      destruct (isSome (UploadedFile.analysisResults currentFile));
      cbn; rewrite ?Hp, ?Ht, ?He, ?Hf; repeat split.
Qed.

Lemma pollResume_resolved_errors (files : list UploadedFile.t) (l : Loop) :
  errors (pollResume (Resolved files) l) = errors l.
Proof.
  unfold pollResume.
  destruct (find _ files) as [currentFile |]; [| reflexivity].
  destruct (settled currentFile); [| reflexivity].
  destruct (String.eqb (UploadedFile.status currentFile) "analyzed");
    destruct (isSome (UploadedFile.analysisResults currentFile));
    reflexivity.
Qed.

Lemma Course_step (K : nat) (l0 l : Loop) (t : N) (e : Event) :
  (K < pollCap net)%nat ->
  (forall j, (j < K)%nat -> pendingReply (fileId l0) (net j)) ->
  (exists files currentFile,
      result (net K) = Resolved files
      /\ find (fun f => String.eqb (UploadedFile.id f) (fileId l0)) files
         = Some currentFile
      /\ settled currentFile = true) ->
  Scheduled net l ->
  Sequential l ->
  Course net K l0 l ->
  earliest (arrange net l) = Some (t, e) ->
  Course net K l0 (handle net t e l).
Proof.
  intros HK Hbefore [files [currentFile [Hres [Hfind Hset]]]] Hs Hseq Hc Hnext.
  pose proof Hnext as Hfirst.
  destruct Hc as [Hu Hpg Ht He Hf Hn Hto Hint
                 | p0 Hu Hpg Ht He Hf Hn Hfl Hk
                 | Hu Hpg Ht He Hn Hfl Hint].
  - (* polls before poll K *)
    event_cases Hnext.
    + pose proof (interval_fires_alone l t Hseq Hfirst) as Hnil.
      rewrite Hint in Hd. injection Hd as <-.
      destruct (Nat.eq_dec (List.length (startedAt l)) K) as [HnK | HnK].
      * eapply Asking;
          cbn [handle pollStart advance startedAt intervalDue timeoutDue
               inflight updatedAt now errors page toasts fileId];
          try eassumption.
        -- rewrite length_app. cbn [Datatypes.length]. lia.
        -- rewrite Hnil. reflexivity.
        -- exact HnK.
      * apply Polling;
          cbn [handle pollStart advance startedAt intervalDue timeoutDue
               inflight updatedAt now errors page toasts fileId];
          try assumption.
        -- rewrite length_app. cbn [Datatypes.length]. lia.
        -- rewrite length_app. cbn [Datatypes.length].
           rewrite Nat.add_1_r. f_equal. apply tickTime_next.
    + exfalso.
      pose proof (stop_before_interval l t _ Hfirst Hint) as Hord.
      rewrite Hto in Hd. injection Hd as <-.
      unfold pollCap in HK. unfold tickTime, pollEvery, pollFor in Hord.
      destruct (stopFirst net); lia.
    + cbn [handle]. set (l1 := forget p (advance (due p) l)).
      pose proof (sch_inflight net l Hs) as Hall.
      rewrite Forall_forall in Hall. destruct (Hall p Hp) as [Hlt [_ Hout]].
      assert (Hsame : pollResume (outcome p) l1 = l1).
      { rewrite Hout.
        destruct (Hbefore (poll p)) as [files' [-> Hpend]]; [lia |].
        apply pollResume_pending.
        change (fileId l1) with (fileId l). now rewrite Hf. }
      rewrite Hsame. apply Polling; assumption.
  - (* poll K is in flight *)
    event_cases Hnext.
    + exfalso.
      assert (Hin0 : In p0 (inflight l)) by (rewrite Hfl; now left).
      pose proof (seq_before l Hseq p0 t Hin0 Hd) as Hlt.
      assert (t <= due p0)%N; [| lia].
      apply (Hmin (due p0) (FetchSettles p0)), candidates_In.
      right. right. now exists p0.
    + apply Asking with (p := p0); assumption.
    + rewrite Hfl in Hp. destruct Hp as [<- | []].
      pose proof (sch_inflight net l Hs) as Hall.
      rewrite Hfl in Hall. apply Forall_inv in Hall.
      destruct Hall as [_ [Hdue Hout]]. rewrite Hk in Hdue, Hout.
      cbn [handle]. set (l1 := forget p0 (advance (due p0) l)).
      assert (Hnil : inflight l1 = []).
      { subst l1. cbn [forget advance inflight]. rewrite Hfl. cbn [filter].
        now rewrite Nat.eqb_refl. }
      destruct (pollResume_frame (outcome p0) l1) as [Fst [_ [Ffl _]]].
      destruct (pollResume_congruence (outcome p0) l1 l0) as [Pp [Pt Pe]];
        try assumption.
      rewrite Hout, Hres in *.
      destruct (pollResume_settled files currentFile l1) as [_ [_ [Si Su]]];
        [change (fileId l1) with (fileId l); now rewrite Hf | assumption |].
      apply Answered.
      * rewrite Su. change (updatedAt l1) with (updatedAt l).
        rewrite Hu. cbn [app]. change (now l1) with (due p0).
        now rewrite Hdue.
      * rewrite Hres. exact Pp.
      * rewrite Hres. exact Pt.
      * rewrite pollResume_resolved_errors. exact He.
      * now rewrite Fst.
      * now rewrite Ffl.
      * exact Si.
  - (* the update is done *)
    event_cases Hnext.
    + rewrite Hint in Hd. discriminate.
    + apply Answered; try assumption. reflexivity.
    + rewrite Hfl in Hp. destruct Hp.
Qed.

End PollLoop.

(** ** AnomalyAnalysis: what the specification says of the poll loop *)

Section PollLoopClaims.
Import AnomalyAnalysis.

Lemma run_Sequential (net : Network) (fuel : nat) (limit : N) (l : Loop) :
  prompt net -> Sequential l -> Sequential (run net fuel limit l).
Proof.
  intro Hp. apply run_invariant. intros l' t e. now apply Sequential_step.
Qed.

Lemma run_Faithful (net : Network) (fuel : nat) (limit : N) (l : Loop) :
  updatedAt l = [] -> Faithful (page l) (run net fuel limit l).
Proof.
  intro H. apply run_invariant.
  - intros l' t e. apply Faithful_step.
  - now apply Faithful_start.
Qed.

Lemma started_nth (net : Network) (l : Loop) (k : nat) (t : N) :
  Scheduled net l ->
  nth_error (startedAt l) k = Some t ->
  t = (2000 * (N.of_nat k + 1))%N /\ (k < 30)%nat /\ (t <= 60000)%N.
Proof.
  intros Hs Hk.
  assert (Hlt : (k < List.length (startedAt l))%nat).
  { apply nth_error_Some. now rewrite Hk. }
  pose proof (sch_cap net l Hs) as Hcap.
  rewrite (sch_started net l Hs) in Hk.
  rewrite nth_error_map, nth_error_seq in Hk.
  apply Nat.ltb_lt in Hlt. rewrite Hlt in Hk. apply Nat.ltb_lt in Hlt.
  cbn [option_map Nat.add] in Hk. injection Hk as <-.
  unfold tickTime, pollEvery. lia.
Qed.

Lemma run_Armed (net : Network) (file : File.t) (uploadedFile : UploadedFile.t)
  (p : Page) (shown : list Toast.t) (errs : list string)
  (fuel : nat) (limit : N) :
  Armed net limit
        (uploadFile_settle file (PostOk uploadedFile) p shown errs)
        (run net fuel limit
             (uploadFile_settle file (PostOk uploadedFile) p shown errs)).
Proof.
  set (l0 := uploadFile_settle file (PostOk uploadedFile) p shown errs).
  assert (H : Scheduled net (run net fuel limit l0)
              /\ Armed net limit l0 (run net fuel limit l0)); [| apply H].
  apply (run_invariant_upto net
           (fun w => Scheduled net w /\ Armed net limit l0 w)).
  - intros w t e [Hs Harm] Hnext Hle. split.
    + now apply Scheduled_step.
    + now apply Armed_step.
  - split.
    + apply Scheduled_start.
    + apply Armed_start.
Qed.

Lemma run_Course (net : Network) (K : nat) (fuel : nat) (limit : N)
  (l0 : Loop) :
  prompt net ->
  (K < pollCap net)%nat ->
  (forall j, (j < K)%nat -> pendingReply (fileId l0) (net j)) ->
  (exists files currentFile,
      result (net K) = Resolved files
      /\ find (fun f => String.eqb (UploadedFile.id f) (fileId l0)) files
         = Some currentFile
      /\ settled currentFile = true) ->
  Scheduled net l0 -> Sequential l0 -> Course net K l0 l0 ->
  Course net K l0 (run net fuel limit l0).
Proof.
  intros Hprompt HK Hbefore Hat Hs Hseq Hc.
  assert (H : Scheduled net (run net fuel limit l0)
              /\ Sequential (run net fuel limit l0)
              /\ Course net K l0 (run net fuel limit l0)); [| apply H].
  apply (run_invariant net
           (fun w => Scheduled net w /\ Sequential w /\ Course net K l0 w)).
  - intros w t e [Hsw [Hseqw Hcw]] Hnext. split; [| split].
    + now apply Scheduled_step.
    + now apply Sequential_step.
    + now apply Course_step.
  - auto.
Qed.

(** The polls started up to [limit] are those of the ticks up to [limit]. *)
Lemma started_upto (net : Network) (limit : N) (l0 l : Loop) :
  Scheduled net l -> Armed net limit l0 l ->
  (2000 * N.of_nat (List.length (startedAt l)) <= limit)%N.
Proof.
  intros Hs Harm. pose proof (arm_past net limit l0 l Harm) as Hpast.
  rewrite (sch_started net l Hs) in Hpast.
  destruct (List.length (startedAt l)) as [| m]; [lia |].
  rewrite Forall_forall in Hpast.
  specialize (Hpast (tickTime m)).
  unfold tickTime, pollEvery in Hpast. apply Hpast.
  apply in_map_iff. exists m. split; [reflexivity |].
  apply in_seq. lia.
Qed.

(** C1 (as amended).  The loop started by uploadFile starts poll number k
    (from 1) at 2000 * k ms: at most 30 polls, none later than 60000 ms.
    It keeps polling: as long as no response has updated the page and no
    fetch has failed, all the ticks up to the present have started their
    poll and the interval is armed for the next one, up to the 60000 ms; by
    then 29 polls have started, or 30 if the browser runs the tick of
    60000 ms before the stop timer, the interval is cleared, and no poll
    starts any more.
    The loop touches uploadedFiles and selectedResult only when the response
    to one of these polls arrives, which is the start of the poll plus the
    time the fetch takes (so possibly after the 60000 ms); a response that
    shows the file in a status other than uploaded and processing replaces
    the matching records, sets selectedResult to the analysisResults of an
    analyzed record that has them, and clears the interval.  In a run in
    which every response arrives before the next tick and poll number K is
    the first to find the file in such a status, the polls 0 to K are
    started and no other, and the one update, made when the response to
    poll K arrives, is the replacement of the records of the file by the
    polled one. *)
Theorem poll_loop_capped_at_thirty_polls
  (net : Network) (file : File.t) (uploadedFile : UploadedFile.t)
  (p : Page) (shown : list Toast.t) (errs : list string)
  (fuel : nat) (limit : N) :
  let l0 := uploadFile_settle file (PostOk uploadedFile) p shown errs in
  let l := run net fuel limit l0 in
  (forall k t, nth_error (startedAt l) k = Some t ->
               t = (2000 * (N.of_nat k + 1))%N
               /\ (k < 30)%nat /\ (t <= 60000)%N)
  /\ ((enough <= fuel)%nat -> updatedAt l = [] -> errors l = errors l0 ->
      ((limit < 60000)%N ->
       N.of_nat (List.length (startedAt l)) = (limit / 2000)%N
       /\ intervalDue l = Some (2000 * (limit / 2000 + 1))%N)
      /\ ((60000 <= limit)%N ->
          List.length (startedAt l)
          = (if stopFirst net then 29 else 30)%nat))
  /\ ((enough <= fuel)%nat ->
      forall d, intervalDue l = Some d ->
                d = (2000 * (N.of_nat (List.length (startedAt l)) + 1))%N
                /\ (limit < d)%N)
  /\ ((60000 <= limit)%N -> (enough <= fuel)%nat ->
      intervalDue l = None
      /\ forall fuel' limit',
           intervalDue (run net fuel' limit' l) = None
           /\ startedAt (run net fuel' limit' l) = startedAt l)
  /\ (forall u, In u (updatedAt l) ->
                exists k, (k < List.length (startedAt l))%nat
                          /\ u = (2000 * (N.of_nat k + 1) + latency (net k))%N)
  /\ (updatedAt l = [] -> page l = page l0)
  /\ (forall (w : Loop) (files : list UploadedFile.t)
             (currentFile : UploadedFile.t),
        find (fun f => String.eqb (UploadedFile.id f) (fileId w)) files
        = Some currentFile ->
        UploadedFile.status currentFile <> "uploaded" ->
        UploadedFile.status currentFile <> "processing" ->
        uploadedFiles (page (pollResume (Resolved files) w))
        = replaceById (fileId w) currentFile (uploadedFiles (page w))
        /\ (forall i f,
              nth_error (uploadedFiles (page w)) i = Some f ->
              nth_error (uploadedFiles (page (pollResume (Resolved files) w)))
                        i
              = Some (if String.eqb (UploadedFile.id f) (fileId w)
                      then currentFile else f))
        /\ (forall r, UploadedFile.status currentFile = "analyzed" ->
                      UploadedFile.analysisResults currentFile = Some r ->
                      selectedResult (page (pollResume (Resolved files) w))
                      = Some r)
        /\ intervalDue (pollResume (Resolved files) w) = None)
  /\ (prompt net ->
      forall (K : nat) (files : list UploadedFile.t)
             (currentFile : UploadedFile.t),
        (K < (if stopFirst net then 29 else 30))%nat ->
        (forall j, (j < K)%nat ->
                   pendingReply (UploadedFile.id uploadedFile) (net j)) ->
        result (net K) = Resolved files ->
        find (fun f => String.eqb (UploadedFile.id f)
                                  (UploadedFile.id uploadedFile)) files
        = Some currentFile ->
        UploadedFile.status currentFile <> "uploaded" ->
        UploadedFile.status currentFile <> "processing" ->
        (enough <= fuel)%nat ->
        (2000 * (N.of_nat K + 1) + latency (net K) <= limit)%N ->
        List.length (startedAt l) = S K
        /\ updatedAt l = [(2000 * (N.of_nat K + 1) + latency (net K))%N]
        /\ intervalDue l = None
        /\ List.length (uploadedFiles (page l))
           = List.length (uploadedFiles (page l0))
        /\ (forall i f,
              nth_error (uploadedFiles (page l0)) i = Some f ->
              nth_error (uploadedFiles (page l)) i
              = Some (if String.eqb (UploadedFile.id f)
                                    (UploadedFile.id uploadedFile)
                      then currentFile else f))
        /\ selectedResult (page l)
           = (if String.eqb (UploadedFile.status currentFile) "analyzed"
              then match UploadedFile.analysisResults currentFile with
                   | Some r => Some r
                   | None => selectedResult (page l0)
                   end
              else selectedResult (page l0))).
Proof.
  intros l0 l.
  destruct (Scheduled_start net file uploadedFile p shown errs)
    as [Hs0 Hr0]. fold l0 in Hs0, Hr0.
  assert (Hs : Scheduled net l) by now apply run_Scheduled.
  assert (Hsettled : forall c : UploadedFile.t,
             UploadedFile.status c <> "uploaded" ->
             UploadedFile.status c <> "processing" -> settled c = true).
  { intros c Hu Hp. unfold settled.
    apply String.eqb_neq in Hu, Hp. now rewrite Hu, Hp. }
  split; [| split; [| split; [| split; [| split; [| split; [| split]]]]]].
  - intros k t. now apply started_nth with (net := net).
  - intros Hfuel Hnone Herrs.
    assert (Hq : quiet limit l) by (apply run_quiet; [assumption | lia]).
    pose proof (run_Armed net file uploadedFile p shown errs fuel limit)
      as Harm.
    fold l0 in Harm. fold l in Harm.
    pose proof (arm_live net limit l0 l Harm Hnone Herrs) as Hlive.
    split.
    + intro Hlt.
      destruct (timeoutDue l) as [d0 |] eqn:Hto.
      * pose proof (started_upto net limit l0 l Hs Harm) as Hpast.
        assert (Hnext : (limit < tickTime (List.length (startedAt l)))%N).
        { apply (Hq _ IntervalFires), candidates_In. auto. }
        unfold tickTime, pollEvery in Hnext.
        assert (Hdiv : N.of_nat (List.length (startedAt l))
                       = (limit / 2000)%N).
        { apply N.div_unique
            with (r := (limit - 2000 * N.of_nat (List.length (startedAt l)))%N);
            lia. }
        split; [exact Hdiv |].
        rewrite Hlive, <- Hdiv. unfold tickTime, pollEvery. f_equal. lia.
      * pose proof (arm_timeout net limit l0 l Harm Hto) as H.
        unfold pollFor in H. lia.
    + intro Hge.
      destruct (timeoutDue l) as [d0 |] eqn:Hto; [exfalso | exact Hlive].
      pose proof (sch_timeout net l Hs d0 Hto) as ->.
      assert (limit < pollFor)%N; [| unfold pollFor in *; lia].
      apply (Hq pollFor TimeoutFires), candidates_In. auto.
  - intros Hfuel d Hd.
    assert (Hq : quiet limit l) by (apply run_quiet; [assumption | lia]).
    destruct (sch_interval net l Hs d Hd) as [-> _]. split.
    + unfold tickTime, pollEvery. lia.
    + apply (Hq _ IntervalFires), candidates_In. auto.
  - intros Hlimit Hfuel.
    assert (Hq : quiet limit l) by (apply run_quiet; [assumption | lia]).
    assert (Hto : timeoutDue l = None).
    { destruct (timeoutDue l) as [d |] eqn:E; [exfalso | reflexivity].
      pose proof (sch_timeout net l Hs d E) as ->.
      assert (limit < pollFor)%N; [| unfold pollFor in *; lia].
      apply (Hq pollFor TimeoutFires), candidates_In. auto. }
    assert (Hint : intervalDue l = None).
    { destruct (intervalDue l) as [d |] eqn:E; [exfalso | reflexivity].
      destruct (sch_interval net l Hs d E) as [_ H].
      rewrite Hto in H. discriminate. }
    split; [exact Hint |]. intros fuel' limit'.
    apply (run_stopped net fuel' limit' l Hint).
  - intros u Hu. pose proof (sch_updated net l Hs) as H.
    rewrite Forall_forall in H. destruct (H u Hu) as [k [Hk ->]].
    exists k. split; [assumption |].
    unfold replyTime, tickTime, pollEvery. lia.
  - intro Hnone.
    assert (Hf : Faithful (page l0) l) by now apply run_Faithful.
    now apply (fth_before _ _ Hf).
  - intros w files currentFile Hfind Hu Hp.
    destruct (pollResume_settled files currentFile w Hfind (Hsettled _ Hu Hp))
      as [H1 [H2 [H3 _]]].
    split; [exact H1 |]. split; [| split; [| exact H3]].
    + intros i f Hi. rewrite H1. unfold replaceById.
      now rewrite nth_error_map, Hi.
    + intros r Ha Hr. rewrite H2, Ha, Hr. reflexivity.
  - intros Hprompt K files currentFile HK Hbefore Hres Hfind Hu Hp Hfuel
           Hreply.
    assert (Hq : quiet limit l) by (apply run_quiet; [assumption | lia]).
    assert (Hc : Course net K l0 l).
    { apply run_Course; try assumption.
      - exists files, currentFile. auto.
      - now apply Sequential_start.
      - apply Polling; try reflexivity. cbn. lia. }
    destruct (pollResume_settled files currentFile l0 Hfind (Hsettled _ Hu Hp))
      as [H1 [H2 _]].
    destruct Hc as [_ _ _ _ _ Hn _ Hint
                   | p0 _ _ _ _ _ Hn Hfl Hk
                   | Hupd Hpage _ _ Hn _ Hint].
    + exfalso.
      assert (limit < tickTime (List.length (startedAt l)))%N.
      { apply (Hq _ IntervalFires), candidates_In. auto. }
      unfold tickTime, pollEvery in H. nia.
    + exfalso.
      pose proof (sch_inflight net l Hs) as Hall. rewrite Hfl in Hall.
      apply Forall_inv in Hall. destruct Hall as [_ [Hdue _]].
      assert (limit < due p0)%N.
      { apply (Hq _ (FetchSettles p0)), candidates_In.
        right. right. exists p0. rewrite Hfl. split; [| split]; auto.
        now left. }
      rewrite Hdue, Hk in H. unfold replyTime, tickTime, pollEvery in H. lia.
    + rewrite Hres in Hpage.
      split; [exact Hn |]. split.
      { rewrite Hupd. unfold replyTime, tickTime, pollEvery.
        f_equal. lia. }
      split; [exact Hint |].
      rewrite Hpage, H1, H2. split; [| split].
      * unfold replaceById. apply length_map.
      * intros i f Hi. unfold replaceById.
        now rewrite nth_error_map, Hi.
      * destruct (String.eqb (UploadedFile.status currentFile) "analyzed");
          [| reflexivity].
        destruct (UploadedFile.analysisResults currentFile); reflexivity.
Qed.

(** C6.  A poll whose fetch of /api/uploads fails clears the interval at
    once and leaves uploadedFiles and selectedResult as they were; from
    then on the interval stays cleared and no further poll is started. *)
Theorem failed_poll_stops_without_retry
  (net : Network) (error : string) (l : Loop) (fuel : nat) (limit : N) :
  uploadedFiles (page (pollResume (Rejected error) l))
  = uploadedFiles (page l)
  /\ selectedResult (page (pollResume (Rejected error) l))
     = selectedResult (page l)
  /\ intervalDue (pollResume (Rejected error) l) = None
  /\ intervalDue (run net fuel limit (pollResume (Rejected error) l)) = None
  /\ startedAt (run net fuel limit (pollResume (Rejected error) l))
     = startedAt l.
Proof.
  repeat split;
    apply (run_stopped net fuel limit (pollResume (Rejected error) l));
    reflexivity.
Qed.

(** C10 (as amended).  A poll that finds the record of the file in status
    uploaded or processing changes nothing.  Until a poll finds it in
    another status the page is the one the upload left; whatever the polls
    write into uploadedFiles has a status other than these two; the first
    write clears the interval; and when every response arrives before the
    next poll starts, uploadedFiles is written at most once. *)
Theorem pending_poll_changes_nothing
  (net : Network) (file : File.t) (uploadedFile : UploadedFile.t)
  (p : Page) (shown : list Toast.t) (errs : list string)
  (fuel : nat) (limit : N) :
  let l0 := uploadFile_settle file (PostOk uploadedFile) p shown errs in
  let l := run net fuel limit l0 in
  (forall (w : Loop) (files : list UploadedFile.t)
          (currentFile : UploadedFile.t),
      find (fun f => String.eqb (UploadedFile.id f) (fileId w)) files
      = Some currentFile ->
      UploadedFile.status currentFile = "uploaded"
      \/ UploadedFile.status currentFile = "processing" ->
      pollResume (Resolved files) w = w)
  /\ (updatedAt l = [] -> page l = page l0)
  /\ (forall f, In f (uploadedFiles (page l)) ->
                In f (uploadedFiles (page l0))
                \/ (UploadedFile.status f <> "uploaded"
                    /\ UploadedFile.status f <> "processing"))
  /\ (updatedAt l <> [] -> intervalDue l = None)
  /\ (prompt net -> (List.length (updatedAt l) <= 1)%nat).
Proof.
  intros l0 l.
  assert (Hf : Faithful (page l0) l) by now apply run_Faithful.
  split; [| split; [| split; [| split]]].
  - intros w files currentFile Hfind Hst.
    apply pollResume_pending. rewrite Hfind. now apply settled_false.
  - apply (fth_before _ _ Hf).
  - intros f Hin. pose proof (fth_entries _ _ Hf) as H.
    rewrite Forall_forall in H. destruct (H f Hin) as [H' | H']; [now left |].
    right. unfold settled in H'. apply andb_true_iff in H'.
    destruct H' as [H1 H2].
    apply negb_true_iff, String.eqb_neq in H1, H2. auto.
  - apply (fth_cleared _ _ Hf).
  - intro Hp.
    assert (Hq : Sequential l).
    { apply run_Sequential; [assumption |]. now apply Sequential_start. }
    destruct (seq_once l Hq) as [H | [H _]]; rewrite H; cbn; lia.
Qed.

End PollLoopClaims.

(* ===================================================================== *)
(** * Instances                                                           *)
(* ===================================================================== *)

Section Instances.
Import AnomalyAnalysis.


Lemma metrics_update_replaces_state_witness :
  WebSocket.type Sample.metricsUpdate = "metrics_update"
  /\ RealtimeMetrics.onLastMessage (Some Sample.metricsUpdate)
                                   RealtimeMetrics.initialState
     = Js.Obj [("activeAnomalies", Js.Str "n/a")].
Proof.
  split; [reflexivity |].
  destruct (metrics_update_replaces_state Sample.metricsUpdate eq_refl)
    as [H _].
  exact (H RealtimeMetrics.initialState).
Defined.

Lemma unhandled_message_ignored_witness :
  WebSocket.type Sample.heartbeat <> "metrics_update"
  /\ WebSocket.type Sample.heartbeat <> "anomaly_detected"
  /\ RealtimeMetrics.onLastMessage (Some Sample.heartbeat)
                                   RealtimeMetrics.initialState
     = RealtimeMetrics.initialState
  /\ AnomalyList.onLastMessage (Some Sample.heartbeat) [Js.Null] = [Js.Null].
Proof.
  assert (H1 : WebSocket.type Sample.heartbeat <> "metrics_update")
    by discriminate.
  assert (H2 : WebSocket.type Sample.heartbeat <> "anomaly_detected")
    by discriminate.
  split; [exact H1 |]. split; [exact H2 |].
  exact (unhandled_message_ignored Sample.heartbeat
           RealtimeMetrics.initialState [Js.Null] H1 H2).
Defined.

Lemma snapshot_accuracy_zero_is_defaulted_witness :
  Js.truthy Sample.zeroAccuracy = true
  /\ Js.optGet (Js.get Sample.zeroAccuracy "performance") "accuracy"
     = Js.Num 0
  /\ Js.get (RealtimeMetrics.onInitialMetrics Sample.zeroAccuracy
                                              RealtimeMetrics.initialState)
            "modelAccuracy"
     = Js.Num 0.947
  /\ RealtimeMetrics.modelAccuracyText
       (RealtimeMetrics.onInitialMetrics Sample.zeroAccuracy
                                         RealtimeMetrics.initialState)
     = Some "94.7%".
Proof.
  split; [reflexivity |]. split; [reflexivity |].
  destruct (snapshot_accuracy_zero_is_defaulted
              Sample.zeroAccuracy RealtimeMetrics.initialState eq_refl)
    as [H _].
  apply H. right. exists 0. split; reflexivity.
Defined.


Lemma onDrop_rejects_or_uploads_witness :
  nth_error [Sample.png; Sample.hugeVideo; Sample.pdf] 1
  = Some Sample.hugeVideo
  /\ (50 * 1024 * 1024 < File.size Sample.hugeVideo)%N
  /\ ~ In (UploadFile Sample.hugeVideo)
          (onDrop [Sample.png; Sample.hugeVideo; Sample.pdf])
  /\ (File.size Sample.png <= 50 * 1024 * 1024)%N
  /\ In (File.type Sample.png) allowedTypes
  /\ nth_error (onDrop [Sample.png; Sample.hugeVideo; Sample.pdf]) 0
     = Some (UploadFile Sample.png).
Proof.
  assert (Hbig : (50 * 1024 * 1024 < File.size Sample.hugeVideo)%N)
    by (cbn; lia).
  assert (Hsmall : (File.size Sample.png <= 50 * 1024 * 1024)%N)
    by (cbn; lia).
  assert (Htype : In (File.type Sample.png) allowedTypes)
    by (cbn; auto).
  destruct (onDrop_rejects_or_uploads
              [Sample.png; Sample.hugeVideo; Sample.pdf] 1 Sample.hugeVideo
              eq_refl) as [Hrej _].
  destruct (onDrop_rejects_or_uploads
              [Sample.png; Sample.hugeVideo; Sample.pdf] 0 Sample.png
              eq_refl) as [_ [Hacc _]].
  split; [reflexivity |]. split; [exact Hbig |].
  split; [exact (proj1 (Hrej (or_introl Hbig))) |].
  split; [exact Hsmall |]. split; [exact Htype |].
  exact (Hacc Hsmall Htype).
Defined.

Lemma overlay_scaled_to_fixed_frame_witness :
  selectedResult Sample.clickedPage = Some Sample.intrusion
  /\ AnomalyResult.bounding_boxes Sample.intrusion = Some [Sample.person]
  /\ BoundingBox.bbox Sample.person = (64, 48, 320, 240)
  /\ selectedImageShown Sample.clickedPage = true
  /\ nth_error (overlays Sample.clickedPage) 0
     = Some {| left := 64 * (512 / 640);
               top := 48 * (256 / 480);
               width := (320 - 64) * (512 / 640);
               height := (240 - 48) * (256 / 480) |}.
Proof.
  repeat (split; [reflexivity |]).
  apply (overlay_scaled_to_fixed_frame
           Sample.clickedPage Sample.intrusion [Sample.person] 0
           Sample.person 64 48 320 240 eq_refl eq_refl eq_refl eq_refl).
  reflexivity.
Defined.

(** While the record stays in processing the loop runs its polls, one every
    2000 ms, and then nothing is left to run: 30 polls if the browser runs
    the tick of 60000 ms before the stop timer, 29 if it runs the stop
    timer first. *)
Example twenty_nine_polls_when_the_stop_timer_is_first :
  startedAt (runUntil Sample.driftingNetwork 100000 Sample.loop0)
  = map tickTime (seq 0 29)
  /\ nth_error
       (startedAt (runUntil Sample.driftingNetwork 100000 Sample.loop0))
       28 = Some 58000%N
  /\ candidates (runUntil Sample.driftingNetwork 100000 Sample.loop0)
     = []
  /\ page (runUntil Sample.driftingNetwork 100000 Sample.loop0)
     = page Sample.loop0.
Proof. vm_compute. repeat split. Qed.


Example thirty_polls_while_processing :
  startedAt (runUntil Sample.processingNetwork 100000 Sample.loop0)
  = map tickTime (seq 0 30)
  /\ nth_error
       (startedAt (runUntil Sample.processingNetwork 100000 Sample.loop0))
       29 = Some 60000%N
  /\ candidates (runUntil Sample.processingNetwork 100000 Sample.loop0)
     = []
  /\ page (runUntil Sample.processingNetwork 100000 Sample.loop0)
     = page Sample.loop0.
Proof. vm_compute. repeat split. Qed.

(** The third poll finds the analysis done: the record is replaced, the
    result selected, the interval cleared after three polls. *)
Example analysed_at_third_poll :
  startedAt (runUntil Sample.promptNetwork 100000 Sample.loop0)
  = [2000; 4000; 6000]%N
  /\ updatedAt (runUntil Sample.promptNetwork 100000 Sample.loop0)
     = [6300]%N
  /\ uploadedFiles (page (runUntil Sample.promptNetwork 100000 Sample.loop0))
     = [Sample.record "analyzed" (Some Sample.intrusion)]
  /\ selectedResult (page (runUntil Sample.promptNetwork 100000 Sample.loop0))
     = Some Sample.intrusion
  /\ map Toast.title
         (toasts (runUntil Sample.promptNetwork 100000 Sample.loop0))
     = ["File Uploaded"; "Analysis Complete"].
Proof. vm_compute. repeat split. Qed.

Lemma failed_poll_stops_without_retry_witness :
  startedAt (run Sample.flakyNetwork enough 100000 Sample.loop0)
  = [2000; 4000]%N
  /\ intervalDue
       (run Sample.flakyNetwork enough 100000
            (pollResume (Rejected "Failed to fetch") Sample.loop0)) = None
  /\ startedAt
       (run Sample.flakyNetwork enough 100000
            (pollResume (Rejected "Failed to fetch") Sample.loop0)) = [].
Proof.
  split; [vm_compute; reflexivity |].
  destruct (failed_poll_stops_without_retry
              Sample.flakyNetwork "Failed to fetch" Sample.loop0
              enough 100000) as [_ [_ [_ [H1 H2]]]].
  split; [exact H1 | exact H2].
Defined.

Lemma promptNetwork_prompt : prompt Sample.promptNetwork.
Proof.
  intro k. unfold Sample.promptNetwork, pollEvery. cbn [reply].
  destruct (Nat.ltb k 2); cbn; lia.
Defined.

Lemma poll_loop_capped_at_thirty_polls_witness :
  ((60000 <= 61000)%N
   /\ (enough <= enough)%nat
   /\ intervalDue (run Sample.lateNetwork enough 61000 Sample.loop0) = None
   /\ (forall k t,
         nth_error (startedAt (run Sample.lateNetwork enough 61000
                                   Sample.loop0)) k = Some t ->
         t = (2000 * (N.of_nat k + 1))%N /\ (k < 30)%nat /\ (t <= 60000)%N))
  /\ (updatedAt (run Sample.driftingNetwork enough 9000 Sample.loop0) = []
      /\ errors (run Sample.driftingNetwork enough 9000 Sample.loop0)
         = errors Sample.loop0
      /\ (9000 < 60000)%N
      /\ N.of_nat (List.length
                     (startedAt (run Sample.driftingNetwork enough 9000
                                     Sample.loop0))) = 4%N
      /\ intervalDue (run Sample.driftingNetwork enough 9000 Sample.loop0)
         = Some 10000%N)
  /\ (updatedAt (run Sample.driftingNetwork enough 61000 Sample.loop0) = []
      /\ List.length (startedAt (run Sample.driftingNetwork enough 61000
                                     Sample.loop0)) = 29%nat)
  /\ (prompt Sample.promptNetwork
      /\ (forall j, (j < 2)%nat ->
                    pendingReply "f1" (Sample.promptNetwork j))
      /\ (2000 * (N.of_nat 2 + 1) + latency (Sample.promptNetwork 2%nat)
          <= 61000)%N
      /\ startedAt (run Sample.promptNetwork enough 61000 Sample.loop0)
         = [2000; 4000; 6000]%N
      /\ updatedAt (run Sample.promptNetwork enough 61000 Sample.loop0)
         = [6300]%N
      /\ nth_error (uploadedFiles
                      (page (run Sample.promptNetwork enough 61000
                                 Sample.loop0))) 0
         = Some (Sample.record "analyzed" (Some Sample.intrusion))
      /\ selectedResult (page (run Sample.promptNetwork enough 61000
                                   Sample.loop0))
         = Some Sample.intrusion).
Proof.
  assert (H1 : (60000 <= 61000)%N) by lia.
  assert (H2 : (enough <= enough)%nat) by lia.
  assert (H3 : (9000 < 60000)%N) by lia.
  assert (Hpending : forall j, (j < 2)%nat ->
                               pendingReply "f1" (Sample.promptNetwork j)).
  { intros j Hj. exists [Sample.record "processing" None].
    destruct j as [| [| j]]; [split; reflexivity | split; reflexivity | lia]. }
  assert (Hreply : (2000 * (N.of_nat 2 + 1)
                    + latency (Sample.promptNetwork 2%nat) <= 61000)%N)
    by (cbn; lia).
  assert (Hu9 : updatedAt (run Sample.driftingNetwork enough 9000 Sample.loop0)
                = []) by (vm_compute; reflexivity).
  assert (He9 : errors (run Sample.driftingNetwork enough 9000 Sample.loop0)
                = errors Sample.loop0) by (vm_compute; reflexivity).
  assert (Hu61 : updatedAt (run Sample.driftingNetwork enough 61000
                                Sample.loop0) = [])
    by (vm_compute; reflexivity).
  assert (He61 : errors (run Sample.driftingNetwork enough 61000 Sample.loop0)
                 = errors Sample.loop0) by (vm_compute; reflexivity).
  split; [| split; [| split]].
  - destruct (poll_loop_capped_at_thirty_polls
                Sample.lateNetwork Sample.png (Sample.record "uploaded" None)
                (uploadFile_begin Sample.emptyPage) [] [] enough 61000)
      as [Hstart [_ [_ [Hstop _]]]].
    split; [exact H1 |]. split; [exact H2 |].
    split; [exact (proj1 (Hstop H1 H2)) | exact Hstart].
  - destruct (poll_loop_capped_at_thirty_polls
                Sample.driftingNetwork Sample.png
                (Sample.record "uploaded" None)
                (uploadFile_begin Sample.emptyPage) [] [] enough 9000)
      as [_ [Hlive _]].
    destruct (Hlive H2 Hu9 He9) as [Hbefore _].
    destruct (Hbefore H3) as [Hn Hint].
    split; [exact Hu9 |]. split; [exact He9 |]. split; [exact H3 |].
    split; [exact Hn | exact Hint].
  - destruct (poll_loop_capped_at_thirty_polls
                Sample.driftingNetwork Sample.png
                (Sample.record "uploaded" None)
                (uploadFile_begin Sample.emptyPage) [] [] enough 61000)
      as [_ [Hlive _]].
    destruct (Hlive H2 Hu61 He61) as [_ Hafter].
    split; [exact Hu61 | exact (Hafter H1)].
  - destruct (poll_loop_capped_at_thirty_polls
                Sample.promptNetwork Sample.png
                (Sample.record "uploaded" None)
                (uploadFile_begin Sample.emptyPage) [] [] enough 61000)
      as [_ [_ [_ [_ [_ [_ [_ Hfirst]]]]]]].
    assert (Hne1 : UploadedFile.status
                     (Sample.record "analyzed" (Some Sample.intrusion))
                   <> "uploaded") by discriminate.
    assert (Hne2 : UploadedFile.status
                     (Sample.record "analyzed" (Some Sample.intrusion))
                   <> "processing") by discriminate.
    assert (Hcap : (2 < (if stopFirst Sample.promptNetwork
                         then 29 else 30))%nat) by (cbn; lia).
    destruct (Hfirst promptNetwork_prompt 2%nat
                [Sample.record "analyzed" (Some Sample.intrusion)]
                (Sample.record "analyzed" (Some Sample.intrusion))
                Hcap Hpending eq_refl eq_refl Hne1 Hne2 H2 Hreply)
      as [Hn [Hupd [_ [_ [Hrows Hsel]]]]].
    split; [exact promptNetwork_prompt |]. split; [exact Hpending |].
    split; [exact Hreply |].
    split; [vm_compute; reflexivity |].
    split; [exact Hupd |].
    split; [exact (Hrows 0%nat (Sample.record "uploaded" None) eq_refl) |].
    exact Hsel.
Defined.

Lemma pending_poll_changes_nothing_witness :
  prompt Sample.promptNetwork
  /\ (List.length (updatedAt (run Sample.promptNetwork enough 61000
                                  Sample.loop0)) <= 1)%nat
  /\ pollResume (Resolved [Sample.record "processing" None]) Sample.loop0
     = Sample.loop0.
Proof.
  destruct (pending_poll_changes_nothing
              Sample.promptNetwork Sample.png (Sample.record "uploaded" None)
              (uploadFile_begin Sample.emptyPage) [] [] enough 61000)
    as [Hpending [_ [_ [_ Honce]]]].
  split; [exact promptNetwork_prompt |].
  split; [exact (Honce promptNetwork_prompt) |].
  apply (Hpending Sample.loop0 [Sample.record "processing" None]
                  (Sample.record "processing" None) eq_refl).
  right. reflexivity.
Defined.

(** C1, as the specification words it, fails: with [Sample.lateNetwork] the
    poll started at 58000 ms is answered at 60300 ms, after the stop timer
    has cleared the interval, and its callback still replaces the record and
    selects the result. *)
Lemma late_response_updates_after_stop :
  ~ noUpdateAfterStop Sample.lateNetwork Sample.loop0.
Proof.
  intro H. specialize (H 61000%N).
  assert (Hsel : selectedResult (page (runUntil Sample.lateNetwork 61000
                                                Sample.loop0))
                 = selectedResult (page (runUntil Sample.lateNetwork pollFor
                                                  Sample.loop0))).
  { rewrite H; [reflexivity | unfold pollFor; lia]. }
  vm_compute in Hsel. discriminate Hsel.
Qed.


(** C10, as the specification words it, fails: with [Sample.slowNetwork]
    two polls are in flight at once, and both write uploadedFiles, at
    4500 ms and at 5000 ms. *)
Lemma overlapping_polls_write_twice :
  ~ writtenOnce Sample.slowNetwork Sample.loop0.
Proof.
  intro H. specialize (H 5000%N). vm_compute in H. lia.
Qed.

End Instances.

(* ===================================================================== *)
(** * Further properties of the components                                *)
(* ===================================================================== *)

(** ** Strings *)

Lemma length_append (a b : string) :
  String.length (a ++ b) = (String.length a + String.length b)%nat.
Proof. induction a as [| c a IH]; cbn; [reflexivity | now rewrite IH]. Qed.

Lemma append_nonempty (a b : string) : b <> "" -> a ++ b <> "".
Proof.
  intros Hb H. apply (f_equal String.length) in H.
  rewrite length_append in H. destruct b; [now apply Hb | cbn in H; lia].
Qed.

Lemma lower_upper_char (c : ascii) :
  Js.lowerChar (Js.upperChar c) = Js.lowerChar c.
Proof. destruct c as [[] [] [] [] [] [] [] []]; reflexivity. Qed.

Lemma toLowerCase_toUpperCase (s : string) :
  Js.toLowerCase (Js.toUpperCase s) = Js.toLowerCase s.
Proof.
  induction s as [| c s IH]; cbn; [reflexivity |].
  fold (Js.toUpperCase s). fold (Js.toLowerCase (Js.toUpperCase s)).
  fold (Js.toLowerCase s). now rewrite IH, lower_upper_char.
Qed.

Lemma toExponential_nonempty (f : nat) (x : Q) : Js.toExponential f x <> "".
Proof.
  unfold Js.toExponential.
  destruct (if Qeq_bool (Qabs x) 0 then _ else _) as [m e].
  apply append_nonempty, append_nonempty. discriminate.
Qed.

(** ** RealtimeMetrics: what a snapshot does to the state *)

Section Snapshot.
Import RealtimeMetrics.

Lemma onInitialMetrics_field (initialMetrics prev : Js.value) (k : string) :
  Js.truthy initialMetrics = true ->
  Js.get (onInitialMetrics initialMetrics prev) k
  = if String.eqb k "flProgress" then
      if Js.truthy (Js.optGet (Js.get initialMetrics "fl") "currentRound")
      then Js.Num 85 else Js.Num 0
    else if String.eqb k "privacyBudget" then
      Js.or (Js.optGet (Js.get initialMetrics "security")
                       "privacyBudgetRemaining") (Js.Num 6.0)
    else if String.eqb k "activeAnomalies" then
      Js.or (Js.optGet (Js.get initialMetrics "security") "recentAnomalies")
            (Js.Num 0)
    else if String.eqb k "modelAccuracy" then
      Js.or (Js.optGet (Js.get initialMetrics "performance") "accuracy")
            (Js.Num 0.947)
    else if String.eqb k "onlineClients" then
      Js.or (Js.optGet (Js.get initialMetrics "devices") "online") (Js.Num 0)
    else if String.eqb k "totalClients" then
      Js.or (Js.optGet (Js.get initialMetrics "devices") "total") (Js.Num 0)
    else Js.lookup k (Js.spread prev).
Proof.
  intro Ht. unfold onInitialMetrics. rewrite Ht.
  unfold Js.objectWith. cbn [fold_left fst snd Js.get].
  repeat match goal with
         | |- context [if String.eqb k ?key then _ else _] =>
             let E := fresh "E" in
             destruct (String.eqb k key) eqn:E;
             [ apply String.eqb_eq in E; subst k;
               rewrite ?lookup_set_other by reflexivity;
               now rewrite lookup_set_same
             | rewrite (lookup_set_other k key) by exact E ]
         end.
  reflexivity.
Qed.

(** X1.  A snapshot overwrites all six displayed fields from the snapshot
    alone: whatever the state held before (the initial values, or a pushed
    update that arrived first) is lost for these fields, and every other
    field of the previous state is kept. *)
Theorem snapshot_overwrites_six_fields
  (initialMetrics prev prev' : Js.value) (k : string) :
  Js.truthy initialMetrics = true ->
  (In k snapshotFields ->
   Js.get (onInitialMetrics initialMetrics prev) k
   = Js.get (onInitialMetrics initialMetrics prev') k)
  /\ (~ In k snapshotFields ->
      Js.get (onInitialMetrics initialMetrics prev) k
      = Js.lookup k (Js.spread prev)).
Proof.
  intro Ht. split.
  - intro Hin. rewrite !onInitialMetrics_field by exact Ht.
    unfold snapshotFields in Hin. cbn [In] in Hin.
    destruct Hin as [<- | [<- | [<- | [<- | [<- | [<- | []]]]]]];
      reflexivity.
  - intro Hout. rewrite onInitialMetrics_field by exact Ht.
    unfold snapshotFields in Hout. cbn [In] in Hout.
    repeat match goal with
           | |- context [if String.eqb k ?key then _ else _] =>
               let E := fresh "E" in
               destruct (String.eqb k key) eqn:E;
               [ apply String.eqb_eq in E; exfalso; apply Hout; auto 10 | ]
           end.
    reflexivity.
Qed.

(** X2.  A snapshot that reports a remaining privacy budget of 0, or none,
    sets privacyBudget to 6.0, and the card reads 6.0: an exhausted budget
    is shown as a full one.  No snapshot sets privacyBudget to 0. *)
Theorem exhausted_budget_shown_as_full (initialMetrics prev : Js.value) :
  Js.truthy initialMetrics = true ->
  let remaining :=
    Js.optGet (Js.get initialMetrics "security") "privacyBudgetRemaining" in
  let metrics := onInitialMetrics initialMetrics prev in
  (remaining = Js.Undefined \/ (exists q, remaining = Js.Num q /\ q == 0) ->
   Js.get metrics "privacyBudget" = Js.Num 6.0
   /\ privacyBudgetText metrics = Some "6.0")
  /\ (forall q, Js.get metrics "privacyBudget" = Js.Num q -> ~ q == 0).
Proof.
  intros Ht remaining metrics.
  assert (Hget : Js.get metrics "privacyBudget"
                 = Js.or remaining (Js.Num 6.0)).
  { unfold metrics. now rewrite onInitialMetrics_field. }
  split.
  - intro Hrem.
    assert (Hdef : Js.get metrics "privacyBudget" = Js.Num 6.0).
    { rewrite Hget. destruct Hrem as [-> | [q [-> Hq]]]; unfold Js.or.
      - reflexivity.
      - cbn [Js.truthy]. apply Qeq_bool_iff in Hq. now rewrite Hq. }
    split; [exact Hdef |].
    unfold privacyBudgetText. rewrite Hdef. vm_compute. reflexivity.
  - intros q Hq Hzero.
    assert (Htruthy : Js.truthy (Js.get metrics "privacyBudget") = true).
    { rewrite Hget. apply or_truthy. reflexivity. }
    rewrite Hq in Htruthy. cbn [Js.truthy] in Htruthy.
    apply Qeq_bool_iff in Hzero. rewrite Hzero in Htruthy. discriminate.
Qed.

(** X3.  After a snapshot the round progress is 85 or 0 and nothing else:
    85 for every current round that is truthy, whatever its number, and 0
    when the round is missing or is round 0. *)
Theorem round_progress_is_85_or_0 (initialMetrics prev : Js.value) :
  Js.truthy initialMetrics = true ->
  let round := Js.optGet (Js.get initialMetrics "fl") "currentRound" in
  let metrics := onInitialMetrics initialMetrics prev in
  (Js.get metrics "flProgress" = Js.Num 85
   \/ Js.get metrics "flProgress" = Js.Num 0)
  /\ (forall q, round = Js.Num q -> ~ q == 0 ->
                Js.get metrics "flProgress" = Js.Num 85)
  /\ (round = Js.Undefined \/ (exists q, round = Js.Num q /\ q == 0) ->
      Js.get metrics "flProgress" = Js.Num 0).
Proof.
  intros Ht round metrics.
  assert (Hget : Js.get metrics "flProgress"
                 = if Js.truthy round then Js.Num 85 else Js.Num 0).
  { unfold metrics. now rewrite onInitialMetrics_field. }
  rewrite Hget. split; [| split].
  - destruct (Js.truthy round); auto.
  - intros q -> Hq. cbn [Js.truthy].
    destruct (Qeq_bool q 0) eqn:E; [| reflexivity].
    apply Qeq_bool_iff in E. contradiction.
  - intros [-> | [q [-> Hq]]]; cbn [Js.truthy]; [reflexivity |].
    apply Qeq_bool_iff in Hq. now rewrite Hq.
Qed.

End Snapshot.

(** ** PrivacyControls: the delta text *)

(** X4.  As soon as the fetched list has a first entry, the text after the
    delta sign is that entry's delta (the binary64 number it is parsed to)
    in exponential notation: the placeholder 1e-5 behind the [||] is never
    used for fetched data. *)
Theorem delta_text_is_first_delta
  (first : PrivacyControls.PrivacyMetrics)
  (rest : list PrivacyControls.PrivacyMetrics) :
  PrivacyControls.deltaText (PrivacyControls.render (Some (first :: rest)))
  = Js.toExponential 0 (Js.round64 (PrivacyControls.delta first)).
Proof.
  unfold PrivacyControls.render, PrivacyControls.latestMetrics.
  cbn [hd_error PrivacyControls.deltaText]. unfold Js.strOr.
  destruct (String.eqb
              (Js.toExponential 0 (Js.round64 (PrivacyControls.delta first)))
              "")
    eqn:E; [| reflexivity].
  apply String.eqb_eq in E. now apply toExponential_nonempty in E.
Qed.

(** ** AnomalyList: pushes, the fetched history, the card helpers *)

Section Feed.
Import WebSocket AnomalyList.

(** X5.  After any sequence of push messages the retained list is the
    payloads of the anomaly_detected messages, newest first, followed by
    the old list, cut to ten entries; messages of other types do not count,
    and nothing is de-duplicated.  Without such a message the list is left
    as it was, however long. *)
Theorem pushes_keep_newest_ten (ms : list Message) (prev : list Js.value) :
  afterMessages ms prev
  = match filter (fun m => String.eqb (type m) "anomaly_detected") ms with
    | [] => prev
    | pushed => firstn 10 (rev (map data pushed) ++ prev)%list
    end.
Proof.
  unfold afterMessages.
  induction ms as [| m ms IH] using rev_ind; [reflexivity |].
  rewrite fold_left_app, filter_app, IH. cbn [fold_left filter].
  unfold onLastMessage.
  destruct (String.eqb (type m) "anomaly_detected").
  - destruct (filter _ ms) as [| m0 pushed].
    + reflexivity.
    + cbn [app].
      change (m0 :: (pushed ++ [m]))%list with ((m0 :: pushed) ++ [m])%list.
      rewrite map_app, rev_app_distr. cbn [map rev app].
      rewrite (firstn_cons 9), firstn_firstn. reflexivity.
  - now rewrite app_nil_r.
Qed.

(** X6.  The fetched history is taken whole, however long, and replaces
    what pushes had put there; the cap of ten applies only from the next
    push on, which leaves the payload and the first nine fetched entries.
    A response that is not an array changes nothing. *)
Theorem fetched_history_is_not_capped
  (xs prev : list Js.value) (ms : list Message) (m : Message) :
  type m = "anomaly_detected" ->
  onInitialAnomalies (Js.Arr xs) (afterMessages ms prev) = xs
  /\ onLastMessage (Some m) (onInitialAnomalies (Js.Arr xs) prev)
     = data m :: firstn 9 xs
  /\ List.length (onLastMessage (Some m) (onInitialAnomalies (Js.Arr xs) prev))
     = S (Nat.min 9 (List.length xs))
  /\ (forall v, (forall ys, v <> Js.Arr ys) ->
                onInitialAnomalies v prev = prev).
Proof.
  intro Ht.
  assert (Hpush : onLastMessage (Some m) (onInitialAnomalies (Js.Arr xs) prev)
                  = data m :: firstn 9 xs).
  { unfold onLastMessage. rewrite Ht. reflexivity. }
  split; [reflexivity |]. split; [exact Hpush |]. split.
  - rewrite Hpush. cbn [Datatypes.length]. now rewrite length_firstn.
  - intros v Hv. destruct v as [| | | | | ys |]; try reflexivity.
    now destruct (Hv ys).
Qed.

(** X7.  The left border and the badge of a card always get the same colour
    family: red for critical and high, yellow for medium, green for low,
    slate for everything else; and for an ASCII severity the colours do not
    depend on its case. *)
Theorem severity_colours_agree (severity : string) :
  (exists family,
      In family ["red"; "yellow"; "green"; "slate"]
      /\ getSeverityBorderColor severity = "border-l-" ++ family ++ "-500"
      /\ getSeverityColor severity
         = "border-" ++ family ++ "-500 text-" ++ family ++ "-400 bg-"
           ++ family ++ "-500/20"
      /\ (family = "red" <->
          Js.toLowerCase severity = "critical"
          \/ Js.toLowerCase severity = "high")
      /\ (family = "yellow" <-> Js.toLowerCase severity = "medium")
      /\ (family = "green" <-> Js.toLowerCase severity = "low"))
  /\ (Js.isAscii severity = true ->
      getSeverityColor (Js.toUpperCase severity) = getSeverityColor severity
      /\ getSeverityBorderColor (Js.toUpperCase severity)
         = getSeverityBorderColor severity).
Proof.
  split.
  - unfold getSeverityBorderColor, getSeverityColor.
    destruct (String.eqb_spec (Js.toLowerCase severity) "critical") as [E1 | N1];
      [| destruct (String.eqb_spec (Js.toLowerCase severity) "high")
           as [E2 | N2];
         [| destruct (String.eqb_spec (Js.toLowerCase severity) "medium")
              as [E3 | N3];
            [| destruct (String.eqb_spec (Js.toLowerCase severity) "low")
                 as [E4 | N4]]]];
      cbn [orb].
    + exists "red". rewrite E1. repeat split; cbn; auto; try discriminate.
    + exists "red". rewrite E2. repeat split; cbn; auto; try discriminate.
    + exists "yellow". rewrite E3.
      repeat split; cbn; auto; try discriminate.
      intros [H | H]; discriminate.
    + exists "green". rewrite E4.
      repeat split; cbn; auto; try discriminate.
      intros [H | H]; discriminate.
    + exists "slate". repeat split; cbn; auto 6; try discriminate;
        try contradiction.
      intros [H | H]; contradiction.
  - intros _. unfold getSeverityBorderColor, getSeverityColor.
    now rewrite toLowerCase_toUpperCase.
Qed.

Lemma join_cons_char (c : ascii) (w : string) (ws : list string) :
  Js.join " " (String c w :: ws) = String c (Js.join " " (w :: ws)).
Proof. destruct ws; reflexivity. Qed.

Lemma split_cons (sep : ascii) (s : string) :
  exists w ws, Js.split sep s = w :: ws.
Proof.
  destruct s as [| c s]; cbn [Js.split]; [now eexists; eexists |].
  destruct (Ascii.eqb c sep); [now eexists; eexists |].
  destruct (Js.split sep s); now eexists; eexists.
Qed.

(** The pipeline split, capitalize, join is the one-pass [formatFrom]. *)
Lemma formatAnomalyType_formatFrom (s : string) :
  formatAnomalyType s = formatFrom true s
  /\ Js.join " " (match Js.split "_" s with
                  | w :: ws => w :: map capitalize ws
                  | [] => []
                  end) = formatFrom false s.
Proof.
  unfold formatAnomalyType.
  induction s as [| c s [IH1 IH2]]; [split; reflexivity |].
  cbn [Js.split formatFrom].
  destruct (Ascii.eqb c "_").
  - destruct (split_cons "_" s) as [w [ws E]].
    rewrite E in *. cbn [map] in *.
    assert (H : Js.join " " (EmptyString :: capitalize w :: map capitalize ws)
                = String " " (Js.join " " (capitalize w :: map capitalize ws)))
      by reflexivity.
    change (capitalize EmptyString) with EmptyString.
    split; rewrite H, IH1; reflexivity.
  - destruct (split_cons "_" s) as [w [ws E]].
    rewrite E in *. cbn [map capitalize] in *.
    rewrite !join_cons_char, IH2. split; reflexivity.
Qed.

Lemma upperChar_keeps_marks (c : ascii) :
  Ascii.eqb (Js.upperChar c) "_" = Ascii.eqb c "_"
  /\ Ascii.eqb (Js.upperChar c) " " = Ascii.eqb c " ".
Proof. destruct c as [[] [] [] [] [] [] [] []]; split; reflexivity. Qed.

Lemma formatFrom_counts (start : bool) (s : string) :
  String.length (formatFrom start s) = String.length s
  /\ Js.count "_" (formatFrom start s) = 0%nat
  /\ Js.count " " (formatFrom start s)
     = (Js.count " " s + Js.count "_" s)%nat.
Proof.
  revert start. induction s as [| c s IH]; intro start;
    [repeat split |].
  cbn [formatFrom].
  destruct (Ascii.eqb c "_") eqn:E.
  - destruct (IH true) as [H1 [H2 H3]].
    apply Ascii.eqb_eq in E. subst c.
    cbn [String.length Js.count]. rewrite H1, H2, H3. cbn. repeat split. lia.
  - destruct (IH false) as [H1 [H2 H3]].
    cbn [String.length Js.count]. rewrite H1, H2, H3, E.
    destruct (upperChar_keeps_marks c) as [U1 U2].
    destruct start; rewrite ?U1, ?U2, ?E; repeat split; lia.
Qed.

(** X8.  For an ASCII type name, the displayed name has the length of the
    name, contains no underscore, and has a space for every underscore of
    the name (and for every space the name had). *)
Theorem formatAnomalyType_swaps_underscores (type : string) :
  Js.isAscii type = true ->
  String.length (formatAnomalyType type) = String.length type
  /\ Js.count "_" (formatAnomalyType type) = 0%nat
  /\ Js.count " " (formatAnomalyType type)
     = (Js.count " " type + Js.count "_" type)%nat.
Proof.
  intros _. destruct (formatAnomalyType_formatFrom type) as [-> _].
  apply formatFrom_counts.
Qed.

End Feed.

(** ** AnomalyAnalysis: uploads, rows, selection *)

(** Case analysis on the event that is run, as in the proofs above. *)
Ltac next_cases Hnext :=
  apply next_event in Hnext; destruct Hnext as [Hin Hmin];
  apply candidates_In in Hin;
  destruct Hin as [[-> Hd] | [[-> Hd] | [p [-> [Hp ->]]]]].

Section Rows.
Import AnomalyAnalysis.

(** X9.  An upload that fails (the POST throws or is answered with a status
    that is not ok) leaves the file list and the selection as they were,
    shows exactly one more toast, the destructive Upload Failed, ends with
    isUploading false, and starts no poll loop: no timer is registered and
    nothing ever runs for it. *)
Theorem failed_upload_starts_no_loop
  (file : File.t) (o : UploadOutcome) (p : Page)
  (shown : list Toast.t) (errs : list string) :
  (forall uploadedFile, o <> PostOk uploadedFile) ->
  let l := uploadFile_settle file o p shown errs in
  uploadedFiles (page l) = uploadedFiles p
  /\ selectedResult (page l) = selectedResult p
  /\ selectedFileId (page l) = selectedFileId p
  /\ isUploading (page l) = false
  /\ (exists t, toasts l = (shown ++ [t])%list
                /\ Toast.title t = "Upload Failed"
                /\ Toast.variant t = Some "destructive")
  /\ candidates l = []
  /\ (forall net fuel limit, run net fuel limit l = l).
Proof.
  intros Ho l. subst l.
  destruct o as [[m |] | | u]; [| | | now destruct (Ho u)];
    (split; [reflexivity |]; split; [reflexivity |];
     split; [reflexivity |]; split; [reflexivity |];
     split; [eexists; repeat split |];
     split; [reflexivity |];
     intros net fuel limit; destruct fuel; [reflexivity |];
     cbn [run]; rewrite arrange_nil; reflexivity).
Qed.

Lemma replaceById_ids (id : string) (currentFile : UploadedFile.t)
  (prev : list UploadedFile.t) :
  UploadedFile.id currentFile = id ->
  map UploadedFile.id (replaceById id currentFile prev)
  = map UploadedFile.id prev.
Proof.
  intro H. unfold replaceById. rewrite map_map. apply map_ext. intro f.
  destruct (String.eqb_spec (UploadedFile.id f) id) as [E | _];
    [now rewrite H, E | reflexivity].
Qed.

Lemma replaceById_other (id : string) (currentFile : UploadedFile.t)
  (prev : list UploadedFile.t) (i : nat) (f : UploadedFile.t) :
  nth_error prev i = Some f ->
  UploadedFile.id f <> id ->
  nth_error (replaceById id currentFile prev) i = Some f.
Proof.
  intros Hi Hf. unfold replaceById. rewrite nth_error_map, Hi.
  cbn [option_map]. apply String.eqb_neq in Hf. now rewrite Hf.
Qed.

(** What a resumed callback does to the page. *)
Lemma pollResume_page (o : FetchOutcome) (l : Loop) :
  selectedFileId (page (pollResume o l)) = selectedFileId (page l)
  /\ isUploading (page (pollResume o l)) = isUploading (page l)
  /\ (uploadedFiles (page (pollResume o l)) = uploadedFiles (page l)
      \/ exists currentFile,
           UploadedFile.id currentFile = fileId l
           /\ uploadedFiles (page (pollResume o l))
              = replaceById (fileId l) currentFile (uploadedFiles (page l))).
Proof.
  unfold pollResume. destruct o as [error | files]; [repeat split; now left |].
  destruct (find _ files) as [currentFile |] eqn:Hfind;
    [| repeat split; now left].
  apply find_some in Hfind. destruct Hfind as [_ Hid].
  apply String.eqb_eq in Hid.
  destruct (settled currentFile); [| repeat split; now left].
  destruct (String.eqb (UploadedFile.status currentFile) "analyzed");
    destruct (isSome (UploadedFile.analysisResults currentFile));
    repeat split; right; now exists currentFile.
Qed.

Lemma Framed_step (net : Network) (l0 l : Loop) (t : N) (e : Event) :
  Framed l0 l ->
  earliest (arrange net l) = Some (t, e) ->
  Framed l0 (handle net t e l).
Proof.
  intros [Hfile Hsel Hup Hids Hothers] Hnext.
  next_cases Hnext.
  - constructor; assumption.
  - constructor; assumption.
  - cbn [handle]. set (l1 := forget p (advance (due p) l)).
    destruct (pollResume_frame (outcome p) l1) as [_ [_ [_ [Ff _]]]].
    destruct (pollResume_page (outcome p) l1)
      as [Fs [Fu [Fsame | [currentFile [Hid Frep]]]]].
    + constructor; rewrite ?Ff, ?Fs, ?Fu, ?Fsame; assumption.
    + change (fileId l1) with (fileId l) in *.
      change (uploadedFiles (page l1)) with (uploadedFiles (page l)) in *.
      constructor; rewrite ?Ff, ?Fs, ?Fu, ?Frep; try assumption.
      * now rewrite replaceById_ids.
      * intros i f Hi Hf. apply replaceById_other; [now apply Hothers |].
        now rewrite Hfile.
Qed.

Lemma run_Framed (net : Network) (fuel : nat) (limit : N) (l : Loop) :
  Framed l (run net fuel limit l).
Proof.
  apply run_invariant.
  - intros l' t e. apply Framed_step.
  - constructor; auto.
Qed.

Lemma overlays_unselected (p : Page) :
  selectedFileId p = None -> overlays p = [].
Proof.
  intro H. unfold overlays, selectedImageShown. rewrite H.
  destruct (selectedResult p) as [r |]; [| reflexivity].
  destruct (AnomalyResult.bounding_boxes r) as [boxes |]; [| reflexivity].
  now destruct (0 <? List.length boxes)%nat.
Qed.

(** X10.  However a poll loop runs, from whatever state, it never adds,
    removes or reorders a row of the file list, never touches the row of
    another upload, and never changes selectedFileId or isUploading.  So as
    long as no row has been clicked no overlay is drawn, even when a poll
    has selected a result that has bounding boxes. *)
Theorem run_keeps_rows_and_selection
  (net : Network) (fuel : nat) (limit : N) (l : Loop) :
  map UploadedFile.id (uploadedFiles (page (run net fuel limit l)))
  = map UploadedFile.id (uploadedFiles (page l))
  /\ (forall i f, nth_error (uploadedFiles (page l)) i = Some f ->
                  UploadedFile.id f <> fileId l ->
                  nth_error (uploadedFiles (page (run net fuel limit l))) i
                  = Some f)
  /\ selectedFileId (page (run net fuel limit l)) = selectedFileId (page l)
  /\ isUploading (page (run net fuel limit l)) = isUploading (page l)
  /\ (selectedFileId (page l) = None ->
      overlays (page (run net fuel limit l)) = []).
Proof.
  destruct (run_Framed net fuel limit l) as [_ Hsel Hup Hids Hothers].
  repeat split; try assumption.
  intro Hnone. apply overlays_unselected. now rewrite Hsel.
Qed.

(** X11.  Clicking a row whose record has analysis results selects these
    results and this file; when the record is the first of the list with
    its id and has an image URL, every bounding box of the results then
    gets its overlay.  Clicking a row without results changes nothing. *)
Theorem click_selects_and_shows_boxes
  (p : Page) (file : UploadedFile.t) :
  (forall r boxes url,
      UploadedFile.analysisResults file = Some r ->
      selectedResult (onClickFile file p) = Some r
      /\ selectedFileId (onClickFile file p) = Some (UploadedFile.id file)
      /\ (find (fun f => String.eqb (UploadedFile.id f) (UploadedFile.id file))
               (uploadedFiles p) = Some file ->
          UploadedFile.imageUrl file = Some url -> url <> "" ->
          AnomalyResult.bounding_boxes r = Some boxes ->
          overlays (onClickFile file p) = map overlayStyle boxes))
  /\ (UploadedFile.analysisResults file = None -> onClickFile file p = p).
Proof.
  split.
  - intros r boxes url Hr. unfold onClickFile. rewrite Hr.
    repeat split. intros Hfind Hurl Hne Hb.
    unfold overlays, selectedImageShown.
    cbn [selectedResult selectedFileId uploadedFiles].
    rewrite Hb, Hfind, Hurl. apply String.eqb_neq in Hne. rewrite Hne.
    cbn [negb]. now destruct boxes.
  - intro Hr. unfold onClickFile. now rewrite Hr.
Qed.

(** X12.  A row shows the clock icon exactly for the statuses on which the
    poll loop goes on polling; analyzed gets the check mark, error the
    warning triangle, and any other status, which the loop also takes for
    final, the upload icon. *)
Theorem clock_icon_iff_still_polling (f : UploadedFile.t) :
  (fst (getStatusIcon (UploadedFile.status f)) = Clock <-> settled f = false)
  /\ (UploadedFile.status f = "analyzed" ->
      fst (getStatusIcon (UploadedFile.status f)) = CheckCircle)
  /\ (UploadedFile.status f = "error" ->
      fst (getStatusIcon (UploadedFile.status f)) = AlertTriangle)
  /\ (settled f = true ->
      UploadedFile.status f <> "analyzed" ->
      UploadedFile.status f <> "error" ->
      fst (getStatusIcon (UploadedFile.status f)) = Upload).
Proof.
  unfold getStatusIcon, settled.
  destruct (String.eqb_spec (UploadedFile.status f) "uploaded") as [E1 | N1];
    [rewrite E1; cbn; repeat split; intros; congruence || discriminate |].
  destruct (String.eqb_spec (UploadedFile.status f) "processing")
    as [E2 | N2];
    [rewrite E2; cbn; repeat split; intros; congruence || discriminate |].
  cbn [orb negb andb].
  destruct (String.eqb_spec (UploadedFile.status f) "analyzed") as [E3 | N3];
    [rewrite E3; cbn; repeat split; intros; congruence || discriminate |].
  destruct (String.eqb_spec (UploadedFile.status f) "error") as [E4 | N4];
    cbn [fst]; repeat split; intros; congruence || discriminate.
Qed.

Lemma count_append (c : ascii) (a b : string) :
  Js.count c (a ++ b) = (Js.count c a + Js.count c b)%nat.
Proof.
  induction a as [| c' a IH]; cbn [append Js.count]; [reflexivity |].
  rewrite IH. lia.
Qed.

Lemma replaceFirst_count (s : string) :
  String.length (Js.replaceFirst "_" " " s) = String.length s
  /\ Js.count "_" (Js.replaceFirst "_" " " s) = Nat.pred (Js.count "_" s).
Proof.
  induction s as [| c s [IH1 IH2]]; [split; reflexivity |].
  cbn [Js.replaceFirst Js.count].
  destruct (Ascii.eqb c "_") eqn:E.
  - split; reflexivity.
  - cbn [String.length Js.count]. rewrite E, IH1, IH2. split; reflexivity.
Qed.

Lemma replaceFirst_none (s : string) :
  Js.count "_" s = 0%nat -> Js.replaceFirst "_" " " s = s.
Proof.
  induction s as [| c s IH]; [reflexivity |].
  cbn [Js.replaceFirst Js.count].
  destruct (Ascii.eqb c "_"); [discriminate |].
  intro H. now rewrite IH.
Qed.

Lemma replaceFirst_at (before after : string) :
  Js.count "_" before = 0%nat ->
  Js.replaceFirst "_" " " (before ++ "_" ++ after) = before ++ " " ++ after.
Proof.
  induction before as [| c before IH]; [reflexivity |].
  change (String c before ++ "_" ++ after)
    with (String c (before ++ "_" ++ after)).
  change (String c before ++ " " ++ after)
    with (String c (before ++ " " ++ after)).
  cbn [Js.replaceFirst Js.count].
  destruct (Ascii.eqb c "_"); [discriminate |].
  intro H. now rewrite IH.
Qed.

(** X13.  The badge of a row replaces the first underscore of the anomaly
    type by a space and nothing else: the text before it and the text after
    it, further underscores included, are shown as they are, followed by a
    space and the qualifier; a type without underscore is shown as it is.
    So a type with n underscores is shown with n - 1 of them, at unchanged
    length (unlike in the anomaly feed, where none is left). *)
Theorem badge_replaces_first_underscore_only (r : AnomalyResult.t) :
  let qualifier :=
    if String.eqb (AnomalyResult.severity r) "uncertain"
    then "(uncertain)" else "detected" in
  (forall before after,
      AnomalyResult.anomalyType r = before ++ "_" ++ after ->
      Js.count "_" before = 0%nat ->
      badgeText r = before ++ " " ++ after ++ " " ++ qualifier)
  /\ (Js.count "_" (AnomalyResult.anomalyType r) = 0%nat ->
      badgeText r = AnomalyResult.anomalyType r ++ " " ++ qualifier)
  /\ Js.count "_" (badgeText r)
     = Nat.pred (Js.count "_" (AnomalyResult.anomalyType r))
  /\ String.length (Js.replaceFirst "_" " " (AnomalyResult.anomalyType r))
     = String.length (AnomalyResult.anomalyType r).
Proof.
  intro qualifier.
  destruct (replaceFirst_count (AnomalyResult.anomalyType r)) as [H1 H2].
  split; [| split; [| split; [| exact H1]]].
  - intros before after Htype Hnone. unfold badgeText. fold qualifier.
    rewrite Htype, replaceFirst_at by assumption.
    now rewrite !append_assoc.
  - intro Hnone. unfold badgeText. fold qualifier.
    now rewrite replaceFirst_none.
  - unfold badgeText. rewrite !count_append, H2. subst qualifier.
    destruct (String.eqb (AnomalyResult.severity r) "uncertain"); cbn; lia.
Qed.

End Rows.

(** ** AnomalyAnalysis: how a poll loop ends *)

Section LoopEnds.
Import AnomalyAnalysis.

Variable net : Network.

(** Once nothing is due up to a limit of 60000 ms or more, both timers are
    gone. *)
Lemma quiet_timers (limit : N) (l : Loop) :
  Scheduled net l -> quiet limit l -> (pollFor <= limit)%N ->
  timeoutDue l = None /\ intervalDue l = None.
Proof.
  intros Hs Hq Hlimit.
  assert (Hto : timeoutDue l = None).
  { destruct (timeoutDue l) as [d |] eqn:E; [exfalso | reflexivity].
    pose proof (sch_timeout net l Hs d E) as ->.
    assert (limit < pollFor)%N; [| lia].
    apply (Hq pollFor TimeoutFires), candidates_In. auto. }
  split; [exact Hto |].
  destruct (intervalDue l) as [d |] eqn:E; [exfalso | reflexivity].
  destruct (sch_interval net l Hs d E) as [_ H].
  rewrite Hto in H. discriminate.
Qed.

(** X14.  Every poll loop ends: when each response takes at most L ms, then
    at 60000 + L ms neither a timer nor a suspended callback of the loop is
    left. *)
Theorem poll_loop_always_ends
  (file : File.t) (uploadedFile : UploadedFile.t) (p : Page)
  (shown : list Toast.t) (errs : list string) (L : N) :
  (forall k, (k < 30)%nat -> (latency (net k) <= L)%N) ->
  let l0 := uploadFile_settle file (PostOk uploadedFile) p shown errs in
  candidates (runUntil net (60000 + L) l0) = []
  /\ intervalDue (runUntil net (60000 + L) l0) = None
  /\ timeoutDue (runUntil net (60000 + L) l0) = None
  /\ inflight (runUntil net (60000 + L) l0) = [].
Proof.
  intros HL l0. unfold runUntil.
  set (l := run net enough (60000 + L) l0).
  destruct (Scheduled_start net file uploadedFile p shown errs)
    as [Hs0 Hr0]. fold l0 in Hs0, Hr0.
  assert (Hs : Scheduled net l) by now apply run_Scheduled.
  assert (Hq : quiet (60000 + L) l) by (apply run_quiet; [assumption | lia]).
  destruct (quiet_timers (60000 + L) l Hs Hq) as [Hto Hint];
    [unfold pollFor; lia |].
  assert (Hfl : inflight l = []).
  { destruct (inflight l) as [| q rest] eqn:E; [reflexivity | exfalso].
    pose proof (sch_inflight net l Hs) as Hall. rewrite E in Hall.
    apply Forall_inv in Hall. destruct Hall as [Hk [Hdue _]].
    pose proof (sch_cap net l Hs) as Hcap.
    assert (60000 + L < due q)%N.
    { apply (Hq (due q) (FetchSettles q)), candidates_In.
      right. right. exists q. rewrite E. split; [| split]; auto.
      now left. }
    specialize (HL (poll q)).
    rewrite Hdue in H. unfold replyTime, tickTime, pollEvery in H. lia. }
  repeat split; try assumption.
  unfold candidates. now rewrite Hto, Hint, Hfl.
Qed.

Lemma Silent_step (l0 l : Loop) (t : N) (e : Event) :
  stuck (fileId l0) net ->
  Silent net l0 l ->
  earliest (arrange net l) = Some (t, e) ->
  Silent net l0 (handle net t e l).
Proof.
  intros Hstuck [Hpage Htoasts Herrors Hfile Hupd Hout] Hnext.
  next_cases Hnext.
  - (* a poll starts *)
    constructor; cbn [handle pollStart advance page toasts errors fileId
                      updatedAt inflight];
      try assumption.
    apply Forall_app. split; [assumption |]. now repeat constructor.
  - (* the stop timer fires *)
    constructor; assumption.
  - (* a pending response *)
    cbn [handle]. set (l1 := forget p (advance (due p) l)).
    assert (Hsame : pollResume (outcome p) l1 = l1).
    { rewrite Forall_forall in Hout. rewrite (Hout p Hp).
      destruct (Hstuck (poll p)) as [files [-> Hfind]].
      apply pollResume_pending.
      change (fileId l1) with (fileId l). now rewrite Hfile. }
    rewrite Hsame.
    constructor; cbn [forget advance page toasts errors fileId updatedAt
                      inflight];
      try assumption.
    apply Forall_forall. intros q Hq. rewrite Forall_forall in Hout.
    apply Hout. now apply filter_In in Hq.
Qed.

(** X15.  A file that every response reports as uploaded or processing, or
    does not list at all, is polled at 2000, 4000, ..., 58000 ms, and once
    more at 60000 ms if the browser runs that tick before the stop timer
    (29 or 30 polls); then the loop stops, and it leaves the page, the
    toasts and the console exactly as the upload left them: no error, no
    message, no change of status. *)
Theorem stuck_file_is_given_up_silently
  (file : File.t) (uploadedFile : UploadedFile.t) (p : Page)
  (shown : list Toast.t) (errs : list string) (fuel : nat) (limit : N) :
  stuck (UploadedFile.id uploadedFile) net ->
  (60000 <= limit)%N ->
  (enough <= fuel)%nat ->
  let l0 := uploadFile_settle file (PostOk uploadedFile) p shown errs in
  let l := run net fuel limit l0 in
  startedAt l
  = map (fun k => (2000 * N.of_nat (S k))%N)
        (seq 0 (if stopFirst net then 29 else 30))
  /\ page l = page l0
  /\ toasts l = toasts l0
  /\ errors l = errors l0
  /\ intervalDue l = None.
Proof.
  intros Hstuck Hlimit Hfuel l0 l.
  destruct (Scheduled_start net file uploadedFile p shown errs)
    as [Hs0 Hr0]. fold l0 in Hs0, Hr0.
  assert (Hinv : Scheduled net l /\ Silent net l0 l /\ Armed net limit l0 l).
  { apply (run_invariant_upto net
             (fun w => Scheduled net w /\ Silent net l0 w
                       /\ Armed net limit l0 w)).
    - intros w t e [Hs [Hsil Harm]] Hnext Hle. split; [| split].
      + now apply Scheduled_step.
      + now apply Silent_step.
      + now apply Armed_step.
    - split; [assumption |]. split.
      + constructor; try reflexivity. constructor.
      + apply Armed_start. }
  destruct Hinv as [Hs [Hsil Harm]].
  assert (Hq : quiet limit l) by (apply run_quiet; [assumption | lia]).
  destruct (quiet_timers limit l Hs Hq) as [Hto Hint];
    [unfold pollFor; lia |].
  pose proof (arm_live net limit l0 l Harm
                (sil_updated net l0 l Hsil) (sil_errors net l0 l Hsil)) as Hn.
  rewrite Hto in Hn.
  split.
  { rewrite (sch_started net l Hs), Hn. reflexivity. }
  split; [apply (sil_page net l0 l Hsil) |].
  split; [apply (sil_toasts net l0 l Hsil) |].
  split; [apply (sil_errors net l0 l Hsil) | exact Hint].
Qed.

End LoopEnds.

(** ** AnomalyAnalysis: the downloaded image *)

Section DownloadedImage.
Import AnomalyAnalysis.

Lemma positive_nonzero (x : Q) : 0 < x -> ~ x == 0.
Proof. intros H E. apply (Qlt_not_eq _ _ H). now symmetry. Qed.

Lemma rescaled_iff (x W c s : Q) :
  0 < W -> 0 < c -> 0 < s -> ~ x == 0 ->
  (x * (c / s) / c == x / W <-> W == s).
Proof.
  intros HW Hc Hs Hx.
  pose proof (positive_nonzero _ HW) as HW'.
  pose proof (positive_nonzero _ Hs) as Hs'.
  pose proof (positive_nonzero _ Hc) as Hc'.
  split.
  - intro H.
    assert (E : x * W == x * s).
    { assert (E1 : x * (c / s) / c * (W * s) == x / W * (W * s))
        by (rewrite H; reflexivity).
      assert (E2 : x * (c / s) / c * (W * s) == x * W) by (field; auto).
      assert (E3 : x / W * (W * s) == x * s) by (field; auto).
      rewrite <- E2, <- E3. exact E1. }
    apply Qmult_inj_l in E; assumption.
  - intro H. rewrite H. field. auto.
Qed.

(** X16.  The downloaded picture has the size of the image and carries each
    bounding box at its own coordinates, x1, y1 with width x2 - x1 and
    height y2 - y1.  The overlay of the result panel, 512 by 256, puts the
    same box at the same relative position exactly when the image is 640
    wide (for a box not at the left edge) and 480 high (for a box not at
    the top edge). *)
Theorem overlay_agrees_with_download_at_640x480
  (env : Browser) (file : UploadedFile.t) (r : AnomalyResult.t)
  (d : Download) (boxes : list BoundingBox.t) (box : BoundingBox.t)
  (x1 y1 x2 y2 : Q) :
  downloadProcessedImage env file r = Downloaded d ->
  AnomalyResult.bounding_boxes r = Some boxes ->
  In box boxes ->
  BoundingBox.bbox box = (x1, y1, x2, y2) ->
  0 < canvasWidth d -> 0 < canvasHeight d ->
  loadedImage env (imageSource file) = Some (canvasWidth d, canvasHeight d)
  /\ In (StrokeRect (if BoundingBox.is_anomaly box
                     then "#ef4444" else "#22c55e")
                    3 x1 y1 (x2 - x1) (y2 - y1))
        (drawn d)
  /\ (~ x1 == 0 ->
      (left (overlayStyle box) / 512 == x1 / canvasWidth d
       <-> canvasWidth d == 640))
  /\ (~ y1 == 0 ->
      (top (overlayStyle box) / 256 == y1 / canvasHeight d
       <-> canvasHeight d == 480)).
Proof.
  intros Hd Hb Hin Hbox HW HH.
  unfold downloadProcessedImage in Hd.
  destruct (hasContext env); [| discriminate]. cbn [negb] in Hd.
  destruct (loadedImage env (imageSource file)) as [[w h] |];
    [| discriminate].
  injection Hd as <-. cbn [canvasWidth canvasHeight drawn] in *.
  split; [reflexivity |]. split; [| split].
  - right. rewrite Hb. apply in_flat_map. exists box. split; [assumption |].
    unfold drawBox. rewrite Hbox. now left.
  - intro Hx. unfold overlayStyle. rewrite Hbox. cbn [left].
    apply rescaled_iff; [assumption | reflexivity | reflexivity | assumption].
  - intro Hy. unfold overlayStyle. rewrite Hbox. cbn [top].
    apply rescaled_iff; [assumption | reflexivity | reflexivity | assumption].
Qed.

(** X17.  A download does nothing at all without a 2d context, and when the
    image cannot be loaded it draws and saves nothing and shows one
    destructive Download Failed toast; otherwise the file is saved as
    anomaly_, the anomaly type, an underscore and the original name. *)
Theorem download_outcomes
  (env : Browser) (file : UploadedFile.t) (r : AnomalyResult.t) :
  (hasContext env = false ->
   downloadProcessedImage env file r = NothingDone)
  /\ (hasContext env = true ->
      loadedImage env (imageSource file) = None ->
      exists t, downloadProcessedImage env file r = DownloadFailed t
                /\ Toast.title t = "Download Failed"
                /\ Toast.variant t = Some "destructive")
  /\ (forall d, downloadProcessedImage env file r = Downloaded d ->
                hasBlob env = true ->
                savedAs d = Some ("anomaly_" ++ AnomalyResult.anomalyType r
                                  ++ "_" ++ UploadedFile.originalName file)
                /\ List.length (drawn d)
                   = S (3 * match AnomalyResult.bounding_boxes r with
                            | Some boxes => List.length boxes
                            | None => 0
                            end)).
Proof.
  unfold downloadProcessedImage. split; [| split].
  - now intros ->.
  - intros -> ->. cbn [negb]. eexists. repeat split.
  - intros d Hd Hblob.
    destruct (hasContext env); [| discriminate]. cbn [negb] in Hd.
    destruct (loadedImage env (imageSource file)) as [[w h] |];
      [| discriminate].
    injection Hd as <-. cbn [savedAs drawn]. rewrite Hblob.
    split; [reflexivity |]. cbn [Datatypes.length]. f_equal.
    destruct (AnomalyResult.bounding_boxes r) as [boxes |]; [| reflexivity].
    induction boxes as [| b bs IH]; [reflexivity |].
    cbn [flat_map]. rewrite length_app, IH.
    unfold drawBox. destruct (BoundingBox.bbox b) as [[[a1 b1] a2] b2].
    cbn [Datatypes.length]. lia.
Qed.

End DownloadedImage.

(** ** AnomalyAnalysis: a whole drop *)

Section WholeDrop.
Import AnomalyAnalysis.

(** X18.  A drop is handled file by file: there is exactly one action per
    file, a rejected file does not keep the files after it from being
    uploaded, and the uploads are the files within both limits, in the
    order of the drop.  A file that is too large gets the File Too Large
    toast whatever its type. *)
Theorem onDrop_uploads_accepted_in_order (acceptedFiles : list File.t) :
  List.length (onDrop acceptedFiles) = List.length acceptedFiles
  /\ flat_map (fun a => match a with
                        | UploadFile file => [file]
                        | ShowToast _ => []
                        end) (onDrop acceptedFiles)
     = filter (fun file => (File.size file <=? 50 * 1024 * 1024)%N
                           && includes allowedTypes (File.type file))
              acceptedFiles
  /\ (forall file, In file acceptedFiles ->
                   (50 * 1024 * 1024 < File.size file)%N ->
                   exists t, onDropFile file = ShowToast t
                             /\ Toast.title t = "File Too Large").
Proof.
  split; [apply length_map |]. split.
  - unfold onDrop. induction acceptedFiles as [| f fs IH]; [reflexivity |].
    cbn [map flat_map filter]. rewrite IH. unfold onDropFile.
    rewrite N.leb_antisym.
    destruct (50 * 1024 * 1024 <? File.size f)%N; [reflexivity |].
    now destruct (includes allowedTypes (File.type f)).
  - intros file _ Hbig. unfold onDropFile.
    apply N.ltb_lt in Hbig. rewrite Hbig. eexists. split; reflexivity.
Qed.

End WholeDrop.

(* ===================================================================== *)
(** * Instances of the further properties                                 *)
(* ===================================================================== *)

Section MoreInstances.
Import AnomalyAnalysis.

Lemma snapshot_overwrites_six_fields_witness :
  Js.truthy Sample.exhausted = true
  /\ In "privacyBudget" RealtimeMetrics.snapshotFields
  /\ Js.get (RealtimeMetrics.onInitialMetrics Sample.exhausted
                                              Sample.pushedState)
            "privacyBudget"
     = Js.get (RealtimeMetrics.onInitialMetrics Sample.exhausted
                                                RealtimeMetrics.initialState)
              "privacyBudget"
  /\ ~ In "region" RealtimeMetrics.snapshotFields
  /\ Js.get (RealtimeMetrics.onInitialMetrics Sample.exhausted
                                              Sample.pushedState) "region"
     = Js.Str "eu".
Proof.
  assert (Hin : In "privacyBudget" RealtimeMetrics.snapshotFields)
    by (cbn; auto 10).
  assert (Hout : ~ In "region" RealtimeMetrics.snapshotFields).
  { cbn. intros [H | [H | [H | [H | [H | [H | []]]]]]]; discriminate. }
  split; [reflexivity |]. split; [exact Hin |].
  split; [exact (proj1 (snapshot_overwrites_six_fields
                          Sample.exhausted Sample.pushedState
                          RealtimeMetrics.initialState "privacyBudget"
                          eq_refl) Hin) |].
  split; [exact Hout |].
  exact (proj2 (snapshot_overwrites_six_fields
                  Sample.exhausted Sample.pushedState
                  RealtimeMetrics.initialState "region" eq_refl) Hout).
Defined.

Lemma exhausted_budget_shown_as_full_witness :
  Js.truthy Sample.exhausted = true
  /\ Js.optGet (Js.get Sample.exhausted "security") "privacyBudgetRemaining"
     = Js.Num 0
  /\ Js.get (RealtimeMetrics.onInitialMetrics Sample.exhausted
                                              Sample.pushedState)
            "privacyBudget" = Js.Num 6.0
  /\ RealtimeMetrics.privacyBudgetText
       (RealtimeMetrics.onInitialMetrics Sample.exhausted Sample.pushedState)
     = Some "6.0".
Proof.
  split; [reflexivity |]. split; [reflexivity |].
  destruct (exhausted_budget_shown_as_full
              Sample.exhausted Sample.pushedState eq_refl) as [H _].
  apply H. right. exists 0. split; reflexivity.
Defined.

Lemma round_progress_is_85_or_0_witness :
  Js.truthy Sample.exhausted = true
  /\ Js.optGet (Js.get Sample.exhausted "fl") "currentRound" = Js.Num 7
  /\ ~ 7 == 0
  /\ Js.get (RealtimeMetrics.onInitialMetrics Sample.exhausted
                                              RealtimeMetrics.initialState)
            "flProgress" = Js.Num 85.
Proof.
  assert (H7 : ~ 7 == 0) by discriminate.
  split; [reflexivity |]. split; [reflexivity |]. split; [exact H7 |].
  destruct (round_progress_is_85_or_0
              Sample.exhausted RealtimeMetrics.initialState eq_refl)
    as [_ [H _]].
  exact (H 7 eq_refl H7).
Defined.

Lemma fetched_history_is_not_capped_witness :
  WebSocket.type Sample.anomalyDetected = "anomaly_detected"
  /\ List.length
       (AnomalyList.onLastMessage
          (Some Sample.anomalyDetected)
          (AnomalyList.onInitialAnomalies (Js.Arr (repeat Js.Null 12)) []))
     = 10%nat
  /\ AnomalyList.onInitialAnomalies (Js.Str "Internal Server Error")
                                    [Js.Null] = [Js.Null].
Proof.
  destruct (fetched_history_is_not_capped
              (repeat Js.Null 12) [] [] Sample.anomalyDetected eq_refl)
    as [_ [_ [H1 _]]].
  destruct (fetched_history_is_not_capped
              [] [Js.Null] [] Sample.anomalyDetected eq_refl)
    as [_ [_ [_ H2]]].
  split; [reflexivity |]. split; [exact H1 |].
  apply H2. discriminate.
Defined.

Lemma severity_colours_agree_witness :
  Js.isAscii "High" = true
  /\ AnomalyList.getSeverityColor (Js.toUpperCase "High")
     = AnomalyList.getSeverityColor "High"
  /\ AnomalyList.getSeverityBorderColor "High" = "border-l-red-500".
Proof.
  split; [reflexivity |].
  destruct (severity_colours_agree "High") as [_ H].
  split; [exact (proj1 (H eq_refl)) | reflexivity].
Defined.

Lemma formatAnomalyType_swaps_underscores_witness :
  Js.isAscii "unauthorized_access_attempt" = true
  /\ AnomalyList.formatAnomalyType "unauthorized_access_attempt"
     = "Unauthorized Access Attempt"
  /\ Js.count "_" (AnomalyList.formatAnomalyType
                     "unauthorized_access_attempt") = 0%nat.
Proof.
  split; [reflexivity |]. split; [reflexivity |].
  exact (proj1 (proj2 (formatAnomalyType_swaps_underscores
                         "unauthorized_access_attempt" eq_refl))).
Defined.

Lemma failed_upload_starts_no_loop_witness :
  (forall uploadedFile, PostNotOk <> PostOk uploadedFile)
  /\ uploadedFiles
       (page (uploadFile_settle Sample.png PostNotOk
                                (uploadFile_begin Sample.clickedPage) [] []))
     = uploadedFiles Sample.clickedPage
  /\ candidates (uploadFile_settle Sample.png PostNotOk
                                   (uploadFile_begin Sample.clickedPage) [] [])
     = [].
Proof.
  assert (H : forall uploadedFile, PostNotOk <> PostOk uploadedFile)
    by discriminate.
  destruct (failed_upload_starts_no_loop
              Sample.png PostNotOk (uploadFile_begin Sample.clickedPage)
              [] [] H) as [H1 [_ [_ [_ [_ [H2 _]]]]]].
  split; [exact H |]. split; [exact H1 | exact H2].
Defined.

Lemma run_keeps_rows_and_selection_witness :
  selectedFileId (page Sample.loop0) = None
  /\ selectedResult (page (run Sample.promptNetwork enough 100000
                               Sample.loop0)) = Some Sample.intrusion
  /\ overlays (page (run Sample.promptNetwork enough 100000 Sample.loop0))
     = [].
Proof.
  split; [reflexivity |]. split; [vm_compute; reflexivity |].
  destruct (run_keeps_rows_and_selection
              Sample.promptNetwork enough 100000 Sample.loop0)
    as [_ [_ [_ [_ H]]]].
  apply H. reflexivity.
Defined.

Lemma click_selects_and_shows_boxes_witness :
  UploadedFile.analysisResults (Sample.record "analyzed" (Some Sample.intrusion))
  = Some Sample.intrusion
  /\ overlays (onClickFile (Sample.record "analyzed" (Some Sample.intrusion))
                           (page (run Sample.promptNetwork enough 100000
                                      Sample.loop0)))
     = [overlayStyle Sample.person]
  /\ onClickFile (Sample.record "processing" None) Sample.emptyPage
     = Sample.emptyPage.
Proof.
  destruct (click_selects_and_shows_boxes
              (page (run Sample.promptNetwork enough 100000 Sample.loop0))
              (Sample.record "analyzed" (Some Sample.intrusion)))
    as [H1 _].
  destruct (click_selects_and_shows_boxes
              Sample.emptyPage (Sample.record "processing" None))
    as [_ H2].
  split; [reflexivity |]. split; [| exact (H2 eq_refl)].
  destruct (H1 Sample.intrusion [Sample.person]
               "/uploads/1700000000-gate.png" eq_refl) as [_ [_ H]].
  apply H; [vm_compute; reflexivity | reflexivity | discriminate
            | reflexivity].
Defined.

Lemma clock_icon_iff_still_polling_witness :
  settled (Sample.record "processing" None) = false
  /\ fst (getStatusIcon
            (UploadedFile.status (Sample.record "processing" None))) = Clock
  /\ settled (Sample.record "queued" None) = true
  /\ fst (getStatusIcon (UploadedFile.status (Sample.record "queued" None)))
     = Upload.
Proof.
  destruct (clock_icon_iff_still_polling (Sample.record "processing" None))
    as [H1 _].
  destruct (clock_icon_iff_still_polling (Sample.record "queued" None))
    as [_ [_ [_ H2]]].
  split; [reflexivity |]. split; [exact (proj2 H1 eq_refl) |].
  split; [reflexivity |].
  apply H2; [reflexivity | discriminate | discriminate].
Defined.

Lemma badge_replaces_first_underscore_only_witness :
  AnomalyResult.anomalyType Sample.tailgating
  = "restricted" ++ "_" ++ "area_entry"
  /\ Js.count "_" "restricted" = 0%nat
  /\ badgeText Sample.tailgating = "restricted area_entry (uncertain)"
  /\ Js.count "_" (AnomalyResult.anomalyType Sample.intrusion) = 0%nat
  /\ badgeText Sample.intrusion = "intrusion detected".
Proof.
  destruct (badge_replaces_first_underscore_only Sample.tailgating)
    as [Hfirst _].
  destruct (badge_replaces_first_underscore_only Sample.intrusion)
    as [_ [Hnone _]].
  split; [reflexivity |]. split; [reflexivity |].
  split; [exact (Hfirst "restricted" "area_entry" eq_refl eq_refl) |].
  split; [reflexivity |].
  exact (Hnone eq_refl).
Defined.

Lemma poll_loop_always_ends_witness :
  (forall k, (k < 30)%nat -> (latency (Sample.processingNetwork k) <= 300)%N)
  /\ candidates (runUntil Sample.processingNetwork (60000 + 300) Sample.loop0)
     = [].
Proof.
  assert (H : forall k, (k < 30)%nat ->
                        (latency (Sample.processingNetwork k) <= 300)%N)
    by (intros k _; cbn; lia).
  split; [exact H |].
  exact (proj1 (poll_loop_always_ends
                  Sample.processingNetwork Sample.png
                  (Sample.record "uploaded" None)
                  (uploadFile_begin Sample.emptyPage) [] [] 300 H)).
Defined.

Lemma processingNetwork_stuck : stuck "f1" Sample.processingNetwork.
Proof. intro k. eexists. split; reflexivity. Defined.

Lemma driftingNetwork_stuck : stuck "f1" Sample.driftingNetwork.
Proof. intro k. eexists. split; reflexivity. Defined.

Lemma stuck_file_is_given_up_silently_witness :
  (stuck (UploadedFile.id (Sample.record "uploaded" None))
         Sample.processingNetwork
   /\ (60000 <= 100000)%N
   /\ (enough <= enough)%nat
   /\ startedAt (run Sample.processingNetwork enough 100000 Sample.loop0)
      = map (fun k => (2000 * N.of_nat (S k))%N) (seq 0 30)
   /\ page (run Sample.processingNetwork enough 100000 Sample.loop0)
      = page Sample.loop0)
  /\ (stuck (UploadedFile.id (Sample.record "uploaded" None))
            Sample.driftingNetwork
      /\ startedAt (run Sample.driftingNetwork enough 100000 Sample.loop0)
         = map (fun k => (2000 * N.of_nat (S k))%N) (seq 0 29)
      /\ page (run Sample.driftingNetwork enough 100000 Sample.loop0)
         = page Sample.loop0).
Proof.
  assert (H1 : (60000 <= 100000)%N) by lia.
  assert (H2 : (enough <= enough)%nat) by lia.
  destruct (stuck_file_is_given_up_silently
              Sample.processingNetwork Sample.png
              (Sample.record "uploaded" None)
              (uploadFile_begin Sample.emptyPage) [] [] enough 100000
              processingNetwork_stuck H1 H2) as [H3 [H4 _]].
  destruct (stuck_file_is_given_up_silently
              Sample.driftingNetwork Sample.png
              (Sample.record "uploaded" None)
              (uploadFile_begin Sample.emptyPage) [] [] enough 100000
              driftingNetwork_stuck H1 H2) as [H5 [H6 _]].
  split.
  - split; [exact processingNetwork_stuck |]. split; [exact H1 |].
    split; [exact H2 |]. split; [exact H3 | exact H4].
  - split; [exact driftingNetwork_stuck |]. split; [exact H5 | exact H6].
Defined.

Lemma overlay_agrees_with_download_at_640x480_witness :
  downloadProcessedImage Sample.browser
                         (Sample.record "analyzed" (Some Sample.intrusion))
                         Sample.intrusion
  = Downloaded Sample.download
  /\ 0 < canvasWidth Sample.download
  /\ ~ 64 == 0
  /\ ~ canvasWidth Sample.download == 640
  /\ ~ left (overlayStyle Sample.person) / 512
       == 64 / canvasWidth Sample.download.
Proof.
  assert (Hx : ~ 64 == 0) by discriminate.
  assert (Hw : ~ canvasWidth Sample.download == 640) by discriminate.
  destruct (overlay_agrees_with_download_at_640x480
              Sample.browser
              (Sample.record "analyzed" (Some Sample.intrusion))
              Sample.intrusion Sample.download [Sample.person] Sample.person
              64 48 320 240 eq_refl eq_refl (or_introl eq_refl) eq_refl
              eq_refl eq_refl) as [_ [_ [H _]]].
  split; [reflexivity |]. split; [reflexivity |]. split; [exact Hx |].
  split; [exact Hw |].
  intro E. apply Hw. exact (proj1 (H Hx) E).
Defined.

Lemma download_outcomes_witness :
  hasBlob Sample.browser = true
  /\ savedAs Sample.download = Some "anomaly_intrusion_gate.png"
  /\ List.length (drawn Sample.download) = 4%nat.
Proof.
  destruct (download_outcomes
              Sample.browser
              (Sample.record "analyzed" (Some Sample.intrusion))
              Sample.intrusion) as [_ [_ H]].
  destruct (H Sample.download eq_refl eq_refl) as [H1 H2].
  split; [reflexivity |]. split; [exact H1 | exact H2].
Defined.

Lemma onDrop_uploads_accepted_in_order_witness :
  In Sample.hugeVideo [Sample.hugeVideo; Sample.pdf; Sample.png]
  /\ (50 * 1024 * 1024 < File.size Sample.hugeVideo)%N
  /\ (exists t, onDropFile Sample.hugeVideo = ShowToast t
                /\ Toast.title t = "File Too Large")
  /\ flat_map (fun a => match a with
                        | UploadFile file => [file]
                        | ShowToast _ => []
                        end)
              (onDrop [Sample.hugeVideo; Sample.pdf; Sample.png])
     = [Sample.png].
Proof.
  assert (Hin : In Sample.hugeVideo
                   [Sample.hugeVideo; Sample.pdf; Sample.png])
    by (now left).
  assert (Hbig : (50 * 1024 * 1024 < File.size Sample.hugeVideo)%N)
    by (cbn; lia).
  destruct (onDrop_uploads_accepted_in_order
              [Sample.hugeVideo; Sample.pdf; Sample.png])
    as [_ [H1 H2]].
  split; [exact Hin |]. split; [exact Hbig |].
  split; [exact (H2 Sample.hugeVideo Hin Hbig) | exact H1].
Defined.

End MoreInstances.
